(** * Notification dispatch pipeline of the WhatsApp automation web app

    A shallow embedding of [src/app.py]: the start request handler
    ([start_messaging]), the background worker ([run_messaging_process])
    with its helpers ([initialize_webdriver_for_webapp],
    [check_session_webapp], [send_whatsapp_message_webapp]) and the shared
    [message_status] dictionary.

    Python strings are modelled as [string], a sequence of characters with
    codes 0..255.  Everything the program obtains from outside (the file
    system, pandas, the clock, the browser) is read from an explicit
    [World] record, so that each run is a function of its environment. *)

From Stdlib Require Import ZArith Ascii String Lia.
From stdpp Require Import base list strings gmap.

(** ** Python string primitives *)

Module PyStr.

(** [str.isspace] on one character, for code points below 256:
    TAB..CR, FS..US, SPACE, NEL and NBSP. *)
Definition isspace (c : ascii) : bool :=
  let n := nat_of_ascii c in
  ((9 <=? n) && (n <=? 13)) || ((28 <=? n) && (n <=? 32))
  || (n =? 133) || (n =? 160).

(** [s.lstrip()] *)
Fixpoint lstrip (s : string) : string :=
  match s with
  | EmptyString => EmptyString
  | String c s' => if isspace c then lstrip s' else s
  end.

(** [s.rstrip()] *)
Fixpoint rstrip (s : string) : string :=
  match s with
  | EmptyString => EmptyString
  | String c s' =>
      match rstrip s' with
      | EmptyString => if isspace c then EmptyString else String c EmptyString
      | r => String c r
      end
  end.

(** [s.strip()] *)
Definition strip (s : string) : string := rstrip (lstrip s).

(** [s.replace(old, new)] for a non-empty [old]: scan from the left, and
    at every position where [old] starts emit [new] and jump over the
    occurrence.  [skip] counts the characters of a matched occurrence
    that are still to be jumped over. *)
Fixpoint replace_from (old new : string) (skip : nat) (s : string) : string :=
  match s with
  | EmptyString => EmptyString
  | String c s' =>
      match skip with
      | S k => replace_from old new k s'
      | 0 =>
          if String.prefix old s
          then new +:+ replace_from old new (String.length old - 1) s'
          else String c (replace_from old new 0 s')
      end
  end.

(** [s.replace(old, new)] for the empty [old]: [new] is inserted before
    every character and at the end. *)
Fixpoint intersperse (new s : string) : string :=
  match s with
  | EmptyString => new
  | String c s' => new +:+ String c (intersperse new s')
  end.

Definition replace (old new s : string) : string :=
  match old with
  | EmptyString => intersperse new s
  | String _ _ => replace_from old new 0 s
  end.

(** [s.endswith(suffix)] *)
Fixpoint endswith (s suffix : string) : bool :=
  String.eqb s suffix
  || match s with
     | EmptyString => false
     | String _ s' => endswith s' suffix
     end.

(** [c in s] for a single character. *)
Fixpoint contains (c : ascii) (s : string) : bool :=
  match s with
  | EmptyString => false
  | String d s' => Ascii.eqb c d || contains c s'
  end.

(** Keep the characters of [s] that satisfy [p]. *)
Fixpoint keep (p : ascii -> bool) (s : string) : string :=
  match s with
  | EmptyString => EmptyString
  | String c s' => if p c then String c (keep p s') else keep p s'
  end.

(** Every character of [s] satisfies [p]. *)
Fixpoint all (p : ascii -> bool) (s : string) : bool :=
  match s with
  | EmptyString => true
  | String c s' => p c && all p s'
  end.

End PyStr.

(** ** Recipient records *)

(** A row of the frame returned by [pd.read_csv]: the six required columns,
    each cell as text. *)
Record RawRow := {
  raw_Client : string;
  raw_Contact : string;
  raw_NextHearingDate : string;
  raw_Category : string;
  raw_TypRnRy : string;
  raw_Parties : string
}.

(** A row of [clients] after the date column was converted: a date is its
    proleptic ordinal ([date.toordinal()]), [None] stands for [NaT]. *)
Record Row := {
  Client : string;
  Contact : string;
  NextHearingDate : option Z;
  Category : string;
  TypRnRy : string;
  Parties : string
}.

(** One cell of [df['Contact']] after [.str.replace] of the one-space
    string by the empty string, followed by [.str.strip()]. *)
Definition normalize_contact (s : string) : string :=
  PyStr.strip (PyStr.replace " " EmptyString s).

(** The assignment to [df['Contact']] in [run_messaging_process]. *)
Definition process_csv (df : list RawRow) : list RawRow :=
  fmap (fun r =>
         {| raw_Client := raw_Client r;
            raw_Contact := normalize_contact (raw_Contact r);
            raw_NextHearingDate := raw_NextHearingDate r;
            raw_Category := raw_Category r;
            raw_TypRnRy := raw_TypRnRy r;
            raw_Parties := raw_Parties r |}) df.

(** The source contact with all whitespace removed, as the specification
    words it. *)
Definition remove_whitespace (s : string) : string :=
  PyStr.keep (fun c => negb (PyStr.isspace c)) s.

Definition is_blank (c : ascii) : bool := Ascii.eqb c " ".

(** The source contact without its space characters. *)
Definition remove_blanks (s : string) : string :=
  PyStr.keep (fun c => negb (is_blank c)) s.

(** The space character is the only whitespace that occurs in [s]. *)
Definition only_blank_whitespace (s : string) : Prop :=
  PyStr.all (fun c => implb (PyStr.isspace c) (is_blank c)) s = true.

(** ** Library functions the program calls

    The three library functions whose results the program only passes on:
    date parsing by [pd.to_datetime(..., errors='coerce').dt.date] (the
    first argument is the whole column, which pandas may inspect to pick a
    format; the second is the cell), [str] of a [datetime.date], and
    [urllib.parse.quote]. *)
Class PyLib := {
  to_datetime : list string -> string -> option Z;
  date_str : Z -> string;
  quote : string -> string
}.

(** ** The shared status dictionary *)

Record MessageResult := {
  client : string;
  contact : string;
  status : string
}.

Record MessageStatus := {
  is_running : bool;
  current_step : string;
  progress : nat;
  total : nat;
  messages : list MessageResult
}.

(** The module-level value of [message_status]. *)
Definition message_status : MessageStatus :=
  {| is_running := false; current_step := EmptyString; progress := 0;
     total := 0; messages := [] |}.

(** ** Atomic effects of the worker

    Each statement of the worker that writes one key of [message_status],
    or that acts on the browser or the clock, is one [Action].  A run of
    the worker is the list of its actions in program order; a poller of
    [/status] may observe the dictionary between any two of them.  The
    actions on the browser are those of the sends and the closing of the
    browser; starting the browser, with the page load that belongs to it,
    is one step of the environment and no action. *)
Inductive Action :=
| SetIsRunning (b : bool)
| SetCurrentStep (s : string)
| SetProgress (n : nat)
| SetTotal (n : nat)
| ResetMessages
| AppendMessage (m : MessageResult)
| DriverGet (url : string)
| WaitClickable (xpath : string)
| Click (xpath : string)
| Sleep (secs : nat)
| DriverQuit.

Definition apply_action (a : Action) (st : MessageStatus) : MessageStatus :=
  match a with
  | SetIsRunning b =>
      {| is_running := b; current_step := current_step st;
         progress := progress st; total := total st; messages := messages st |}
  | SetCurrentStep s =>
      {| is_running := is_running st; current_step := s;
         progress := progress st; total := total st; messages := messages st |}
  | SetProgress n =>
      {| is_running := is_running st; current_step := current_step st;
         progress := n; total := total st; messages := messages st |}
  | SetTotal n =>
      {| is_running := is_running st; current_step := current_step st;
         progress := progress st; total := n; messages := messages st |}
  | ResetMessages =>
      {| is_running := is_running st; current_step := current_step st;
         progress := progress st; total := total st; messages := [] |}
  | AppendMessage m =>
      {| is_running := is_running st; current_step := current_step st;
         progress := progress st; total := total st;
         messages := messages st ++ [m] |}
  | DriverGet _ | WaitClickable _ | Click _ | Sleep _ | DriverQuit => st
  end.

(** The dictionary after a list of actions. *)
Definition exec (acts : list Action) (st : MessageStatus) : MessageStatus :=
  foldl (fun s a => apply_action a s) st acts.

(** Every value of the dictionary a poller can observe during [acts]. *)
Fixpoint trace (acts : list Action) (st : MessageStatus) : list MessageStatus :=
  match acts with
  | [] => []
  | a :: rest => apply_action a st :: trace rest (apply_action a st)
  end.

(** The values of the dictionary right after the actions selected by [p]. *)
Fixpoint states_after (p : Action -> bool) (acts : list Action)
    (st : MessageStatus) : list MessageStatus :=
  match acts with
  | [] => []
  | a :: rest =>
      (if p a then [apply_action a st] else [])
      ++ states_after p rest (apply_action a st)
  end.

(** ** The worker monad: emitted actions and exceptions

    An exception is represented by [str(e)]; only instances of
    [Exception], the class every handler of the program names, occur. *)
Definition Exn := string.

Inductive Result (A : Type) :=
| Ok (a : A)
| Raise (e : Exn).
Arguments Ok {A} a.
Arguments Raise {A} e.

Definition M (A : Type) : Type := (list Action * Result A)%type.

#[export] Instance M_ret : MRet M := fun A a => ([], Ok a).

#[export] Instance M_bind : MBind M := fun A B f m =>
  match m with
  | (acts, Ok a) => let '(acts', r) := f a in (acts ++ acts', r)
  | (acts, Raise e) => (acts, Raise e)
  end.

(** A call into the environment: the action [a] happens, with outcome [r]. *)
Definition call {A} (a : Action) (r : Result A) : M A := ([a], r).

(** An action that cannot fail. *)
Definition tell (a : Action) : M unit := call a (Ok tt).

(** A read from the environment that leaves no action. *)
Definition lift {A} (r : Result A) : M A := ([], r).

(** [raise e] *)
Definition raise {A} (e : Exn) : M A := ([], Raise e).

(** [try: body / except Exception as e: handler e] *)
Definition try_except {A} (body : M A) (handler : Exn -> M A) : M A :=
  match body with
  | (acts, Ok a) => (acts, Ok a)
  | (acts, Raise e) => let '(acts', r) := handler e in (acts ++ acts', r)
  end.

(** The computation [m] once the actions [acts] have happened. *)
Definition prepend {A} (acts : list Action) (m : M A) : M A :=
  (acts ++ fst m, snd m).

(** ** The environment of one run *)

Record Config := {
  notification_contact1 : string;
  notification_contact2 : string;
  user_data_type : string
}.

(** The page while one message is being sent. *)
Record Browser := {
  br_get : string -> Result unit;
  br_wait_clickable : string -> Result unit;
  br_click : string -> Result unit
}.

Record World := {
  (** [os.path.exists('config.json')] *)
  w_config_exists : bool;
  (** [open] and [json.load] of the configuration file *)
  w_config_load : Result Config;
  (** [pd.read_csv(csv_path, dtype={'Contact': str})] and what lines 247
      to 258 take from the frame, the rows under the six columns; or the
      exception that one of these lines raises *)
  w_read_csv : string -> Result (list RawRow);
  (** an exception of [w_read_csv] is raised by the selection of the six
      columns (lines 254 to 258), after the step [Filtering clients...]
      was written, and not by reading the file or by normalising
      [Contact] (lines 246 and 247) *)
  w_fails_selecting : bool;
  (** [open(file_path, 'r')] followed by [f.read()] *)
  w_read_file : string -> Result string;
  (** [datetime.now().date()] as an ordinal *)
  w_now_date : Z;
  (** installing the driver, starting Chrome and loading the page
      [https://web.whatsapp.com] (lines 331 to 334); this first page load
      is part of the start of the browser and is not recorded as an
      action of its own *)
  w_chrome : Result unit;
  (** waiting up to 30 seconds for the element with id [pane-side] *)
  w_pane_side : Result unit;
  (** the page during the send of the record with the given index *)
  w_browser : nat -> Browser;
  (** [driver.quit()] *)
  w_quit : Result unit
}.

(** ** Filtering and rendering *)

Section Pipeline.
Context {py : PyLib}.

(** The column list of [clients]. *)
Definition columns : list string :=
  ["Client"; "Contact"; "NextHearingDate"; "Category"; "TypRnRy"; "Parties"].

Definition selected_categories : list string :=
  ["Active"; "NoClientsInstruction"].

(** [clients]: the six columns of [df], the date column converted. *)
Definition clients (df : list RawRow) : list Row :=
  let dates := raw_NextHearingDate <$> df in
  fmap (fun r =>
         {| Client := raw_Client r;
            Contact := raw_Contact r;
            NextHearingDate := to_datetime dates (raw_NextHearingDate r);
            Category := raw_Category r;
            TypRnRy := raw_TypRnRy r;
            Parties := raw_Parties r |}) df.

(** [today = datetime.now().date() + timedelta(days=6)] *)
Definition today (now_date : Z) : Z := (now_date + 6)%Z.

(** [clients[clients['Category'].isin(selected_categories)]] *)
Definition filtered_clients (cl : list Row) : list Row :=
  filter (fun r => Category r ∈ selected_categories) cl.

(** [filtered_clients[filtered_clients['NextHearingDate'] == today]] *)
Definition today_clients (cl : list Row) (day : Z) : list Row :=
  filter (fun r => NextHearingDate r = Some day) (filtered_clients cl).

(** [str(row[col])] when [col in row]. *)
Definition row_get (row : Row) (col : string) : option string :=
  if decide (col = "Client") then Some (Client row)
  else if decide (col = "Contact") then Some (Contact row)
  else if decide (col = "NextHearingDate") then
    Some (match NextHearingDate row with
          | Some d => date_str d
          | None => "NaT"
          end)
  else if decide (col = "Category") then Some (Category row)
  else if decide (col = "TypRnRy") then Some (TypRnRy row)
  else if decide (col = "Parties") then Some (Parties row)
  else None.

(** [f"{{{col}}}"] *)
Definition placeholder (col : string) : string := "{" +:+ col +:+ "}".

(** The placeholder loop of [run_messaging_process]. *)
Definition render (message_template : string) (row : Row) : string :=
  foldl (fun message col =>
           match row_get row col with
           | Some v => PyStr.replace (placeholder col) v message
           | None => message
           end) message_template columns.

(** *** Templates as the specification describes them: literal text and
    [{Name}] placeholders. *)
Inductive Piece :=
| Text (s : string)
| Hole (name : string).

Definition show_piece (p : Piece) : string :=
  match p with
  | Text s => s
  | Hole name => placeholder name
  end.

Fixpoint show_template (ps : list Piece) : string :=
  match ps with
  | [] => EmptyString
  | p :: rest => show_piece p +:+ show_template rest
  end.

(** The renderer in the specification's words: every placeholder that
    names a field is replaced by the field's value, every other piece is
    kept as it is. *)
Definition substitute_piece (row : Row) (p : Piece) : string :=
  match p with
  | Text s => s
  | Hole name =>
      match row_get row name with
      | Some v => v
      | None => placeholder name
      end
  end.

Fixpoint substitute (ps : list Piece) (row : Row) : string :=
  match ps with
  | [] => EmptyString
  | p :: rest => substitute_piece row p +:+ substitute rest row
  end.

Definition no_open_brace (s : string) : Prop :=
  PyStr.contains "{" s = false.

Definition no_brace (s : string) : Prop :=
  PyStr.contains "{" s = false /\ PyStr.contains "}" s = false.

(** A template whose split into pieces is unambiguous. *)
Definition well_formed_piece (p : Piece) : Prop :=
  match p with
  | Text s => no_open_brace s
  | Hole name => no_brace name
  end.

(** The values of the six fields of [row] contain no opening brace. *)
Definition plain_values (row : Row) : Prop :=
  Forall (fun col => match row_get row col with
                     | Some v => no_open_brace v
                     | None => True
                     end) columns.

(** The pieces once the placeholder of [col] was replaced by [v]. *)
Definition fill_piece (col v : string) (p : Piece) : Piece :=
  match p with
  | Text s => Text s
  | Hole name => if decide (name = col) then Text v else Hole name
  end.

(** The pieces after the step of the placeholder loop for [col]. *)
Definition fill_column (row : Row) (ps : list Piece) (col : string)
    : list Piece :=
  match row_get row col with
  | Some v => fill_piece col v <$> ps
  | None => ps
  end.

(** ** The worker *)

(** Loading [config.json], or the built-in defaults. *)
Definition load_config (w : World) : M Config :=
  if w_config_exists w then lift (w_config_load w)
  else mret {| notification_contact1 := EmptyString;
               notification_contact2 := EmptyString;
               user_data_type := "shs" |}.

Definition template_files : list (string * string) :=
  [("Active", "templates/active_message.txt");
   ("NoClientsInstruction", "templates/no_instruction_message.txt")].

(** The loop over [template_files.items()]. *)
Fixpoint load_templates (w : World) (files : list (string * string))
    (templates : gmap string string) : M (gmap string string) :=
  match files with
  | [] => mret templates
  | (category, file_path) :: rest =>
      content ← lift (w_read_file w file_path);
      load_templates w rest (<[category := content]> templates)
  end.

(** The [try] block of lines 331 to 336 as one step: it returns the
    driver once Chrome runs and has loaded [https://web.whatsapp.com], and
    re-raises what any of its statements raises. *)
Definition initialize_webdriver_for_webapp (w : World) : M unit :=
  try_except (lift (w_chrome w)) (fun e => raise e).

Definition check_session_webapp (w : World) : M bool :=
  try_except (_ ← lift (w_pane_side w); mret true) (fun _ => mret false).

(** The double quote character, as a string. *)
Definition dq : string := String "034" EmptyString.

Definition send_button_xpaths : list string :=
  ["//*[@id=" +:+ dq +:+ "main" +:+ dq
     +:+ "]/footer/div[1]/div/span/div/div[2]/div/div[4]/button";
   "//span[@data-testid=" +:+ dq +:+ "send" +:+ dq +:+ "]"].

(** The loop over [send_button_xpaths]: the first candidate that becomes
    clickable and is clicked ends the loop with [True]. *)
Fixpoint click_send_button (br : Browser) (xpaths : list string) : M bool :=
  match xpaths with
  | [] => mret false
  | xpath :: rest =>
      clicked ← try_except
                  (_ ← call (WaitClickable xpath) (br_wait_clickable br xpath);
                   _ ← tell (Sleep 2);
                   _ ← call (Click xpath) (br_click br xpath);
                   mret true)
                  (fun _ => mret false);
      if clicked : bool then mret true else click_send_button br rest
  end.

Definition send_whatsapp_message_webapp (br : Browser)
    (name contact message : string) : M bool :=
  try_except
    (let encoded_message := quote message in
     let url := "https://web.whatsapp.com/send?phone=" +:+ contact
                +:+ "&text=" +:+ encoded_message in
     _ ← call (DriverGet url) (br_get br url);
     click_send_button br send_button_xpaths)
    (fun _ => mret false).

(** The entry appended for one record. *)
Definition message_result (name contact : string) (success : bool)
    : MessageResult :=
  {| client := name; contact := contact;
     status := if success then "Success" else "Failed" |}.

(** One iteration of the sending loop. *)
Definition send_one (w : World) (templates : gmap string string)
    (index : nat) (row : Row) : M unit :=
  let name := Client row in
  let contact := Contact row in
  let category := Category row in
  let message_template := default EmptyString (templates !! category) in
  let message := render message_template row in
  success ← send_whatsapp_message_webapp (w_browser w index) name contact message;
  _ ← tell (SetProgress (index + 1));
  _ ← tell (AppendMessage (message_result name contact success));
  tell (Sleep 5).

(** [for index, (_, row) in enumerate(today_clients.iterrows())] *)
Fixpoint send_messages (w : World) (templates : gmap string string)
    (index : nat) (rows : list Row) : M unit :=
  match rows with
  | [] => mret tt
  | row :: rest =>
      _ ← send_one w templates index row;
      send_messages w templates (S index) rest
  end.

(** The four assignments before the [try] block. *)
Definition initializing : M unit :=
  _ ← tell (SetIsRunning true);
  _ ← tell (SetCurrentStep "Initializing...");
  _ ← tell (SetProgress 0);
  tell ResetMessages.

(** The due records of a run on the frame [df]. *)
Definition due_records (w : World) (df : list RawRow) : list Row :=
  today_clients (clients (process_csv df)) (today (w_now_date w)).

(** Lines 246 and 247: reading the file and normalising [Contact] raise
    what [w_read_csv] raises, unless that is raised by the selection
    further down. *)
Definition read_and_normalize (w : World) (csv_path : string) : Result unit :=
  match w_read_csv w csv_path with
  | Raise e => if w_fails_selecting w then Ok tt else Raise e
  | Ok _ => Ok tt
  end.

(** The body of the [try] block. *)
Definition run_body (w : World) (csv_path : string) : M unit :=
  _ ← load_config w;
  _ ← tell (SetCurrentStep "Processing CSV file...");
  (* lines 246 and 247 *)
  _ ← lift (read_and_normalize w csv_path);
  _ ← tell (SetCurrentStep "Filtering clients...");
  (* lines 251 to 258: the frame with its six columns, or their exception *)
  df ← lift (w_read_csv w csv_path);
  let due := due_records w df in
  _ ← tell (SetTotal (length due));
  templates ← load_templates w template_files ∅;
  _ ← tell (SetCurrentStep "Initializing browser...");
  _ ← initialize_webdriver_for_webapp w;
  session ← check_session_webapp w;
  if negb session then
    _ ← tell (SetCurrentStep "Session check failed");
    tell (SetIsRunning false)
  else
    _ ← tell (SetCurrentStep "Sending messages...");
    _ ← send_messages w templates 0 due;
    _ ← call DriverQuit (w_quit w);
    _ ← tell (SetCurrentStep "Completed");
    tell (SetIsRunning false).

(** The [except Exception as e] clause. *)
Definition on_error (e : Exn) : M unit :=
  _ ← tell (SetCurrentStep ("Error: " +:+ e));
  tell (SetIsRunning false).

Definition run_messaging_process (w : World) (csv_path : string) : M unit :=
  _ ← initializing;
  try_except (run_body w csv_path) on_error.

(** The dictionary a run leaves behind when it starts from [st]. *)
Definition final_status (w : World) (csv_path : string)
    (st : MessageStatus) : MessageStatus :=
  exec (fst (run_messaging_process w csv_path)) st.

(** *** Names for the parts of a run *)

(** The actions between initialisation and the start of the browser, once
    the frame [df] was read. *)
Definition loading_actions (w : World) (df : list RawRow) : list Action :=
  [SetCurrentStep "Processing CSV file...";
   SetCurrentStep "Filtering clients...";
   SetTotal (length (due_records w df))].

(** The call of [send_whatsapp_message_webapp] for the record [row] at
    position [index] of the due records. *)
Definition send_call (w : World) (templates : gmap string string)
    (index : nat) (row : Row) : M bool :=
  send_whatsapp_message_webapp (w_browser w index) (Client row) (Contact row)
    (render (default EmptyString (templates !! Category row)) row).

(** What that call returned. *)
Definition send_success (w : World) (templates : gmap string string)
    (index : nat) (row : Row) : bool :=
  match snd (send_call w templates index row) with
  | Ok b => b
  | Raise _ => false
  end.

(** The actions of one iteration of the sending loop. *)
Definition iteration_actions (w : World) (templates : gmap string string)
    (index : nat) (row : Row) : list Action :=
  fst (send_call w templates index row)
  ++ [SetProgress (index + 1);
      AppendMessage (message_result (Client row) (Contact row)
                       (send_success w templates index row));
      Sleep 5].

End Pipeline.

(** [progress] equals the number of entries of [messages]. *)
Definition synced (st : MessageStatus) : Prop :=
  progress st = length (messages st).

(** What appending an entry before writing [progress] would guarantee to
    every poller: [progress] never runs ahead of the entries. *)
Definition appended_first (states : list MessageStatus) : Prop :=
  Forall (fun st => progress st <= length (messages st)) states.

(** The action writes no key of [message_status]. *)
Definition quiet (a : Action) : bool :=
  match a with
  | DriverGet _ | WaitClickable _ | Click _ | Sleep _ | DriverQuit => true
  | _ => false
  end.

(** The action writes neither [progress] nor [messages]. *)
Definition keeps_count (a : Action) : bool :=
  match a with
  | SetProgress _ | ResetMessages | AppendMessage _ => false
  | _ => true
  end.

(** Every action but the write of [progress]. *)
Definition steady (a : Action) : bool :=
  match a with
  | SetProgress _ => false
  | _ => true
  end.

(** The action drives the browser. *)
Definition browser_action (a : Action) : bool :=
  match a with
  | DriverGet _ | WaitClickable _ | Click _ => true
  | _ => false
  end.

(** ** The start request *)

(** A JSON answer with one key, and the HTTP status code. *)
Record Response := {
  resp_key : string;
  resp_text : string;
  resp_code : nat
}.

(** The directory [uploads]: file names with their [getctime]. *)
Definition Uploads := list (string * Z).

(** [max(upload_files, key=...)]: the first file with the greatest key. *)
Fixpoint max_by_ctime (best : string * Z) (files : list (string * Z))
    : string * Z :=
  match files with
  | [] => best
  | f :: rest => max_by_ctime (if (snd best <? snd f)%Z then f else best) rest
  end.

(** The handler of [/start_messaging]: its answer and, when a thread is
    started, the argument of [run_messaging_process].  The handler reads
    [message_status] and never writes it. *)
Definition start_messaging (st : MessageStatus) (uploads : Uploads)
    : Response * option string :=
  if is_running st then
    ({| resp_key := "error"; resp_text := "Messaging is already in progress";
        resp_code := 400 |}, None)
  else
    let upload_files := filter (fun f => PyStr.endswith (fst f) ".csv" = true) uploads in
    match upload_files with
    | [] =>
        ({| resp_key := "error"; resp_text := "Please upload a CSV file first";
            resp_code := 400 |}, None)
    | f :: rest =>
        let csv_path := "uploads/" +:+ fst (max_by_ctime f rest) in
        ({| resp_key := "success"; resp_text := "Messaging process started";
            resp_code := 200 |}, Some csv_path)
    end.

(** ** The process: one status dictionary, request handlers and workers

    A worker thread is the list of the actions it still has to perform.
    The scheduler runs a whole request handler, or one action of one
    worker, at a time. *)
Record System := {
  sys_status : MessageStatus;
  sys_workers : list (list Action);
  sys_responses : list Response
}.

Inductive Event :=
| StartRequest (uploads : Uploads)
| WorkerStep (tid : nat).

Section Process.
Context {py : PyLib}.

Definition sys_step (w : World) (s : System) (ev : Event) : System :=
  match ev with
  | StartRequest uploads =>
      let '(resp, spawned) := start_messaging (sys_status s) uploads in
      {| sys_status := sys_status s;
         sys_workers :=
           match spawned with
           | Some csv_path =>
               sys_workers s ++ [fst (run_messaging_process w csv_path)]
           | None => sys_workers s
           end;
         sys_responses := sys_responses s ++ [resp] |}
  | WorkerStep tid =>
      match sys_workers s !! tid with
      | Some (a :: rest) =>
          {| sys_status := apply_action a (sys_status s);
             sys_workers := <[tid := rest]> (sys_workers s);
             sys_responses := sys_responses s |}
      | _ => s
      end
  end.

Definition sys_run (w : World) (s : System) (evs : list Event) : System :=
  foldl (sys_step w) s evs.

(** The workers that were started and have not finished. *)
Definition active_workers (s : System) : list (list Action) :=
  filter (fun t => t <> []) (sys_workers s).

End Process.

(** The process right after start-up. *)
Definition sys_init : System :=
  {| sys_status := message_status; sys_workers := []; sys_responses := [] |}.

(** ** A concrete environment

    Three records as in the end-to-end scenario of the specification: A and
    C are due on the reference date, B one day later. *)
Module Demo.

Definition lib : PyLib :=
  {| to_datetime := fun _ cell =>
       if decide (cell = "2024-01-07") then Some 738892%Z
       else if decide (cell = "2024-01-08") then Some 738893%Z
       else None;
     date_str := fun d =>
       if decide (d = 738892%Z) then "2024-01-07" else "2024-01-08";
     quote := fun s => s |}.

Definition row_A : RawRow :=
  {| raw_Client := "Asha"; raw_Contact := "+91 98765 43210";
     raw_NextHearingDate := "2024-01-07"; raw_Category := "Active";
     raw_TypRnRy := "Civil"; raw_Parties := "Asha v Bank" |}.

Definition row_B : RawRow :=
  {| raw_Client := "Binod"; raw_Contact := "+91 91234 56780";
     raw_NextHearingDate := "2024-01-08"; raw_Category := "Active";
     raw_TypRnRy := "Civil"; raw_Parties := "Binod v State" |}.

Definition row_C : RawRow :=
  {| raw_Client := "Chitra"; raw_Contact := "+91 90000 11111";
     raw_NextHearingDate := "2024-01-07";
     raw_Category := "NoClientsInstruction";
     raw_TypRnRy := "Appeal"; raw_Parties := "Chitra v Board" |}.

(** A record whose client name is itself the text of a placeholder. *)
Definition row_nested : Row :=
  {| Client := "{Parties}"; Contact := "+911"; NextHearingDate := Some 738892%Z;
     Category := "Active"; TypRnRy := "Civil"; Parties := "Asha v Bank" |}.

Definition row_plain : Row :=
  {| Client := "Asha"; Contact := "+919876543210";
     NextHearingDate := Some 738892%Z;
     Category := "Active"; TypRnRy := "Civil"; Parties := "Asha v Bank" |}.

Definition template_pieces : list Piece :=
  [Text "Dear "; Hole "Client"; Text ", hearing of "; Hole "Parties";
   Text " on "; Hole "NextHearingDate"; Text " ref "; Hole "CaseNo"].

(** A page on which the first send button works. *)
Definition page_ok : Browser :=
  {| br_get := fun _ => Ok tt;
     br_wait_clickable := fun _ => Ok tt;
     br_click := fun _ => Ok tt |}.

(** A page on which no send button ever becomes clickable. *)
Definition page_stuck : Browser :=
  {| br_get := fun _ => Ok tt;
     br_wait_clickable := fun _ => Raise "TimeoutException";
     br_click := fun _ => Ok tt |}.

Definition read_file (path : string) : Result string :=
  if decide (path = "templates/active_message.txt")
  then Ok "Dear {Client}, hearing on {NextHearingDate}."
  else Ok "Dear {Client}, instruct us on {Parties}.".

Definition world (pane_side quit_result : Result unit) : World :=
  {| w_config_exists := false;
     w_config_load := Raise "unused";
     w_read_csv := fun _ => Ok [row_A; row_B; row_C];
     w_fails_selecting := false;
     w_read_file := read_file;
     w_now_date := 738886%Z;
     w_chrome := Ok tt;
     w_pane_side := pane_side;
     w_browser := fun index => if decide (index = 0) then page_ok else page_stuck;
     w_quit := quit_result |}.

(** Everything works. *)
Definition world_ok : World := world (Ok tt) (Ok tt).

(** No session is detected. *)
Definition world_no_session : World :=
  world (Raise "TimeoutException") (Ok tt).

(** Closing the browser fails after all messages were sent. *)
Definition world_quit_fails : World :=
  world (Ok tt) (Raise "browser already closed").

(** The dictionary left by an earlier run. *)
Definition stale_status : MessageStatus :=
  {| is_running := false; current_step := "Completed"; progress := 5;
     total := 5;
     messages := [ {| client := "Old"; contact := "+910"; status := "Success" |} ] |}.

(** The upload directory: two CSV files and one other file. *)
Definition uploads : Uploads :=
  [("old.csv", 10%Z); ("notes.txt", 30%Z); ("new.csv", 20%Z)].

(** Two start requests one after the other, before either worker thread
    has run its first statement. *)
Definition two_requests : list Event :=
  [StartRequest uploads; StartRequest uploads].

(** Both workers then run to their end, taking turns statement by
    statement. *)
Definition taking_turns : list Event :=
  concat (replicate 25 [WorkerStep 0; WorkerStep 1]).

(** A record whose hearing date cannot be parsed. *)
Definition row_undated : Row :=
  {| Client := "Esha"; Contact := "+912"; NextHearingDate := None;
     Category := "Active"; TypRnRy := "Civil"; Parties := "Esha v Firm" |}.

(** A contact with a TAB between its digit groups. *)
Definition row_tab : RawRow :=
  {| raw_Client := "Divya"; raw_Contact := "+91" +:+ String "009" "98765";
     raw_NextHearingDate := "2024-01-07"; raw_Category := "Active";
     raw_TypRnRy := "Civil"; raw_Parties := "Divya v Trust" |}.

End Demo.

(** ** Further parts of the program *)

(** *** More string primitives *)

Module PyText.

(** [c.lower()] for a character with a code below 256: the letters A..Z
    and the upper-case letters of Latin-1. *)
Definition lower_char (c : ascii) : ascii :=
  let n := nat_of_ascii c in
  if ((65 <=? n) && (n <=? 90))
     || ((192 <=? n) && (n <=? 222) && negb (n =? 215))
  then ascii_of_nat (n + 32)
  else c.

(** [s.lower()] *)
Fixpoint lower (s : string) : string :=
  match s with
  | EmptyString => EmptyString
  | String c s' => String (lower_char c) (lower s')
  end.

(** [s.rsplit(sep, 1)] for a one-character separator: the text before and
    after the last separator, or [s] alone when it has none. *)
Fixpoint rsplit1 (sep : ascii) (s : string) : list string :=
  match s with
  | EmptyString => [EmptyString]
  | String c s' =>
      match rsplit1 sep s' with
      | [before; after] => [String c before; after]
      | _ => if Ascii.eqb c sep then [EmptyString; s'] else [String c s']
      end
  end.

(** [sep.join(parts)] *)
Fixpoint join (sep : string) (parts : list string) : string :=
  match parts with
  | [] => EmptyString
  | [p] => p
  | p :: rest => p +:+ sep +:+ join sep rest
  end.

(** The carriage return and the line feed. *)
Definition cr : ascii := "013"%char.
Definition lf : ascii := "010"%char.

(** What [f.read()] returns for the text [s] of a file opened with
    [open(path, 'r')]: every CR LF and every other CR has become LF. *)
Fixpoint universal_newlines (s : string) : string :=
  match s with
  | EmptyString => EmptyString
  | String c rest =>
      if Ascii.eqb c cr then
        match rest with
        | String c' rest' =>
            if Ascii.eqb c' lf then String lf (universal_newlines rest')
            else String lf (universal_newlines rest)
        | EmptyString => String lf EmptyString
        end
      else String c (universal_newlines rest)
  end.

(** The text holds no carriage return. *)
Fixpoint no_cr (s : string) : bool :=
  match s with
  | EmptyString => true
  | String c rest => negb (Ascii.eqb c cr) && no_cr rest
  end.

(** [urllib.parse.quote(s)]: letters, digits and [_.-~/] stay, every other
    character becomes the percent escapes of its UTF-8 bytes. *)
Definition hex_digit (n : nat) : ascii :=
  ascii_of_nat (if n <? 10 then 48 + n else 55 + n).

Definition percent (n : nat) : string :=
  String "%" (String (hex_digit (n / 16))
                (String (hex_digit (n mod 16)) EmptyString)).

Definition never_quoted (c : ascii) : bool :=
  let n := nat_of_ascii c in
  ((48 <=? n) && (n <=? 57)) || ((65 <=? n) && (n <=? 90))
  || ((97 <=? n) && (n <=? 122))
  || (n =? 95) || (n =? 46) || (n =? 45) || (n =? 126) || (n =? 47).

Definition quote_char (c : ascii) : string :=
  let n := nat_of_ascii c in
  if never_quoted c then String c EmptyString
  else if n <? 128 then percent n
  else percent (192 + n / 64) +:+ percent (128 + n mod 64).

Fixpoint url_quote (s : string) : string :=
  match s with
  | EmptyString => EmptyString
  | String c rest => quote_char c +:+ url_quote rest
  end.

End PyText.

(** *** Upload validation *)

Definition ALLOWED_EXTENSIONS : list string := ["csv"; "txt"].

(** ['.' in filename and filename.rsplit('.', 1)[1].lower() in
    ALLOWED_EXTENSIONS] *)
Definition allowed_file (filename : string) : bool :=
  PyStr.contains "." filename
  && match PyText.rsplit1 "." filename !! 1 with
     | Some ext => bool_decide (PyText.lower ext ∈ ALLOWED_EXTENSIONS)
     | None => false
     end.

(** Whether [start_messaging] takes the directory entry for an upload. *)
Definition seen_by_start (name : string) : bool := PyStr.endswith name ".csv".

(** The entries of [uploads] that [start_messaging] chooses from. *)
Definition csv_uploads (uploads : Uploads) : list (string * Z) :=
  filter (fun f => PyStr.endswith (fst f) ".csv" = true) uploads.

(** *** The send buttons *)

(** The candidate [xpath] becomes clickable and its click goes through. *)
Definition candidate_works (br : Browser) (xpath : string) : bool :=
  match br_wait_clickable br xpath, br_click br xpath with
  | Ok _, Ok _ => true
  | _, _ => false
  end.

(** What one pass of the loop over the send buttons does with [xpath]. *)
Definition attempt_actions (br : Browser) (xpath : string) : list Action :=
  match br_wait_clickable br xpath with
  | Ok _ => [WaitClickable xpath; Sleep 2; Click xpath]
  | Raise _ => [WaitClickable xpath]
  end.

(** The address [driver.get] is called with, if the action is such a
    call. *)
Definition get_url (a : Action) : option string :=
  match a with
  | DriverGet url => Some url
  | _ => None
  end.

(** The action is neither the first nor the last write of [is_running]. *)
Definition keeps_running (a : Action) : bool :=
  match a with
  | SetIsRunning _ => false
  | _ => true
  end.

(** The action does not replace the list of entries. *)
Definition keeps_entries (a : Action) : bool :=
  match a with
  | ResetMessages => false
  | _ => true
  end.

(** The action writes [current_step] or [total]. *)
Definition step_write (a : Action) : bool :=
  match a with
  | SetCurrentStep _ | SetTotal _ => true
  | _ => false
  end.

Section PipelineParts.
Context {py : PyLib}.

(** The address built by [send_whatsapp_message_webapp]. *)
Definition send_url (contact message : string) : string :=
  "https://web.whatsapp.com/send?phone=" +:+ contact
  +:+ "&text=" +:+ quote message.

(** The template the sending loop takes for a due record, when the two
    template files hold [active] and [no_instruction]. *)
Definition due_template (active no_instruction : string) (row : Row) : string :=
  if decide (Category row = "Active") then active else no_instruction.

End PipelineParts.

(** *** The upload handler *)

(** Functions of the web framework and of [json] whose results the program
    only passes on: [werkzeug.utils.secure_filename], and [json.dump] and
    [json.load] on a configuration. *)
Class WebLib := {
  secure_filename : string -> string;
  json_dump : Config -> string;
  json_load : string -> Result Config
}.

Definition required_columns : list string :=
  ["Client"; "Contact"; "NextHearingDate"; "Category"; "TypRnRy"; "Parties"].

(** What the handler of [/upload_csv] finds outside: [file.save(path)],
    and [pd.read_csv(path)] with the columns and the number of rows of the
    frame. *)
Record UploadWorld := {
  uw_save : string -> Result unit;
  uw_read_csv : string -> Result (list string * nat)
}.

(** The answer of the handler, the [rows] key of a success answer, and
    what the handler did: the path it saved the file to, the path it read
    as a CSV file, and the value it stored in [session['csv_path']]. *)
Record UploadOutcome := {
  up_response : Response;
  up_rows : option nat;
  up_saved : option string;
  up_read : option string;
  up_session : option string
}.

Definition upload_refused (text : string) (saved : option string)
    : UploadOutcome :=
  {| up_response := {| resp_key := "error"; resp_text := text;
                       resp_code := 400 |};
     up_rows := None; up_saved := saved; up_read := saved;
     up_session := None |}.

Section Upload.
Context {web : WebLib}.

(** The handler of [/upload_csv].  [csv_file] is the file name of
    [request.files['csv_file']], or [None] when the request has no such
    part.  An exception of [file.save], which is called outside the [try]
    block, is not caught. *)
Definition upload_csv (uw : UploadWorld) (csv_file : option string)
    : Result UploadOutcome :=
  match csv_file with
  | None => Ok (upload_refused "No file selected" None)
  | Some file_filename =>
      if decide (file_filename = EmptyString)
      then Ok (upload_refused "No file selected" None)
      else if allowed_file file_filename then
        let filename := secure_filename file_filename in
        let file_path := "uploads/" +:+ filename in
        match uw_save uw file_path with
        | Raise e => Raise e
        | Ok _ =>
            match uw_read_csv uw file_path with
            | Ok (df_columns, rows) =>
                if forallb (fun col => bool_decide (col ∈ df_columns))
                     required_columns
                then Ok {| up_response :=
                             {| resp_key := "success";
                                resp_text := "CSV uploaded successfully";
                                resp_code := 200 |};
                           up_rows := Some rows;
                           up_saved := Some file_path;
                           up_read := Some file_path;
                           up_session := Some file_path |}
                else Ok (upload_refused
                           ("CSV must contain columns: "
                            +:+ PyText.join ", " required_columns)
                           (Some file_path))
            | Raise e =>
                Ok (upload_refused ("Error reading CSV: " +:+ e)
                      (Some file_path))
            end
        end
      else Ok (upload_refused "Invalid file format" None)
  end.

End Upload.

(** *** Files and directories

    The working directory of the program on a POSIX system: every path
    the program names is either absent, a directory or a file with its
    text.  A file holds text that the encoding of the platform can write
    and read; a text written with [open(p, 'w')] is stored as it is, and a
    text read with [open(p, 'r')] has its line ends translated.
    [denied p] is the exception that creating or opening [p] for writing
    raises for a reason outside the model (permissions, a full disk), if
    any.  An exception of the file system itself is named by its class;
    its text depends on the platform. *)
Inductive Node :=
| Dir
| File (content : string).

Record Disk := {
  nodes : gmap string Node;
  denied : string -> option Exn
}.

Definition with_nodes (d : Disk) (m : gmap string Node) : Disk :=
  {| nodes := m; denied := denied d |}.

(** A computation on the disk: its result, or the exception it raises,
    and the disk it leaves. *)
Definition IO (A : Type) : Type := Disk -> Result A * Disk.

#[export] Instance IO_ret : MRet IO := fun A a d => (Ok a, d).

#[export] Instance IO_bind : MBind IO := fun A B f m d =>
  match m d with
  | (Ok a, d') => f a d'
  | (Raise e, d') => (Raise e, d')
  end.

(** [for x in xs: f(x)] *)
Fixpoint for_each {A} (f : A -> IO unit) (xs : list A) : IO unit :=
  match xs with
  | [] => mret tt
  | x :: rest => _ ← f x; for_each f rest
  end.

(** A loop that carries a value from one turn to the next. *)
Fixpoint fold_io {A B} (f : B -> A -> IO B) (xs : list A) (acc : B) : IO B :=
  match xs with
  | [] => mret acc
  | x :: rest => acc' ← f acc x; fold_io f rest acc'
  end.

(** A result that leaves the disk as it is. *)
Definition lift_io {A} (r : Result A) : IO A := fun d => (r, d).

(** [os.path.dirname(p)] *)
Definition dirname (p : string) : string :=
  match PyText.rsplit1 "/" p with
  | [dir; _] => dir
  | _ => EmptyString
  end.

(** The exception of opening [p] that is due to the directory in which
    [p] lies, if there is one. *)
Definition parent_error (d : Disk) (p : string) : option Exn :=
  if decide (dirname p = EmptyString) then None
  else match nodes d !! dirname p with
       | Some Dir => None
       | Some (File _) => Some "NotADirectoryError"
       | None => Some "FileNotFoundError"
       end.

(** [os.path.exists(p)] *)
Definition disk_exists (p : string) : IO bool :=
  fun d => (Ok (bool_decide (is_Some (nodes d !! p))), d).

(** [os.makedirs(p)] for a single directory name *)
Definition disk_makedirs (p : string) : IO unit :=
  fun d =>
    match nodes d !! p with
    | Some _ => (Raise "FileExistsError", d)
    | None =>
        match denied d p with
        | Some e => (Raise e, d)
        | None => (Ok tt, with_nodes d (<[p := Dir]> (nodes d)))
        end
    end.

(** [with open(p, 'w') as f: f.write(content)] *)
Definition disk_write (p content : string) : IO unit :=
  fun d =>
    match parent_error d p with
    | Some e => (Raise e, d)
    | None =>
        match nodes d !! p with
        | Some Dir => (Raise "IsADirectoryError", d)
        | _ =>
            match denied d p with
            | Some e => (Raise e, d)
            | None => (Ok tt, with_nodes d (<[p := File content]> (nodes d)))
            end
        end
    end.

(** [open(p, 'a')]: the file is created when it is missing and keeps its
    text otherwise. *)
Definition disk_open_append (p : string) : IO unit :=
  fun d =>
    match parent_error d p with
    | Some e => (Raise e, d)
    | None =>
        match nodes d !! p with
        | Some Dir => (Raise "IsADirectoryError", d)
        | Some (File _) =>
            match denied d p with
            | Some e => (Raise e, d)
            | None => (Ok tt, d)
            end
        | None =>
            match denied d p with
            | Some e => (Raise e, d)
            | None =>
                (Ok tt, with_nodes d (<[p := File EmptyString]> (nodes d)))
            end
        end
    end.

(** The stored text of the file [p], as a copy takes it. *)
Definition disk_read_stored (p : string) : IO string :=
  fun d =>
    match nodes d !! p with
    | Some (File content) => (Ok content, d)
    | Some Dir => (Raise "IsADirectoryError", d)
    | None => (Raise "FileNotFoundError", d)
    end.

(** [with open(p, 'r') as f: f.read()]: the stored text with its line
    ends translated. *)
Definition disk_read (p : string) : IO string :=
  content ← disk_read_stored p; mret (PyText.universal_newlines content).

(** [shutil.copy(src, dst)] for a [dst] that is not a directory *)
Definition disk_copy (src dst : string) : IO unit :=
  content ← disk_read_stored src; disk_write dst content.

(** The paths of [ps] are looked up as they were in [d]. *)
Definition same_at (ps : list string) (d d' : Disk) : Prop :=
  forall p, p ∈ ps -> nodes d' !! p = nodes d !! p.

(** Nothing that was on the disk [d] is changed or removed in [d']. *)
Definition keeps_all (d d' : Disk) : Prop :=
  denied d' = denied d
  /\ forall p n, nodes d !! p = Some n -> nodes d' !! p = Some n.

(** *** Start-up of the program *)

(** [logging.FileHandler('logs/webapp.log')], which opens the log file for
    appending when the handler is created.  The lines that are logged
    afterwards are not tracked. *)
Definition open_log : IO unit := disk_open_append "logs/webapp.log".

Definition create_upload_dirs : IO unit :=
  for_each (fun directory =>
              found ← disk_exists directory;
              if negb (found : bool) then disk_makedirs directory else mret tt)
    ["uploads"; "templates"; "logs"].

Definition default_config : Config :=
  {| notification_contact1 := "+919876543210";
     notification_contact2 := "+918765432109";
     user_data_type := "shs" |}.

(** The dictionary [template_files] of [initialize_default_configs]. *)
Definition default_template_files : list (string * string) :=
  [("active_message.txt", "default_templates/active_message.txt");
   ("inactive_message.txt", "default_templates/inactive_message.txt");
   ("no_instruction_message.txt",
    "default_templates/no_instruction_message.txt")].

Definition fallback_templates : gmap string string :=
  list_to_map
    [("active_message.txt",
      "Dear {Client}, your hearing for {Parties} is on {NextHearingDate}. Please be prepared. Best regards, Legal Team.");
     ("inactive_message.txt",
      "Dear {Client}, please contact us regarding your case {Parties}. Best regards, Legal Team.");
     ("no_instruction_message.txt",
      "Dear {Client}, we need your instructions for {Parties} before {NextHearingDate}. Please contact us urgently. Best regards, Legal Team.")].

(** The shape both blocks of [initialize_default_configs] have: when
    [target] does not exist it is copied from [default_path] if that
    exists, and written with [fallback] otherwise. *)
Definition provide_default (target default_path fallback : string) : IO unit :=
  found ← disk_exists target;
  if negb (found : bool) then
    has_default ← disk_exists default_path;
    if (has_default : bool) then disk_copy default_path target
    else disk_write target fallback
  else mret tt.

Section WebApp.
Context {web : WebLib}.

Definition initialize_default_configs : IO unit :=
  has_config ← disk_exists "config.json";
  _ ← (if negb (has_config : bool) then
         has_default ← disk_exists "default_config.json";
         if (has_default : bool) then disk_copy "default_config.json" "config.json"
         else disk_write "config.json" (json_dump default_config)
       else mret tt);
  for_each (fun '(template_file, default_path) =>
              let template_path := "templates/" +:+ template_file in
              found ← disk_exists template_path;
              if negb (found : bool) then
                has_default ← disk_exists default_path;
                if (has_default : bool) then disk_copy default_path template_path
                else disk_write template_path
                       (default EmptyString
                          (fallback_templates !! template_file))
              else mret tt)
    default_template_files.

(** The four files [initialize_default_configs] provides, each with the
    path of its default and with its fallback text. *)
Definition provided_files : list (string * string * string) :=
  ("config.json", "default_config.json", json_dump default_config)
  :: ((fun '(template_file, default_path) =>
         ("templates/" +:+ template_file, default_path,
          default EmptyString (fallback_templates !! template_file)))
        <$> default_template_files).

(** The statements of the module that run when the program starts, in
    their order: the logging set-up, [create_upload_dirs()] and
    [initialize_default_configs()]. *)
Definition startup : IO unit :=
  _ ← open_log;
  _ ← create_upload_dirs;
  initialize_default_configs.

(** *** Saving and showing the configuration *)

(** The dictionary [templates] of [save_templates] for the request body
    [data], a JSON object whose values are texts. *)
Definition submitted_templates (data : gmap string string)
    : list (string * string) :=
  [("active_message.txt", default EmptyString (data !! "active_template"));
   ("inactive_message.txt", default EmptyString (data !! "inactive_template"));
   ("no_instruction_message.txt",
    default EmptyString (data !! "no_instruction_template"))].

(** The dictionary [config_data] of [save_templates]. *)
Definition submitted_config (data : gmap string string) : Config :=
  {| notification_contact1 :=
       default EmptyString (data !! "notification_contact1");
     notification_contact2 :=
       default EmptyString (data !! "notification_contact2");
     user_data_type := default "shs" (data !! "user_data_type") |}.

(** The two answers of [/save_templates]. *)
Definition saved_response : Response :=
  {| resp_key := "success";
     resp_text := "Configuration saved successfully";
     resp_code := 200 |}.

Definition not_saved_response (e : Exn) : Response :=
  {| resp_key := "error";
     resp_text := "Error saving configuration: " +:+ e;
     resp_code := 400 |}.

(** The handler of [/save_templates]; every exception of its writes is
    turned into an answer. *)
Definition save_templates (data : gmap string string) : IO Response :=
  fun d =>
    match (_ ← for_each (fun '(filename, content) =>
                           disk_write ("templates/" +:+ filename) content)
                 (submitted_templates data);
           disk_write "config.json" (json_dump (submitted_config data))) d
    with
    | (Ok _, d') => (Ok saved_response, d')
    | (Raise e, d') => (Ok (not_saved_response e), d')
    end.

(** [json.load(f)] on the open [config.json]. *)
Definition read_config : IO Config :=
  content ← disk_read "config.json";
  lift_io (json_load content).

(** One turn of the loop of [config] over the template files. *)
Definition read_template_into (templates_data : gmap string string)
    (template_file : string) : IO (gmap string string) :=
  let template_path := "templates/" +:+ template_file in
  found ← disk_exists template_path;
  if (found : bool) then
    content ← disk_read template_path;
    mret (<[PyStr.replace ".txt" EmptyString template_file := content]>
            templates_data)
  else mret templates_data.

(** The handler of [/config], up to the call of [render_template]: the
    values of [config_data] ([None] for the empty dictionary) and of
    [templates_data]. *)
Definition config : IO (option Config * gmap string string) :=
  has_config ← disk_exists "config.json";
  config_data ← (if (has_config : bool) then
                   loaded ← read_config; mret (Some loaded)
                 else mret None);
  templates_data ← fold_io read_template_into
                     ["active_message.txt"; "inactive_message.txt";
                      "no_instruction_message.txt"] ∅;
  mret (config_data, templates_data).

(** The environment of a worker whose files are those of the disk [d];
    everything else is as in [w]. *)
Definition world_on_disk (d : Disk) (w : World) : World :=
  {| w_config_exists := bool_decide (is_Some (nodes d !! "config.json"));
     w_config_load :=
       match nodes d !! "config.json" with
       | Some (File content) => json_load (PyText.universal_newlines content)
       | Some Dir => Raise "IsADirectoryError"
       | None => Raise "FileNotFoundError"
       end;
     w_read_csv := w_read_csv w;
     w_fails_selecting := w_fails_selecting w;
     w_read_file := fun p =>
       match nodes d !! p with
       | Some (File content) => Ok (PyText.universal_newlines content)
       | Some Dir => Raise "IsADirectoryError"
       | None => Raise "FileNotFoundError"
       end;
     w_now_date := w_now_date w;
     w_chrome := w_chrome w;
     w_pane_side := w_pane_side w;
     w_browser := w_browser w;
     w_quit := w_quit w |}.

End WebApp.

(** The files that hold the configuration: [config.json] and the three
    templates. *)
Definition template_paths : list string :=
  ["templates/active_message.txt"; "templates/inactive_message.txt";
   "templates/no_instruction_message.txt"].

Definition configuration_files : list string := "config.json" :: template_paths.

(** *** Concrete pages, requests and directories *)

Module Scenario.

(** A page that cannot be loaded. *)
Definition page_unreachable : Browser :=
  {| br_get := fun _ => Raise "WebDriverException";
     br_wait_clickable := fun _ => Ok tt;
     br_click := fun _ => Ok tt |}.

(** A page on which only the second send button becomes clickable. *)
Definition page_second_button : Browser :=
  {| br_get := fun _ => Ok tt;
     br_wait_clickable := fun xpath =>
       if decide (send_button_xpaths !! 1 = Some xpath) then Ok tt
       else Raise "TimeoutException";
     br_click := fun _ => Ok tt |}.

(** A directory of uploads without a CSV file. *)
Definition only_notes : Uploads := [("notes.txt", 30%Z)].

(** The dates and their texts as in [Demo.lib], with the quoting of
    [urllib.parse.quote]. *)
Definition lib : PyLib :=
  {| to_datetime := to_datetime (PyLib := Demo.lib);
     date_str := date_str (PyLib := Demo.lib);
     quote := PyText.url_quote |}.

(** A file that can be read but lacks the column [Parties]: the selection
    of the columns raises after the step [Filtering clients...]. *)
Definition world_missing_column : World :=
  {| w_config_exists := false;
     w_config_load := Raise "unused";
     w_read_csv := fun _ => Raise "KeyError";
     w_fails_selecting := true;
     w_read_file := Demo.read_file;
     w_now_date := 738886%Z;
     w_chrome := Ok tt;
     w_pane_side := Ok tt;
     w_browser := fun _ => Demo.page_ok;
     w_quit := Ok tt |}.

(** A request body that leaves out the inactive template and the type of
    the user data. *)
Definition form : gmap string string :=
  list_to_map
    [("active_template", "Dear {Client}, see you on {NextHearingDate}.");
     ("no_instruction_template", "Dear {Client}, please call us.");
     ("notification_contact1", "+911");
     ("notification_contact2", "+912")].

(** The same request with a Windows line end in the active template. *)
Definition form_crlf : gmap string string :=
  <["active_template" :=
      "Dear {Client}," +:+ String PyText.cr (String PyText.lf "see you.")]>
    form.

Definition dump (c : Config) : string :=
  notification_contact1 c +:+ ";" +:+ notification_contact2 c
  +:+ ";" +:+ user_data_type c.

(** File names that are safe as they are, and a serialisation that is
    read back for the configuration of [form]. *)
Definition web : WebLib :=
  {| secure_filename := fun name => name;
     json_dump := dump;
     json_load := fun text =>
       if decide (text = "+911;+912;shs")
       then Ok {| notification_contact1 := "+911";
                  notification_contact2 := "+912";
                  user_data_type := "shs" |}
       else Raise "JSONDecodeError" |}.

(** Uploads: one good file, one that lacks columns, and unreadable
    ones. *)
Definition upload_world : UploadWorld :=
  {| uw_save := fun _ => Ok tt;
     uw_read_csv := fun path =>
       if decide (path = "uploads/clients.csv")
       then Ok (required_columns, 3)
       else if decide (path = "uploads/short.csv")
       then Ok (["Client"; "Contact"], 2)
       else Raise "ParserError" |}.

(** An empty directory. *)
Definition empty_directory : Disk :=
  {| nodes := ∅; denied := fun _ => None |}.

(** A directory that holds nothing but [logs]. *)
Definition first_start : Disk :=
  {| nodes := {["logs" := Dir]}; denied := fun _ => None |}.

(** A directory after its set-up in which one template was edited and the
    configuration was removed, with a default for the configuration. *)
Definition installed : Disk :=
  {| nodes :=
       list_to_map
         [("logs", Dir); ("templates", Dir); ("uploads", Dir);
          ("templates/active_message.txt", File "Hello {Client}");
          ("default_config.json", File "+1;+2;shs")];
     denied := fun _ => None |}.

(** A directory with all four files. *)
Definition configured : Disk :=
  {| nodes :=
       list_to_map
         [("logs", Dir); ("templates", Dir); ("uploads", Dir);
          ("config.json", File "+1;+2;shs");
          ("templates/active_message.txt", File "Hello {Client}");
          ("templates/inactive_message.txt", File "Hello again");
          ("templates/no_instruction_message.txt", File "Call us")];
     denied := fun _ => None |}.

(** The same directory with a configuration that cannot be written. *)
Definition config_locked : Disk :=
  {| nodes := nodes configured;
     denied := fun p =>
       if decide (p = "config.json") then Some "Permission denied"
       else None |}.

(** The state a poller sees at position [i] of a run of [Demo.world_ok]
    after the initialisation. *)
Definition seen_at (i : nat) : MessageStatus :=
  default Demo.stale_status
    (trace
       (fst (try_except
               (run_body (py := Demo.lib) Demo.world_ok "uploads/new.csv")
               on_error))
       (exec (fst initializing) Demo.stale_status) !! i).

End Scenario.

(** * Properties *)

(** ** Strings *)

Section StringFacts.

Lemma replace_blank_keep (s : string) :
  PyStr.replace " " EmptyString s = remove_blanks s.
Proof.
  unfold PyStr.replace, remove_blanks.
  induction s as [|c s IH]; [reflexivity|].
  cbn [PyStr.replace_from PyStr.keep String.prefix String.length].
  unfold is_blank. rewrite Ascii.eqb_sym.
  destruct (Ascii.ascii_dec " " c) as [<-|Hne].
  - rewrite Ascii.eqb_refl. cbn.
    replace (String.prefix EmptyString s) with true by (by destruct s).
    exact IH.
  - destruct (Ascii.eqb_spec " " c) as [Heq|_]; [congruence|].
    cbn. by rewrite IH.
Qed.

Lemma lstrip_no_space (s : string) :
  PyStr.all (fun c => negb (PyStr.isspace c)) s = true -> PyStr.lstrip s = s.
Proof.
  destruct s as [|c s]; [done|]. cbn.
  destruct (PyStr.isspace c); [done|done].
Qed.

Lemma rstrip_no_space (s : string) :
  PyStr.all (fun c => negb (PyStr.isspace c)) s = true -> PyStr.rstrip s = s.
Proof.
  induction s as [|c s IH]; [done|]. cbn.
  destruct (PyStr.isspace c) eqn:Hc; [done|]. cbn. intros Hs.
  rewrite (IH Hs). by destruct s.
Qed.

Lemma strip_no_space (s : string) :
  PyStr.all (fun c => negb (PyStr.isspace c)) s = true -> PyStr.strip s = s.
Proof.
  intros Hs. unfold PyStr.strip.
  rewrite (lstrip_no_space s Hs). by apply rstrip_no_space.
Qed.

Lemma remove_blanks_whitespace (s : string) :
  only_blank_whitespace s ->
  remove_blanks s = remove_whitespace s
  /\ PyStr.all (fun c => negb (PyStr.isspace c)) (remove_blanks s) = true.
Proof.
  unfold only_blank_whitespace, remove_blanks, remove_whitespace.
  induction s as [|c s IH]; [done|]. cbn.
  intros [Hc Hs]%andb_prop. destruct (IH Hs) as [IH1 IH2].
  destruct (is_blank c) eqn:Hb; cbn.
  - unfold is_blank in Hb. apply Ascii.eqb_eq in Hb as ->. cbn. done.
  - destruct (PyStr.isspace c) eqn:Hsp; [done|]. cbn.
    split; [by rewrite IH1 | exact IH2].
Qed.

End StringFacts.

(** ** Contact normalisation *)

Section ContactFacts.

Lemma normalize_contact_blanks (s : string) :
  normalize_contact s = PyStr.strip (remove_blanks s).
Proof. unfold normalize_contact. by rewrite replace_blank_keep. Qed.

Lemma normalize_contact_whitespace (s : string) :
  only_blank_whitespace s -> normalize_contact s = remove_whitespace s.
Proof.
  intros Hs. rewrite normalize_contact_blanks.
  destruct (remove_blanks_whitespace s Hs) as [Heq Hall].
  rewrite strip_no_space by exact Hall. exact Heq.
Qed.

(** C8, as the code has it: the stored contact of every loaded record is
    the source contact with its space characters removed and then stripped
    of leading and trailing whitespace; when the space is the only
    whitespace of the source contact this is the source contact with all
    whitespace removed, and the contact [+91 98765 43210] is stored as
    [+919876543210]. *)
Theorem C8_contact_normalized (df : list RawRow) (i : nat) (r : RawRow) :
  df !! i = Some r ->
  exists r',
    process_csv df !! i = Some r'
    /\ raw_Contact r' = PyStr.strip (remove_blanks (raw_Contact r))
    /\ (only_blank_whitespace (raw_Contact r) ->
        raw_Contact r' = remove_whitespace (raw_Contact r))
    /\ (raw_Contact r = "+91 98765 43210" -> raw_Contact r' = "+919876543210").
Proof.
  intros Hi. unfold process_csv. rewrite list_lookup_fmap, Hi. cbn.
  eexists; split; [reflexivity|]. cbn. split; [|split].
  - apply normalize_contact_blanks.
  - apply normalize_contact_whitespace.
  - intros ->. reflexivity.
Qed.

(** The scenario record A is stored with the contact [+919876543210]. *)
Lemma C8_contact_normalized_witness :
  exists r', process_csv [Demo.row_A] !! 0 = Some r'
             /\ raw_Contact r' = remove_whitespace "+91 98765 43210"
             /\ raw_Contact r' = "+919876543210".
Proof.
  destruct (C8_contact_normalized [Demo.row_A] 0 Demo.row_A eq_refl)
    as (r' & Hr' & _ & Hws & Hex).
  exists r'. split; [exact Hr'|]. split.
  - apply Hws. reflexivity.
  - apply Hex. reflexivity.
Defined.

(** C8 as stated fails: a TAB inside the source contact is whitespace, and
    it is still there in the stored contact. *)
Lemma C8_counterexample :
  raw_Contact <$> process_csv [Demo.row_tab]
  <> (fun r => remove_whitespace (raw_Contact r)) <$> [Demo.row_tab].
Proof. vm_compute. discriminate. Qed.

End ContactFacts.

(** ** The filter *)

Section FilterFacts.
Context {py : PyLib}.

(** The selection predicate of the specification. *)
Lemma due_iff (r : Row) (day : Z) :
  (NextHearingDate r = Some day /\ Category r ∈ selected_categories)
  <-> ((Category r = "Active" \/ Category r = "NoClientsInstruction")
       /\ NextHearingDate r = Some day).
Proof.
  unfold selected_categories.
  rewrite !elem_of_cons, elem_of_nil. tauto.
Qed.

Lemma process_csv_dates (df : list RawRow) :
  raw_NextHearingDate <$> process_csv df = raw_NextHearingDate <$> df.
Proof.
  unfold process_csv. rewrite <- list_fmap_compose.
  by apply list_fmap_ext.
Qed.

(** C4: the due records are exactly the records of the input whose
    category is Active or NoClientsInstruction and whose hearing date is
    the reference date, in the order of the input; a record without a
    date is never among them; the reference date is the current date plus
    six days.  The due records of a run are this selection applied once,
    to the loaded frame and the date of the run's clock plus six days, so
    each of them comes from a row whose date cell was parsed to that
    date. *)
Theorem C4_due_records (w : World) (df : list RawRow) (cl : list Row)
    (now_date : Z) :
  today now_date = (now_date + 6)%Z
  /\ today_clients cl (today now_date)
     = filter (fun r => (Category r = "Active"
                         \/ Category r = "NoClientsInstruction")
                        /\ NextHearingDate r = Some (now_date + 6)%Z) cl
  /\ today_clients cl (today now_date) `sublist_of` cl
  /\ (forall r, r ∈ today_clients cl (today now_date)
                <-> r ∈ cl
                    /\ (Category r = "Active"
                        \/ Category r = "NoClientsInstruction")
                    /\ NextHearingDate r = Some (now_date + 6)%Z)
  /\ (forall r, NextHearingDate r = None ->
                r ∉ today_clients cl (today now_date))
  /\ due_records w df
     = today_clients (clients (process_csv df)) (today (w_now_date w))
  /\ (forall r, r ∈ due_records w df ->
        exists raw,
          raw ∈ df
          /\ Client r = raw_Client raw
          /\ (raw_Category raw = "Active"
              \/ raw_Category raw = "NoClientsInstruction")
          /\ to_datetime (raw_NextHearingDate <$> df)
               (raw_NextHearingDate raw)
             = Some (w_now_date w + 6)%Z).
Proof.
  assert (Heq : forall cl' day, today_clients cl' (today day)
     = filter (fun r => (Category r = "Active"
                         \/ Category r = "NoClientsInstruction")
                        /\ NextHearingDate r = Some (day + 6)%Z) cl').
  { intros cl' day. unfold today_clients, filtered_clients, today.
    rewrite list_filter_filter. apply list_filter_iff.
    intros r. apply due_iff. }
  split; [reflexivity|]. split; [apply Heq|]. split; [|split; [|split]].
  - rewrite Heq. apply sublist_filter.
  - intros r. rewrite Heq, list_elem_of_filter. tauto.
  - intros r Hnone. rewrite Heq, list_elem_of_filter.
    intros [[_ Hd] _]. congruence.
  - split; [reflexivity|].
    intros r. unfold due_records. rewrite Heq, list_elem_of_filter.
    intros [[Hcat Hdate] Hin]. unfold clients in Hin. cbv zeta in Hin.
    rewrite process_csv_dates in Hin.
    apply list_elem_of_fmap in Hin as (raw' & -> & Hin).
    unfold process_csv in Hin.
    apply list_elem_of_fmap in Hin as (raw & -> & Hin).
    exists raw. cbn in *. by repeat split.
Qed.

End FilterFacts.

(** ** The template renderer *)

Section RenderFacts.
Context {py : PyLib}.

Lemma str_app_cons (c : ascii) (s t : string) :
  String c s +:+ t = String c (s +:+ t).
Proof. reflexivity. Qed.

Lemma str_app_nil_l (t : string) : EmptyString +:+ t = t.
Proof. reflexivity. Qed.

Lemma str_app_assoc (s t u : string) : (s +:+ t) +:+ u = s +:+ (t +:+ u).
Proof.
  induction s as [|c s IH]; [reflexivity|].
  rewrite !str_app_cons. by rewrite IH.
Qed.

Lemma contains_cons (c d : ascii) (s : string) :
  PyStr.contains c (String d s) = Ascii.eqb c d || PyStr.contains c s.
Proof. reflexivity. Qed.

Lemma contains_app (c : ascii) (s t : string) :
  PyStr.contains c (s +:+ t) = PyStr.contains c s || PyStr.contains c t.
Proof.
  induction s as [|d s IH]; [reflexivity|].
  rewrite str_app_cons, !contains_cons, IH. by rewrite orb_assoc.
Qed.

Lemma prefix_nil (t : string) : String.prefix EmptyString t = true.
Proof. by destruct t. Qed.

Lemma prefix_cons (a b : ascii) (s t : string) :
  String.prefix (String a s) (String b t)
  = if Ascii.eqb a b then String.prefix s t else false.
Proof.
  cbn [String.prefix].
  destruct (Ascii.ascii_dec a b) as [->|Hne].
  - by rewrite Ascii.eqb_refl.
  - apply Ascii.eqb_neq in Hne. by rewrite Hne.
Qed.

Lemma prefix_app (pat t : string) : String.prefix pat (pat +:+ t) = true.
Proof.
  induction pat as [|c pat IH]; [apply prefix_nil|].
  by rewrite str_app_cons, prefix_cons, Ascii.eqb_refl.
Qed.

Lemma replace_from_cons (old new : string) (c : ascii) (s : string) :
  PyStr.replace_from old new 0 (String c s)
  = if String.prefix old (String c s)
    then new +:+ PyStr.replace_from old new (String.length old - 1) s
    else String c (PyStr.replace_from old new 0 s).
Proof. reflexivity. Qed.

Lemma replace_from_skip (old new u t : string) :
  PyStr.replace_from old new (String.length u) (u +:+ t)
  = PyStr.replace_from old new 0 t.
Proof.
  induction u as [|c u IH]; [reflexivity|].
  rewrite str_app_cons. cbn [String.length PyStr.replace_from]. exact IH.
Qed.

Lemma replace_from_match (c : ascii) (pat v t : string) :
  PyStr.replace_from (String c pat) v 0 (String c pat +:+ t)
  = v +:+ PyStr.replace_from (String c pat) v 0 t.
Proof.
  rewrite str_app_cons, replace_from_cons.
  rewrite <- str_app_cons, prefix_app.
  cbn [String.length]. rewrite Nat.sub_1_r. cbn [Nat.pred].
  by rewrite replace_from_skip.
Qed.

Lemma replace_from_text (c : ascii) (pat v s t : string) :
  PyStr.contains c s = false ->
  PyStr.replace_from (String c pat) v 0 (s +:+ t)
  = s +:+ PyStr.replace_from (String c pat) v 0 t.
Proof.
  induction s as [|d s IH]; [reflexivity|].
  rewrite contains_cons. intros [Hcd Hs]%orb_false_elim.
  rewrite !str_app_cons, replace_from_cons, prefix_cons, Hcd.
  by rewrite (IH Hs).
Qed.

Lemma prefix_other_name (col name t : string) :
  PyStr.contains "}" col = false ->
  PyStr.contains "}" name = false ->
  name <> col ->
  String.prefix (col +:+ "}") (name +:+ String "}" t) = false.
Proof.
  revert name. induction col as [|a col IH]; intros [|b name] Hcol Hname Hne.
  - done.
  - rewrite contains_cons in Hname. apply orb_false_elim in Hname as [Hb _].
    by rewrite str_app_nil_l, str_app_cons, prefix_cons, Hb.
  - rewrite contains_cons in Hcol. apply orb_false_elim in Hcol as [Ha _].
    rewrite Ascii.eqb_sym in Ha.
    by rewrite str_app_nil_l, str_app_cons, prefix_cons, Ha.
  - rewrite contains_cons in Hcol, Hname.
    apply orb_false_elim in Hcol as [_ Hcol].
    apply orb_false_elim in Hname as [_ Hname].
    rewrite !str_app_cons, prefix_cons.
    destruct (Ascii.eqb_spec a b) as [->|_]; [|done].
    apply IH; [done|done|congruence].
Qed.

Lemma placeholder_cons (col : string) :
  placeholder col = String "{" (col +:+ "}").
Proof. reflexivity. Qed.

Lemma replace_placeholder (col v s : string) :
  PyStr.replace (placeholder col) v s
  = PyStr.replace_from (placeholder col) v 0 s.
Proof. reflexivity. Qed.

Lemma replace_from_other_hole (col v name t : string) :
  no_brace col -> no_brace name -> name <> col ->
  PyStr.replace_from (placeholder col) v 0 (placeholder name +:+ t)
  = placeholder name +:+ PyStr.replace_from (placeholder col) v 0 t.
Proof.
  intros [_ Hcol] [Hopen Hclose] Hne.
  assert (Hpre : String.prefix (col +:+ "}") ((name +:+ "}") +:+ t) = false).
  { rewrite str_app_assoc. by apply prefix_other_name. }
  rewrite !placeholder_cons, !str_app_cons, replace_from_cons, prefix_cons.
  rewrite Ascii.eqb_refl, Hpre. f_equal.
  apply replace_from_text. by rewrite contains_app, Hopen.
Qed.

Lemma show_template_cons (p : Piece) (ps : list Piece) :
  show_template (p :: ps) = show_piece p +:+ show_template ps.
Proof. reflexivity. Qed.

(** One step of the placeholder loop, on a well-formed template. *)
Lemma replace_show_template (col v : string) (ps : list Piece) :
  no_brace col -> Forall well_formed_piece ps ->
  PyStr.replace (placeholder col) v (show_template ps)
  = show_template (fill_piece col v <$> ps).
Proof.
  intros Hcol Hps. rewrite replace_placeholder.
  induction Hps as [|p ps Hp Hps IH]; [reflexivity|].
  rewrite fmap_cons, !show_template_cons, <- IH.
  destruct p as [s|name]; cbn [show_piece fill_piece].
  - rewrite placeholder_cons. by apply replace_from_text.
  - destruct (decide (name = col)) as [->|Hne]; cbn [show_piece].
    + rewrite placeholder_cons. apply replace_from_match.
    + by apply replace_from_other_hole.
Qed.

Lemma fill_piece_well_formed (col v : string) (ps : list Piece) :
  no_open_brace v -> Forall well_formed_piece ps ->
  Forall well_formed_piece (fill_piece col v <$> ps).
Proof.
  intros Hv Hps. apply Forall_fmap. eapply Forall_impl; [exact Hps|].
  intros [s|name] Hp; cbn; [done|]. by destruct (decide (name = col)).
Qed.

(** The replacements for the columns [cols], one after the other. *)
Lemma render_fold (row : Row) (cols : list string) (ps : list Piece) :
  Forall no_brace cols ->
  Forall (fun col => match row_get row col with
                     | Some v => no_open_brace v
                     | None => True
                     end) cols ->
  Forall well_formed_piece ps ->
  foldl (fun message col =>
           match row_get row col with
           | Some v => PyStr.replace (placeholder col) v message
           | None => message
           end) (show_template ps) cols
  = show_template (foldl (fill_column row) ps cols).
Proof.
  intros Hcols. revert ps.
  induction Hcols as [|col cols Hcol Hcols IH]; intros ps Hvals Hps;
    [reflexivity|].
  apply Forall_cons in Hvals as [Hval Hvals]. cbn [foldl].
  unfold fill_column at 2. destruct (row_get row col) as [v|].
  - rewrite replace_show_template by done.
    apply IH; [done|]. by apply fill_piece_well_formed.
  - by apply IH.
Qed.

Lemma foldl_fill_column (row : Row) (cols : list string) (ps : list Piece) :
  foldl (fill_column row) ps cols
  = (fun p => foldl (fun q col => match row_get row col with
                                  | Some v => fill_piece col v q
                                  | None => q
                                  end) p cols) <$> ps.
Proof.
  revert ps. induction cols as [|col cols IH]; intros ps; cbn [foldl].
  - by rewrite list_fmap_id.
  - rewrite IH. unfold fill_column. destruct (row_get row col) as [v|].
    + by rewrite <- list_fmap_compose.
    + done.
Qed.

Lemma fill_columns_piece (row : Row) (p : Piece) :
  show_piece (foldl (fun q col => match row_get row col with
                                  | Some v => fill_piece col v q
                                  | None => q
                                  end) p columns)
  = substitute_piece row p.
Proof.
  destruct p as [s|name]; [reflexivity|].
  unfold columns. cbn [foldl].
  change (row_get row "Client") with (Some (Client row)).
  change (row_get row "Contact") with (Some (Contact row)).
  change (row_get row "NextHearingDate")
    with (Some (match NextHearingDate row with
                | Some d => date_str d
                | None => "NaT"
                end)).
  change (row_get row "Category") with (Some (Category row)).
  change (row_get row "TypRnRy") with (Some (TypRnRy row)).
  change (row_get row "Parties") with (Some (Parties row)).
  unfold substitute_piece, row_get. cbn [fill_piece].
  repeat (destruct (decide (name = _)); [reflexivity|]; cbn [fill_piece]).
  reflexivity.
Qed.

Lemma no_brace_columns : Forall no_brace columns.
Proof. repeat constructor. Qed.

(** C7, as the code has it: on a template made of literal text without an
    opening brace and of placeholders whose names contain no brace, and for
    a record none of whose six field values contains an opening brace, the
    renderer replaces every placeholder that names one of the six fields by
    that field's string value and leaves every other placeholder, and all
    literal text, unchanged. *)
Theorem C7_render_substitutes (ps : list Piece) (row : Row) :
  Forall well_formed_piece ps ->
  plain_values row ->
  render (show_template ps) row = substitute ps row.
Proof.
  intros Hps Hrow. unfold render.
  rewrite render_fold by (done || apply no_brace_columns).
  rewrite foldl_fill_column.
  clear Hps. induction ps as [|p ps IH]; [reflexivity|].
  rewrite fmap_cons, show_template_cons, fill_columns_piece, IH.
  reflexivity.
Qed.

End RenderFacts.

(** The scenario template, with the unknown placeholder [{CaseNo}], rendered
    for a record with plain values. *)
Lemma C7_render_substitutes_witness :
  render (py := Demo.lib) (show_template Demo.template_pieces) Demo.row_plain
  = "Dear Asha, hearing of Asha v Bank on 2024-01-07 ref {CaseNo}".
Proof.
  etrans.
  - apply (C7_render_substitutes (py := Demo.lib)
             Demo.template_pieces Demo.row_plain).
    + repeat constructor.
    + repeat constructor.
  - reflexivity.
Defined.

(** C7 as stated fails: the replacements are applied one after another, so
    a field value that itself reads [{Parties}] is replaced in turn, and the
    placeholder [{Client}] does not end up as the client's value. *)
Lemma C7_counterexample :
  Forall well_formed_piece [Hole "Client"]
  /\ render (py := Demo.lib) (show_template [Hole "Client"]) Demo.row_nested
     = "Asha v Bank"
  /\ substitute (py := Demo.lib) [Hole "Client"] Demo.row_nested = "{Parties}"
  /\ render (py := Demo.lib) (show_template [Hole "Client"]) Demo.row_nested
     <> substitute (py := Demo.lib) [Hole "Client"] Demo.row_nested.
Proof.
  split; [repeat constructor|]. split; [reflexivity|].
  split; [reflexivity|]. vm_compute. discriminate.
Qed.

(** ** The worker monad *)

Section MonadFacts.

Lemma bind_ok {A B} (acts : list Action) (a : A) (f : A -> M B) :
  (acts, Ok a) ≫= f = prepend acts (f a).
Proof. unfold mbind, M_bind, prepend. by destruct (f a). Qed.

Lemma bind_raise {A B} (acts : list Action) (e : Exn) (f : A -> M B) :
  (acts, Raise e) ≫= f = (acts, Raise e).
Proof. reflexivity. Qed.

Lemma bind_tell {B} (a : Action) (f : unit -> M B) :
  tell a ≫= f = prepend [a] (f tt).
Proof. unfold tell, call. by rewrite bind_ok. Qed.

Lemma bind_call {A B} (a : Action) (r : Result A) (f : A -> M B) :
  call a r ≫= f
  = match r with
    | Ok x => prepend [a] (f x)
    | Raise e => ([a], Raise e)
    end.
Proof. unfold call. destruct r; [by rewrite bind_ok|reflexivity]. Qed.

Lemma bind_lift {A B} (r : Result A) (f : A -> M B) :
  lift r ≫= f = match r with Ok x => f x | Raise e => ([], Raise e) end.
Proof.
  unfold lift. destruct r as [x|e]; [|reflexivity].
  rewrite bind_ok. unfold prepend. by destruct (f x).
Qed.

Lemma prepend_pair {A} (acts acts' : list Action) (r : Result A) :
  prepend acts (acts', r) = (acts ++ acts', r).
Proof. reflexivity. Qed.

Lemma prepend_prepend {A} (l1 l2 : list Action) (m : M A) :
  prepend l1 (prepend l2 m) = prepend (l1 ++ l2) m.
Proof. unfold prepend. cbn. by rewrite app_assoc. Qed.

Lemma try_except_snd (body : M unit) (handler : Exn -> M unit) :
  (forall e, snd (handler e) = Ok tt) ->
  snd (try_except body handler) = Ok tt.
Proof.
  intros Hh. destruct body as [acts [[]|e]]; [reflexivity|].
  unfold try_except. specialize (Hh e). by destruct (handler e).
Qed.

Lemma exec_app (l1 l2 : list Action) (st : MessageStatus) :
  exec (l1 ++ l2) st = exec l2 (exec l1 st).
Proof. apply foldl_app. Qed.

Lemma exec_cons (a : Action) (l : list Action) (st : MessageStatus) :
  exec (a :: l) st = exec l (apply_action a st).
Proof. reflexivity. Qed.

Lemma exec_quiet (l : list Action) (st : MessageStatus) :
  Forall (fun a => quiet a = true) l -> exec l st = st.
Proof.
  induction 1 as [|a l Ha _ IH]; [reflexivity|].
  rewrite exec_cons. by destruct a.
Qed.

Lemma states_after_app (p : Action -> bool) (l1 l2 : list Action)
    (st : MessageStatus) :
  states_after p (l1 ++ l2) st
  = states_after p l1 st ++ states_after p l2 (exec l1 st).
Proof.
  revert st. induction l1 as [|a l1 IH]; intros st; [reflexivity|].
  cbn [app states_after]. rewrite IH, exec_cons. by rewrite app_assoc.
Qed.

(** Actions that leave [progress] and [messages] alone keep them equal. *)
Lemma keeps_count_synced (p : Action -> bool) (l : list Action)
    (st : MessageStatus) :
  Forall (fun a => keeps_count a = true) l ->
  progress (exec l st) = progress st
  /\ messages (exec l st) = messages st
  /\ (synced st -> Forall synced (states_after p l st)).
Proof.
  intros Hl. revert st.
  induction Hl as [|a l Ha _ IH]; intros st; [by repeat split|].
  rewrite exec_cons. cbn [states_after].
  destruct (IH (apply_action a st)) as (Hp & Hm & Hs).
  assert (Ha' : progress (apply_action a st) = progress st
                /\ messages (apply_action a st) = messages st)
    by (by destruct a).
  destruct Ha' as [Hpa Hma].
  split; [congruence|]. split; [congruence|].
  intros Hst.
  assert (synced (apply_action a st)) by (unfold synced; congruence).
  apply Forall_app. split; [|by apply Hs].
  destruct (p a); by repeat constructor.
Qed.

End MonadFacts.

(** ** The helpers of the worker *)

Section HelperFacts.
Context {py : PyLib}.

Lemma load_config_actions (w : World) : fst (load_config w) = [].
Proof. unfold load_config. by destruct (w_config_exists w). Qed.

Lemma load_templates_actions (w : World) (files : list (string * string))
    (templates : gmap string string) :
  fst (load_templates w files templates) = [].
Proof.
  revert templates. induction files as [|[category file_path] files IH];
    intros templates; [reflexivity|].
  cbn [load_templates]. rewrite bind_lift.
  destruct (w_read_file w file_path); [apply IH|reflexivity].
Qed.

Lemma initialize_webdriver_eq (w : World) :
  initialize_webdriver_for_webapp w = ([], w_chrome w).
Proof.
  unfold initialize_webdriver_for_webapp, try_except, lift, raise.
  by destruct (w_chrome w).
Qed.

Lemma check_session_eq (w : World) :
  check_session_webapp w
  = ([], Ok (match w_pane_side w with Ok _ => true | Raise _ => false end)).
Proof.
  unfold check_session_webapp. rewrite bind_lift.
  by destruct (w_pane_side w).
Qed.

(** The loop over the send buttons never raises and leaves the status
    dictionary alone. *)
Lemma click_send_button_spec (br : Browser) (xpaths : list string) :
  (exists b, snd (click_send_button br xpaths) = Ok b)
  /\ Forall (fun a => quiet a = true) (fst (click_send_button br xpaths)).
Proof.
  induction xpaths as [|xpath xpaths IH].
  - split; [by exists false|constructor].
  - cbn [click_send_button].
    destruct (click_send_button br xpaths) as [acts r].
    destruct IH as [[b Hb] Hq]. cbn [fst snd] in Hb, Hq. subst r.
    unfold call, tell, try_except, mbind, M_bind, mret, M_ret.
    destruct (br_wait_clickable br xpath) as [[]|e1];
      [destruct (br_click br xpath) as [[]|e2]|]; cbn.
    + split; [by exists true|by repeat constructor].
    + split; [by exists b|by repeat constructor].
    + split; [by exists b|by repeat constructor].
Qed.

(** [send_whatsapp_message_webapp] always returns a boolean. *)
Lemma send_spec (br : Browser) (name contact message : string) :
  (exists b, snd (send_whatsapp_message_webapp br name contact message) = Ok b)
  /\ Forall (fun a => quiet a = true)
       (fst (send_whatsapp_message_webapp br name contact message)).
Proof.
  unfold send_whatsapp_message_webapp. cbv zeta.
  destruct (click_send_button_spec br send_button_xpaths) as [[b Hb] Hq].
  destruct (click_send_button br send_button_xpaths) as [acts r].
  cbn [fst snd] in Hb, Hq. subst r.
  unfold call, try_except, mbind, M_bind, mret, M_ret.
  destruct (br_get br _) as [[]|e]; cbn.
  - split; [by exists b|by constructor].
  - split; [by exists false|by repeat constructor].
Qed.

Lemma send_call_spec (w : World) (templates : gmap string string)
    (index : nat) (row : Row) :
  snd (send_call w templates index row)
  = Ok (send_success w templates index row)
  /\ Forall (fun a => quiet a = true) (fst (send_call w templates index row)).
Proof.
  unfold send_success, send_call.
  destruct (send_spec (w_browser w index) (Client row) (Contact row)
              (render (default EmptyString (templates !! Category row)) row))
    as [[b Hb] Hq].
  by rewrite Hb.
Qed.

Lemma send_one_eq (w : World) (templates : gmap string string)
    (index : nat) (row : Row) :
  send_one w templates index row
  = (iteration_actions w templates index row, Ok tt).
Proof.
  unfold send_one. cbv zeta. fold (send_call w templates index row).
  destruct (send_call_spec w templates index row) as [Hb _].
  unfold iteration_actions.
  destruct (send_call w templates index row) as [acts r] eqn:Hcall.
  cbn [fst snd] in *. rewrite Hb, bind_ok, !bind_tell.
  unfold tell, call. by rewrite !prepend_pair.
Qed.

Lemma send_messages_eq (w : World) (templates : gmap string string)
    (index : nat) (rows : list Row) :
  send_messages w templates index rows
  = (concat (imap (fun k => iteration_actions w templates (index + k)) rows),
     Ok tt).
Proof.
  revert index. induction rows as [|row rows IH]; intros index;
    [reflexivity|].
  cbn [send_messages]. rewrite send_one_eq, bind_ok, IH, prepend_pair.
  rewrite imap_cons. cbn [concat]. rewrite Nat.add_0_r.
  do 3 f_equal. apply imap_ext. intros k r _. cbn. f_equal. lia.
Qed.

End HelperFacts.

(** ** The shape of a run *)

Section RunFacts.
Context {py : PyLib}.

Lemma run_body_unfold (w : World) (csv_path : string) :
  run_body w csv_path
  = match snd (load_config w) with
    | Raise e => ([], Raise e)
    | Ok _ =>
    match w_read_csv w csv_path with
    | Raise e =>
        (SetCurrentStep "Processing CSV file..."
         :: (if w_fails_selecting w
             then [SetCurrentStep "Filtering clients..."] else []),
         Raise e)
    | Ok df =>
    match snd (load_templates w template_files ∅) with
    | Raise e => (loading_actions w df, Raise e)
    | Ok templates =>
    match w_chrome w with
    | Raise e =>
        (loading_actions w df ++ [SetCurrentStep "Initializing browser..."],
         Raise e)
    | Ok _ =>
    match w_pane_side w with
    | Raise _ =>
        (loading_actions w df
         ++ [SetCurrentStep "Initializing browser...";
             SetCurrentStep "Session check failed";
             SetIsRunning false],
         Ok tt)
    | Ok _ =>
        (loading_actions w df
         ++ [SetCurrentStep "Initializing browser...";
             SetCurrentStep "Sending messages..."]
         ++ concat (imap (iteration_actions w templates) (due_records w df))
         ++ DriverQuit
            :: match w_quit w with
               | Ok _ => [SetCurrentStep "Completed"; SetIsRunning false]
               | Raise _ => []
               end,
         match w_quit w with Ok _ => Ok tt | Raise e => Raise e end)
    end end end end end.
Proof.
  unfold run_body.
  pose proof (load_config_actions w) as Hc.
  destruct (load_config w) as [ac [cfg|e]]; cbn [fst snd] in *; subst ac;
    [|reflexivity].
  rewrite bind_ok, bind_tell, bind_lift. unfold read_and_normalize.
  destruct (w_read_csv w csv_path) as [df|e];
    [|destruct (w_fails_selecting w); reflexivity].
  rewrite !bind_tell, bind_lift.
  pose proof (load_templates_actions w template_files ∅) as Ht.
  destruct (load_templates w template_files ∅) as [at_ [templates|e]];
    cbn [fst snd] in *; subst at_; [|reflexivity].
  rewrite bind_ok, bind_tell, initialize_webdriver_eq.
  destruct (w_chrome w) as [[]|e]; [|reflexivity].
  rewrite bind_ok, check_session_eq, bind_ok.
  destruct (w_pane_side w) as [[]|e]; cbn [negb].
  - rewrite send_messages_eq, bind_ok, bind_call.
    destruct (w_quit w) as [[]|e];
      unfold prepend, tell, call, loading_actions; cbn [fst snd app];
      reflexivity.
  - unfold prepend, tell, call, loading_actions; cbn [fst snd app].
    reflexivity.
Qed.

Lemma initializing_actions :
  fst initializing
  = [SetIsRunning true; SetCurrentStep "Initializing..."; SetProgress 0;
     ResetMessages].
Proof. reflexivity. Qed.

Lemma run_messaging_process_eq (w : World) (csv_path : string) :
  run_messaging_process w csv_path
  = prepend (fst initializing) (try_except (run_body w csv_path) on_error).
Proof.
  exact (bind_ok (fst initializing) tt
           (fun _ => try_except (run_body w csv_path) on_error)).
Qed.

Lemma exec_initializing (st : MessageStatus) :
  exec (fst initializing) st
  = {| is_running := true; current_step := "Initializing...";
       progress := 0; total := total st; messages := [] |}.
Proof. reflexivity. Qed.

Lemma quiet_keeps_count (l : list Action) :
  Forall (fun a => quiet a = true) l ->
  Forall (fun a => keeps_count a = true) l.
Proof. intros Hl. eapply Forall_impl; [exact Hl|]. by intros []. Qed.

(** One iteration of the sending loop. *)
Lemma iteration_spec (w : World) (templates : gmap string string)
    (index : nat) (row : Row) (st : MessageStatus) :
  exec (iteration_actions w templates index row) st
  = {| is_running := is_running st; current_step := current_step st;
       progress := index + 1; total := total st;
       messages := messages st
                   ++ [message_result (Client row) (Contact row)
                         (send_success w templates index row)] |}
  /\ (progress st = index -> length (messages st) = index ->
      Forall synced
        (states_after steady (iteration_actions w templates index row) st)).
Proof.
  destruct (send_call_spec w templates index row) as [_ Hq].
  unfold iteration_actions. rewrite exec_app, states_after_app.
  rewrite (exec_quiet _ st Hq). split; [reflexivity|].
  intros Hp Hm. apply Forall_app. split.
  - apply keeps_count_synced; [by apply quiet_keeps_count|].
    unfold synced. congruence.
  - cbn. repeat constructor; unfold synced; cbn;
      rewrite length_app; cbn; lia.
Qed.

(** The whole sending loop, started at position [index]. *)
Lemma iterations_spec (w : World) (templates : gmap string string)
    (rows : list Row) (index : nat) (st : MessageStatus) :
  progress st = index -> length (messages st) = index ->
  exec (concat (imap (fun k => iteration_actions w templates (index + k)) rows))
    st
  = {| is_running := is_running st; current_step := current_step st;
       progress := index + length rows; total := total st;
       messages := messages st
                   ++ imap (fun k row =>
                              message_result (Client row) (Contact row)
                                (send_success w templates (index + k) row))
                        rows |}
  /\ Forall synced
       (states_after steady
          (concat (imap (fun k => iteration_actions w templates (index + k))
                     rows)) st).
Proof.
  revert index st. induction rows as [|row rows IH]; intros index st Hp Hm.
  - cbn. split; [|constructor].
    destruct st; cbn in *. subst. by rewrite Nat.add_0_r, app_nil_r.
  - rewrite !imap_cons. cbn [concat]. rewrite exec_app, states_after_app.
    rewrite Nat.add_0_r.
    destruct (iteration_spec w templates index row st) as [Hex Hsy].
    rewrite Hex.
    rewrite (imap_ext _ (fun k => iteration_actions w templates (S index + k)))
      by (intros; cbn; f_equal; lia).
    rewrite (imap_ext (_ ∘ S)
               (fun k row =>
                  message_result (Client row) (Contact row)
                    (send_success w templates (S index + k) row)))
      by (intros; cbn; do 2 f_equal; lia).
    edestruct (IH (S index)) as [Hex' Hsy'];
      [| |rewrite Hex'; split].
    + cbn. lia.
    + cbn. rewrite length_app. cbn. lia.
    + cbn. f_equal; [lia|]. by rewrite <- app_assoc.
    + apply Forall_app. split; [by apply Hsy|exact Hsy'].
Qed.

Lemma sending_loop_spec (w : World) (templates : gmap string string)
    (rows : list Row) (st : MessageStatus) :
  progress st = 0 -> messages st = [] ->
  exec (concat (imap (iteration_actions w templates) rows)) st
  = {| is_running := is_running st; current_step := current_step st;
       progress := length rows; total := total st;
       messages := imap (fun k row =>
                           message_result (Client row) (Contact row)
                             (send_success w templates k row)) rows |}
  /\ Forall synced
       (states_after steady
          (concat (imap (iteration_actions w templates) rows)) st).
Proof.
  intros Hp Hm.
  destruct (iterations_spec w templates rows 0 st) as [Hex Hsy];
    [done|by rewrite Hm|].
  rewrite Hm in Hex. split; [exact Hex|exact Hsy].
Qed.

(** The body of a run in which everything before the sending loop works
    and a session is detected. *)
Lemma run_body_sending (w : World) (csv_path : string) (cfg : Config)
    (df : list RawRow) (templates : gmap string string) :
  snd (load_config w) = Ok cfg ->
  w_read_csv w csv_path = Ok df ->
  snd (load_templates w template_files ∅) = Ok templates ->
  snd (initialize_webdriver_for_webapp w) = Ok tt ->
  snd (check_session_webapp w) = Ok true ->
  run_body w csv_path
  = (loading_actions w df
     ++ [SetCurrentStep "Initializing browser...";
         SetCurrentStep "Sending messages..."]
     ++ concat (imap (iteration_actions w templates) (due_records w df))
     ++ DriverQuit
        :: match w_quit w with
           | Ok _ => [SetCurrentStep "Completed"; SetIsRunning false]
           | Raise _ => []
           end,
     match w_quit w with Ok _ => Ok tt | Raise e => Raise e end).
Proof.
  intros Hcfg Hcsv Htpl Hdrv Hses.
  rewrite initialize_webdriver_eq in Hdrv. cbn in Hdrv.
  rewrite check_session_eq in Hses. cbn in Hses.
  rewrite run_body_unfold, Hcfg, Hcsv, Htpl, Hdrv.
  by destruct (w_pane_side w).
Qed.

(** The body of a run in which no session is detected. *)
Lemma run_body_no_session (w : World) (csv_path : string) (cfg : Config)
    (df : list RawRow) (templates : gmap string string) :
  snd (load_config w) = Ok cfg ->
  w_read_csv w csv_path = Ok df ->
  snd (load_templates w template_files ∅) = Ok templates ->
  snd (initialize_webdriver_for_webapp w) = Ok tt ->
  snd (check_session_webapp w) = Ok false ->
  run_body w csv_path
  = (loading_actions w df
     ++ [SetCurrentStep "Initializing browser...";
         SetCurrentStep "Session check failed";
         SetIsRunning false],
     Ok tt).
Proof.
  intros Hcfg Hcsv Htpl Hdrv Hses.
  rewrite initialize_webdriver_eq in Hdrv. cbn in Hdrv.
  rewrite check_session_eq in Hses. cbn in Hses.
  rewrite run_body_unfold, Hcfg, Hcsv, Htpl, Hdrv.
  by destruct (w_pane_side w).
Qed.


(** C5: when the run reaches the session check and
    [check_session_webapp] returns false, the run ends with the step
    [Session check failed]; it contains no browser action of a send, and
    it leaves [progress] at 0, [messages] empty and [is_running] false. *)
Theorem C5_session_check_failed (w : World) (csv_path : string)
    (st : MessageStatus) (cfg : Config) (df : list RawRow)
    (templates : gmap string string) :
  snd (load_config w) = Ok cfg ->
  w_read_csv w csv_path = Ok df ->
  snd (load_templates w template_files ∅) = Ok templates ->
  snd (initialize_webdriver_for_webapp w) = Ok tt ->
  snd (check_session_webapp w) = Ok false ->
  let final := final_status w csv_path st in
  run_messaging_process w csv_path
  = (fst initializing
     ++ loading_actions w df
     ++ [SetCurrentStep "Initializing browser...";
         SetCurrentStep "Session check failed";
         SetIsRunning false],
     Ok tt)
  /\ Forall (fun a => browser_action a = false)
       (fst (run_messaging_process w csv_path))
  /\ current_step final = "Session check failed"
  /\ progress final = 0
  /\ messages final = []
  /\ is_running final = false.
Proof.
  intros Hcfg Hcsv Htpl Hdrv Hses final.
  assert (Hrun : run_messaging_process w csv_path
    = (fst initializing
       ++ loading_actions w df
       ++ [SetCurrentStep "Initializing browser...";
           SetCurrentStep "Session check failed";
           SetIsRunning false],
       Ok tt)).
  { rewrite run_messaging_process_eq.
    by rewrite (run_body_no_session w csv_path cfg df templates). }
  unfold final, final_status. rewrite Hrun. cbn [fst].
  split; [reflexivity|]. split; [by repeat constructor|].
  by repeat split.
Qed.

(** C6: the worker never lets an exception escape; when the body of the
    run raises [e] after the actions [acts], the run continues with the two
    writes of the handler, so that the step is [Error: e], [is_running] is
    false, and [messages] (like [progress] and [total]) is what it was when
    the exception was raised. *)
Theorem C6_error_boundary (w : World) (csv_path : string)
    (st : MessageStatus) :
  snd (run_messaging_process w csv_path) = Ok tt
  /\ (forall acts e,
        run_body w csv_path = (acts, Raise e) ->
        let at_error := exec (fst initializing ++ acts) st in
        let final := final_status w csv_path st in
        fst (run_messaging_process w csv_path)
        = fst initializing ++ acts
          ++ [SetCurrentStep ("Error: " +:+ e); SetIsRunning false]
        /\ current_step final = "Error: " +:+ e
        /\ is_running final = false
        /\ messages final = messages at_error
        /\ progress final = progress at_error
        /\ total final = total at_error).
Proof.
  split.
  { rewrite run_messaging_process_eq. unfold prepend. cbn [snd].
    by apply try_except_snd. }
  intros acts e Hbody at_error final.
  assert (Hrun : fst (run_messaging_process w csv_path)
    = fst initializing ++ acts
      ++ [SetCurrentStep ("Error: " +:+ e); SetIsRunning false]).
  { rewrite run_messaging_process_eq, Hbody. reflexivity. }
  split; [exact Hrun|].
  unfold final, final_status, at_error. rewrite Hrun.
  rewrite app_assoc, exec_app.
  by repeat split.
Qed.

(** The dictionary at the end of a run, by the stage the run reached. *)
Lemma final_status_cases (w : World) (csv_path : string)
    (st : MessageStatus) :
  let failed e n :=
    {| is_running := false; current_step := "Error: " +:+ e;
       progress := 0; total := n; messages := [] |} in
  final_status w csv_path st
  = match snd (load_config w) with
    | Raise e => failed e (total st)
    | Ok _ =>
    match w_read_csv w csv_path with
    | Raise e => failed e (total st)
    | Ok df =>
    let due := due_records w df in
    match snd (load_templates w template_files ∅) with
    | Raise e => failed e (length due)
    | Ok templates =>
    match w_chrome w with
    | Raise e => failed e (length due)
    | Ok _ =>
    match w_pane_side w with
    | Raise _ =>
        {| is_running := false; current_step := "Session check failed";
           progress := 0; total := length due; messages := [] |}
    | Ok _ =>
        {| is_running := false;
           current_step := match w_quit w with
                           | Ok _ => "Completed"
                           | Raise e => "Error: " +:+ e
                           end;
           progress := length due; total := length due;
           messages := imap (fun i row =>
                               message_result (Client row) (Contact row)
                                 (send_success w templates i row)) due |}
    end end end end end.
Proof.
  cbv zeta. unfold final_status.
  rewrite run_messaging_process_eq, run_body_unfold.
  destruct (snd (load_config w)) as [cfg|e]; [|reflexivity].
  destruct (w_read_csv w csv_path) as [df|e];
    [|by destruct (w_fails_selecting w)].
  destruct (snd (load_templates w template_files ∅)) as [templates|e];
    [|reflexivity].
  destruct (w_chrome w) as [[]|e]; [|reflexivity].
  destruct (w_pane_side w) as [[]|e]; [|reflexivity].
  unfold prepend. cbn [fst]. rewrite exec_app, exec_initializing.
  destruct (w_quit w) as [[]|e]; cbn [try_except fst];
    [|change (on_error e)
        with ([SetCurrentStep ("Error: " +:+ e); SetIsRunning false],
              Ok tt : Result unit);
      cbn [fst]];
    unfold loading_actions;
    rewrite ?(exec_app [_; _; _]), ?(exec_app [_; _]), ?exec_app;
    (edestruct (sending_loop_spec w templates (due_records w df)) as [-> _];
      [| |reflexivity]; reflexivity).
Qed.

(** C9, as the code has it: the four writes at the start of a run set
    [is_running] to true, the step to [Initializing...], [progress] to 0
    and [messages] to the empty list, whatever the dictionary held before;
    [total] keeps its previous value through the initialisation and is
    overwritten with the number of due records once the file has been
    read and filtered. *)
Theorem C9_initialization_resets (w : World) (csv_path : string)
    (st : MessageStatus) :
  let st1 := exec (fst initializing) st in
  (exists rest,
      fst (run_messaging_process w csv_path) = fst initializing ++ rest)
  /\ is_running st1 = true
  /\ current_step st1 = "Initializing..."
  /\ progress st1 = 0
  /\ messages st1 = []
  /\ total st1 = total st
  /\ (forall cfg df,
        snd (load_config w) = Ok cfg ->
        w_read_csv w csv_path = Ok df ->
        total (final_status w csv_path st) = length (due_records w df)).
Proof.
  cbv zeta. split.
  { eexists. by rewrite run_messaging_process_eq. }
  do 5 (split; [reflexivity|]).
  intros cfg df Hcfg Hcsv.
  pose proof (final_status_cases w csv_path st) as Hfinal.
  cbv zeta in Hfinal. rewrite Hfinal, Hcfg, Hcsv.
  destruct (snd (load_templates w template_files ∅)); [|reflexivity].
  destruct (w_chrome w); [|reflexivity].
  by destruct (w_pane_side w).
Qed.

(** The states a poller can see after the initialisation, other than
    those between a write of [progress] and the append that follows it. *)
Lemma steady_states_synced (w : World) (csv_path : string)
    (st : MessageStatus) :
  progress st = 0 -> messages st = [] ->
  Forall synced
    (states_after steady (fst (try_except (run_body w csv_path) on_error)) st).
Proof.
  intros Hp Hm.
  assert (Hst : synced st) by (unfold synced; by rewrite Hp, Hm).
  assert (Hquiet : forall l : list Action,
             Forall (fun a => keeps_count a = true) l ->
             Forall synced (states_after steady l st)).
  { intros l Hl. by apply keeps_count_synced. }
  rewrite run_body_unfold.
  destruct (snd (load_config w)) as [cfg|e];
    [|apply Hquiet; by repeat constructor].
  destruct (w_read_csv w csv_path) as [df|e];
    [|apply Hquiet; destruct (w_fails_selecting w); by repeat constructor].
  destruct (snd (load_templates w template_files ∅)) as [templates|e];
    [|apply Hquiet; by repeat constructor].
  destruct (w_chrome w) as [[]|e]; [|apply Hquiet; by repeat constructor].
  destruct (w_pane_side w) as [[]|e]; [|apply Hquiet; by repeat constructor].
  set (pre := loading_actions w df
              ++ [SetCurrentStep "Initializing browser...";
                  SetCurrentStep "Sending messages..."]).
  set (loop := concat (imap (iteration_actions w templates)
                         (due_records w df))).
  assert (Hpre : Forall (fun a => keeps_count a = true) pre)
    by (by repeat constructor).
  destruct (keeps_count_synced steady pre st Hpre) as (Hp1 & Hm1 & Hs1).
  destruct (sending_loop_spec w templates (due_records w df) (exec pre st))
    as [Hex Hloop]; [congruence|congruence|].
  fold loop in Hex, Hloop.
  assert (Hend : forall tail : list Action,
    Forall (fun a => keeps_count a = true) tail ->
    Forall synced (states_after steady (pre ++ loop ++ tail) st)).
  { intros tail Htail. rewrite !states_after_app.
    rewrite !Forall_app. split; [by apply Hs1|]. split; [exact Hloop|].
    apply keeps_count_synced; [exact Htail|].
    rewrite Hex. unfold synced. cbn. by rewrite length_imap. }
  destruct (w_quit w) as [[]|e]; cbn [try_except fst].
  - refine (Hend [DriverQuit; SetCurrentStep "Completed"; SetIsRunning false]
              _).
    by repeat constructor.
  - change (on_error e)
      with ([SetCurrentStep ("Error: " +:+ e); SetIsRunning false],
            Ok tt : Result unit).
    cbn [fst]. rewrite <- !app_assoc.
    refine (Hend [DriverQuit; SetCurrentStep ("Error: " +:+ e);
                  SetIsRunning false] _).
    by repeat constructor.
Qed.

(** The state at the boundary after the first [k] iterations. *)
Lemma boundary_state (w : World) (templates : gmap string string)
    (rows : list Row) (k : nat) (pre : list Action) (st : MessageStatus) :
  k <= length rows ->
  progress (exec pre st) = 0 -> messages (exec pre st) = [] ->
  let at_boundary :=
    exec (pre ++ concat (imap (iteration_actions w templates) (take k rows)))
      st in
  progress at_boundary = k
  /\ length (messages at_boundary) = k
  /\ exists later,
       concat (imap (iteration_actions w templates) rows)
       = concat (imap (iteration_actions w templates) (take k rows)) ++ later.
Proof.
  intros Hk Hp Hm. cbv zeta. rewrite exec_app.
  destruct (sending_loop_spec w templates (take k rows) (exec pre st) Hp Hm)
    as [-> _].
  cbn. rewrite length_imap, length_take_le by done.
  split; [done|]. split; [done|].
  exists (concat (imap (fun n => iteration_actions w templates
                                  (length (take k rows) + n))
                    (drop k rows))).
  by rewrite <- concat_app, <- imap_app, take_drop.
Qed.

(** What the worker does for the invariant when it is the only writer of
    the dictionary, as the guard of [start_messaging] intends: after the
    initialisation [progress] is 0 and [messages] is empty; from then on
    [progress] equals the number of entries in every state the writes of
    this worker produce, except between the write of [progress] and the
    append of the same iteration: so at every boundary between two
    iterations and in the final state, whether the run completed, found no
    session or ended in an error.  A run that ends with the step
    [Session check failed] leaves both at 0; in a run that reaches the
    sending loop, both equal [k] once the first [k] iterations are done. *)
Theorem single_worker_progress_counts_entries (w : World) (csv_path : string)
    (st : MessageStatus) :
  let st1 := exec (fst initializing) st in
  let rest := fst (try_except (run_body w csv_path) on_error) in
  let final := final_status w csv_path st in
  fst (run_messaging_process w csv_path) = fst initializing ++ rest
  /\ final = exec rest st1
  /\ progress st1 = 0
  /\ messages st1 = []
  /\ Forall synced (states_after steady rest st1)
  /\ synced final
  /\ (current_step final = "Session check failed" ->
      progress final = 0 /\ messages final = [])
  /\ (forall cfg df templates k,
        snd (load_config w) = Ok cfg ->
        w_read_csv w csv_path = Ok df ->
        snd (load_templates w template_files ∅) = Ok templates ->
        snd (initialize_webdriver_for_webapp w) = Ok tt ->
        snd (check_session_webapp w) = Ok true ->
        k <= length (due_records w df) ->
        let done_k :=
          fst initializing
          ++ loading_actions w df
          ++ [SetCurrentStep "Initializing browser...";
              SetCurrentStep "Sending messages..."]
          ++ concat (imap (iteration_actions w templates)
                       (take k (due_records w df))) in
        (exists later,
            fst (run_messaging_process w csv_path) = done_k ++ later)
        /\ progress (exec done_k st) = k
        /\ length (messages (exec done_k st)) = k).
Proof.
  cbv zeta.
  assert (Hrun : fst (run_messaging_process w csv_path)
                 = fst initializing
                   ++ fst (try_except (run_body w csv_path) on_error))
    by (by rewrite run_messaging_process_eq).
  split; [exact Hrun|].
  split; [unfold final_status; by rewrite Hrun, exec_app|].
  do 2 (split; [reflexivity|]).
  split; [by apply steady_states_synced|].
  assert (Hend : synced (final_status w csv_path st)
    /\ (current_step (final_status w csv_path st) = "Session check failed" ->
        progress (final_status w csv_path st) = 0
        /\ messages (final_status w csv_path st) = [])).
  { pose proof (final_status_cases w csv_path st) as Hfinal.
    cbv zeta in Hfinal. rewrite Hfinal. clear Hfinal.
    destruct (snd (load_config w)) as [cfg|e]; [|by split].
    destruct (w_read_csv w csv_path) as [df|e]; [|by split].
    destruct (snd (load_templates w template_files ∅)) as [templates|e];
      [|by split].
    destruct (w_chrome w) as [[]|e]; [|by split].
    destruct (w_pane_side w) as [[]|e]; [|by split].
    split; [unfold synced; cbn; by rewrite length_imap|].
    cbn. by destruct (w_quit w) as [[]|e]. }
  destruct Hend as [Hsync Hsession].
  split; [exact Hsync|]. split; [exact Hsession|].
  intros cfg df templates k Hcfg Hcsv Htpl Hdrv Hses Hk.
  set (pre := fst initializing
                ++ loading_actions w df
                ++ [SetCurrentStep "Initializing browser...";
                    SetCurrentStep "Sending messages..."]).
    destruct (boundary_state w templates (due_records w df) k pre st Hk)
      as (Hp & Hm & later & Hlater); [reflexivity|reflexivity|].
    assert (Hshape : forall l : list Action,
      fst initializing ++ loading_actions w df
      ++ [SetCurrentStep "Initializing browser...";
          SetCurrentStep "Sending messages..."] ++ l = pre ++ l)
      by reflexivity.
    rewrite Hshape. split; [|by split].
    rewrite Hrun, (run_body_sending w csv_path cfg df templates) by done.
    rewrite Hlater.
    destruct (w_quit w) as [[]|e]; cbn [try_except fst].
    + eexists. rewrite <- !app_assoc. reflexivity.
    + change (on_error e)
        with ([SetCurrentStep ("Error: " +:+ e); SetIsRunning false],
              Ok tt : Result unit).
      cbn [fst]. eexists. rewrite <- !app_assoc. reflexivity.
Qed.

End RunFacts.

(** ** The start request and concurrent workers *)

Section StartFacts.
Context {py : PyLib}.

(** C2: a start request that finds [is_running] true is answered with the
    error [Messaging is already in progress] and status code 400, starts
    no worker thread, and leaves the status dictionary as it was. *)
Theorem C2_start_rejected_while_running (w : World) (s : System)
    (uploads : Uploads) :
  is_running (sys_status s) = true ->
  let rejected :=
    {| resp_key := "error"; resp_text := "Messaging is already in progress";
       resp_code := 400 |} in
  let s' := sys_step w s (StartRequest uploads) in
  start_messaging (sys_status s) uploads = (rejected, None)
  /\ sys_workers s' = sys_workers s
  /\ sys_status s' = sys_status s
  /\ sys_responses s' = sys_responses s ++ [rejected].
Proof.
  intros Hrun. cbv zeta.
  assert (Hstart : start_messaging (sys_status s) uploads
    = ({| resp_key := "error";
          resp_text := "Messaging is already in progress";
          resp_code := 400 |}, None)).
  { unfold start_messaging. by rewrite Hrun. }
  split; [exact Hstart|].
  unfold sys_step. rewrite Hstart. by repeat split.
Qed.

End StartFacts.

(** ** The scenario of the specification, run *)

(** A request that arrives after the first statement of a running worker
    is rejected. *)
Lemma C2_start_rejected_while_running_witness :
  let s := sys_run (py := Demo.lib) Demo.world_ok sys_init
             [StartRequest Demo.uploads; WorkerStep 0] in
  let s' := sys_step (py := Demo.lib) Demo.world_ok s
              (StartRequest Demo.uploads) in
  length (sys_workers s') = 1
  /\ sys_status s' = sys_status s
  /\ resp_code <$> sys_responses s' = [200; 400].
Proof.
  cbv zeta.
  destruct (C2_start_rejected_while_running (py := Demo.lib) Demo.world_ok
              (sys_run (py := Demo.lib) Demo.world_ok sys_init
                 [StartRequest Demo.uploads; WorkerStep 0])
              Demo.uploads eq_refl) as (_ & Hw & Hs & Hr).
  split; [by rewrite Hw|]. split; [exact Hs|]. by rewrite Hr.
Defined.

(** C1 fails on the code: [is_running] is only set by the first statement
    of the worker thread, so a second start request that is handled before
    that statement runs is accepted too.  Two workers are then active at
    once, and when both have run to their end the dictionary holds the
    entries of both runs: four entries for a total of two. *)
Theorem C1_race_two_workers :
  let s := sys_run (py := Demo.lib) Demo.world_ok sys_init Demo.two_requests in
  let s' := sys_run (py := Demo.lib) Demo.world_ok s Demo.taking_turns in
  resp_code <$> sys_responses s = [200; 200]
  /\ length (active_workers s) = 2
  /\ active_workers s' = []
  /\ total (sys_status s') = 2
  /\ client <$> messages (sys_status s') = ["Asha"; "Asha"; "Chitra"; "Chitra"].
Proof. vm_compute. by repeat split. Qed.

(** C10 fails on the code, through the defect of C1: the two start
    requests of that schedule are both accepted, both workers run to their
    end taking turns, and the second worker's reset of [messages] and
    writes of [progress] fall between the writes of the first.  The
    dictionary then ends with the step Completed, [is_running] false and
    no worker active, with [progress] 2 and four entries: in this terminal
    state [progress] does not equal the number of entries. *)
Theorem C10_race_progress_behind_entries :
  let s := sys_run (py := Demo.lib) Demo.world_ok sys_init
             (Demo.two_requests ++ Demo.taking_turns) in
  resp_code <$> sys_responses s = [200; 200]
  /\ active_workers s = []
  /\ current_step (sys_status s) = "Completed"
  /\ is_running (sys_status s) = false
  /\ progress (sys_status s) = 2
  /\ length (messages (sys_status s)) = 4
  /\ ~ synced (sys_status s).
Proof.
  vm_compute. do 6 (split; [reflexivity|]). discriminate.
Qed.



(** The scenario without a session. *)
Lemma C5_session_check_failed_witness :
  let final := final_status (py := Demo.lib) Demo.world_no_session
                 "uploads/new.csv" Demo.stale_status in
  current_step final = "Session check failed"
  /\ progress final = 0
  /\ messages final = []
  /\ is_running final = false.
Proof.
  cbv zeta.
  edestruct (C5_session_check_failed (py := Demo.lib) Demo.world_no_session
               "uploads/new.csv" Demo.stale_status)
    as (_ & _ & Hrest); [reflexivity..|].
  exact Hrest.
Defined.

(** The scenario in which closing the browser fails: both entries are
    still there. *)
Lemma C6_error_boundary_witness :
  let final := final_status (py := Demo.lib) Demo.world_quit_fails
                 "uploads/new.csv" Demo.stale_status in
  current_step final = "Error: browser already closed"
  /\ is_running final = false
  /\ client <$> messages final = ["Asha"; "Chitra"].
Proof.
  cbv zeta.
  destruct (C6_error_boundary (py := Demo.lib) Demo.world_quit_fails
              "uploads/new.csv" Demo.stale_status) as [_ Herr].
  edestruct Herr as (_ & Hstep & Hrun & Hm & _); [reflexivity|].
  split; [exact Hstep|]. split; [exact Hrun|]. by rewrite Hm.
Defined.

(** A run over a dictionary left by an earlier run with [total = 5]. *)
Lemma C9_initialization_resets_witness :
  total (final_status (py := Demo.lib) Demo.world_ok "uploads/new.csv"
           Demo.stale_status) = 2.
Proof.
  destruct (C9_initialization_resets (py := Demo.lib) Demo.world_ok
              "uploads/new.csv" Demo.stale_status)
    as (_ & _ & _ & _ & _ & _ & Htotal).
  rewrite (Htotal _ [Demo.row_A; Demo.row_B; Demo.row_C] eq_refl eq_refl).
  reflexivity.
Defined.

(** C9 as stated fails: after the initialisation [total] still holds the
    value of the earlier run. *)
Lemma C9_counterexample :
  total (exec (fst initializing) Demo.stale_status) = 5
  /\ exec (fst initializing) Demo.stale_status
     <> exec (fst initializing) message_status.
Proof. split; [reflexivity|]. vm_compute. discriminate. Qed.

(** The scenario without a session ends with both counters at 0; in the
    scenario where everything works both are 1 after the first record. *)
Lemma single_worker_progress_example :
  let final := final_status (py := Demo.lib) Demo.world_no_session
                 "uploads/new.csv" Demo.stale_status in
  progress final = 0 /\ messages final = []
  /\ exists done_1 later,
       fst (run_messaging_process (py := Demo.lib) Demo.world_ok
              "uploads/new.csv") = done_1 ++ later
       /\ progress (exec done_1 Demo.stale_status) = 1
       /\ length (messages (exec done_1 Demo.stale_status)) = 1.
Proof.
  cbv zeta.
  destruct (single_worker_progress_counts_entries (py := Demo.lib) Demo.world_no_session
              "uploads/new.csv" Demo.stale_status)
    as (_ & _ & _ & _ & _ & _ & Hzero & _).
  destruct (Hzero eq_refl) as [Hp Hm].
  split; [exact Hp|]. split; [exact Hm|].
  destruct (single_worker_progress_counts_entries (py := Demo.lib) Demo.world_ok
              "uploads/new.csv" Demo.stale_status)
    as (_ & _ & _ & _ & _ & _ & _ & Hk).
  edestruct Hk with (k := 1) as ([later Hlater] & Hp1 & Hm1);
    [reflexivity|reflexivity|reflexivity|reflexivity|reflexivity
    |vm_compute; lia|].
  eexists _, later. split; [exact Hlater|]. split; [exact Hp1|exact Hm1].
Defined.

(** The scenario records, and one record without a date. *)
Lemma C4_due_records_witness :
  let cl := clients (py := Demo.lib) [Demo.row_A; Demo.row_B; Demo.row_C]
            ++ [Demo.row_undated] in
  Client <$> today_clients cl (today 738886) = ["Asha"; "Chitra"]
  /\ (Demo.row_undated ∉ today_clients cl (today 738886))
  /\ (exists raw, raw ∈ [Demo.row_A; Demo.row_B; Demo.row_C]
                  /\ raw_Client raw = "Chitra").
Proof.
  cbv zeta.
  destruct (C4_due_records (py := Demo.lib) Demo.world_ok
              [Demo.row_A; Demo.row_B; Demo.row_C]
              (clients (py := Demo.lib) [Demo.row_A; Demo.row_B; Demo.row_C]
               ++ [Demo.row_undated]) 738886)
    as (_ & Heq & _ & _ & Hnone & _ & Hraw).
  split; [by rewrite Heq|]. split; [apply Hnone; reflexivity|].
  destruct (Hraw {| Client := "Chitra"; Contact := "+919000011111";
                    NextHearingDate := Some 738892%Z;
                    Category := "NoClientsInstruction";
                    TypRnRy := "Appeal"; Parties := "Chitra v Board" |})
    as (raw & Hin & Hclient & _).
  - vm_compute. apply list_elem_of_further, list_elem_of_here.
  - exists raw. by split.
Defined.

(** ** The send buttons *)

Section SendFacts.
Context {py : PyLib}.

Lemma click_send_button_cons (br : Browser) (xpath : string)
    (rest : list string) :
  click_send_button br (xpath :: rest)
  = if candidate_works br xpath
    then ([WaitClickable xpath; Sleep 2; Click xpath], Ok true)
    else prepend (attempt_actions br xpath) (click_send_button br rest).
Proof.
  cbn [click_send_button].
  destruct (click_send_button br rest) as [acts r].
  unfold candidate_works, attempt_actions, prepend.
  unfold call, tell, try_except, mbind, M_bind, mret, M_ret.
  destruct (br_wait_clickable br xpath) as [[]|e1];
    [destruct (br_click br xpath) as [[]|e2]|]; reflexivity.
Qed.

Lemma click_send_button_result (br : Browser) (xpaths : list string) :
  snd (click_send_button br xpaths) = Ok (existsb (candidate_works br) xpaths).
Proof.
  induction xpaths as [|xpath xpaths IH]; [reflexivity|].
  rewrite click_send_button_cons. cbn [existsb].
  destruct (candidate_works br xpath); [reflexivity|exact IH].
Qed.

Lemma click_send_button_none (br : Browser) (xpaths : list string) :
  Forall (fun x => candidate_works br x = false) xpaths ->
  click_send_button br xpaths
  = (concat (attempt_actions br <$> xpaths), Ok false).
Proof.
  induction 1 as [|xpath xpaths Hx _ IH]; [reflexivity|].
  rewrite click_send_button_cons, Hx, IH. reflexivity.
Qed.

(** The action list of [send_whatsapp_message_webapp]. *)
Lemma send_actions (br : Browser) (name contact message : string) :
  fst (send_whatsapp_message_webapp br name contact message)
  = DriverGet (send_url contact message)
    :: match br_get br (send_url contact message) with
       | Ok _ => fst (click_send_button br send_button_xpaths)
       | Raise _ => []
       end.
Proof.
  unfold send_whatsapp_message_webapp. cbv zeta.
  fold (send_url contact message).
  pose proof (click_send_button_result br send_button_xpaths) as Hr.
  destruct (click_send_button br send_button_xpaths) as [acts r].
  cbn [fst snd] in *. subst r.
  unfold call, try_except, mbind, M_bind, mret, M_ret.
  by destruct (br_get br _) as [[]|e].
Qed.

(** X1: the send returns true exactly when the page could be loaded and
    one of the send buttons became clickable and was clicked; when loading
    the page raises, no button is waited for or clicked. *)
Theorem X1_send_succeeds_iff (br : Browser) (name contact message : string) :
  let url := send_url contact message in
  (snd (send_whatsapp_message_webapp br name contact message) = Ok true
   <-> br_get br url = Ok tt
       /\ exists xpath, xpath ∈ send_button_xpaths
                        /\ br_wait_clickable br xpath = Ok tt
                        /\ br_click br xpath = Ok tt)
  /\ (snd (send_whatsapp_message_webapp br name contact message) = Ok true
      \/ snd (send_whatsapp_message_webapp br name contact message) = Ok false)
  /\ (forall e, br_get br url = Raise e ->
        send_whatsapp_message_webapp br name contact message
        = ([DriverGet url], Ok false)).
Proof.
  cbv zeta.
  assert (Hsnd : snd (send_whatsapp_message_webapp br name contact message)
    = Ok (match br_get br (send_url contact message) with
          | Ok _ => existsb (candidate_works br) send_button_xpaths
          | Raise _ => false
          end)).
  { unfold send_whatsapp_message_webapp. cbv zeta.
    fold (send_url contact message).
    pose proof (click_send_button_result br send_button_xpaths) as Hr.
    destruct (click_send_button br send_button_xpaths) as [acts r].
    cbn [fst snd] in *. subst r.
    unfold call, try_except, mbind, M_bind, mret, M_ret.
    by destruct (br_get br _) as [[]|e]. }
  remember send_button_xpaths as xpaths eqn:Hxpaths. clear Hxpaths.
  split; [|split].
  - rewrite Hsnd.
    destruct (br_get br (send_url contact message)) as [[]|e].
    + split.
      * intros [= Hex]. split; [reflexivity|].
        apply existsb_exists in Hex as (xpath & Hin & Hw).
        exists xpath. split; [by apply list_elem_of_In|].
        unfold candidate_works in Hw.
        destruct (br_wait_clickable br xpath) as [[]|]; [|done].
        by destruct (br_click br xpath) as [[]|].
      * intros (_ & xpath & Hin & Hw & Hc). f_equal.
        apply existsb_exists. exists xpath.
        split; [by apply list_elem_of_In|].
        unfold candidate_works. by rewrite Hw, Hc.
    + split; [done|]. by intros [? _].
  - rewrite Hsnd.
    destruct (br_get br (send_url contact message)) as [[]|e];
      [|by right].
    destruct (existsb _ _); [by left|by right].
  - intros e He. apply injective_projections.
    + rewrite send_actions, He. reflexivity.
    + rewrite Hsnd, He. reflexivity.
Qed.

(** X2: the first send button that works ends the loop: the buttons before
    it were each waited for (and clicked, where the wait succeeded), the
    working one is waited for, and clicked after a pause of two seconds,
    and the buttons after it are not touched.  When no button works, every
    one of them was tried, in order, and the result is false. *)
Theorem X2_first_working_button_wins (br : Browser)
    (before after : list string) (xpath : string) :
  (Forall (fun x => candidate_works br x = false) before ->
   candidate_works br xpath = true ->
   click_send_button br (before ++ xpath :: after)
   = (concat (attempt_actions br <$> before)
      ++ [WaitClickable xpath; Sleep 2; Click xpath],
      Ok true))
  /\ (Forall (fun x => candidate_works br x = false) before ->
      click_send_button br before
      = (concat (attempt_actions br <$> before), Ok false)).
Proof.
  split; [|apply click_send_button_none].
  intros Hbefore Hx.
  induction Hbefore as [|y before Hy _ IH]; cbn [app].
  - rewrite click_send_button_cons, Hx. reflexivity.
  - rewrite click_send_button_cons, Hy, IH. unfold prepend. cbn [fst snd].
    rewrite fmap_cons. cbn [concat]. by rewrite <- app_assoc.
Qed.

End SendFacts.

(** ** Choosing the file of a run *)

Section StartChoiceFacts.

(** [max_by_ctime] returns the first entry with the greatest key. *)
Lemma max_by_ctime_spec (files : list (string * Z)) (best : string * Z) :
  exists i,
    (best :: files) !! i = Some (max_by_ctime best files)
    /\ forall j f, (best :: files) !! j = Some f ->
         (snd f <= snd (max_by_ctime best files))%Z
         /\ (j < i -> (snd f < snd (max_by_ctime best files))%Z).
Proof.
  revert best. induction files as [|f files IH]; intros best.
  - exists 0. split; [reflexivity|].
    intros [|j] g Hg; [|done]. cbn in Hg. injection Hg as <-. cbn. lia.
  - cbn [max_by_ctime]. destruct (Z.ltb_spec (snd best) (snd f)) as [Hlt|Hge].
    + destruct (IH f) as (i & Hi & Hmax).
      exists (S i). split; [exact Hi|].
      intros [|j] g Hg.
      * cbn in Hg. injection Hg as <-.
        destruct (Hmax 0 f eq_refl) as [Hle _]. lia.
      * destruct (Hmax j g Hg) as [Hle Hlt']. split; [exact Hle|]. lia.
    + destruct (IH best) as (i & Hi & Hmax).
      destruct (Hmax 0 best eq_refl) as [Hbest Hbest'].
      exists (match i with 0 => 0 | S i' => S (S i') end). split.
      * destruct i as [|i']; [exact Hi|exact Hi].
      * intros [|[|j]] g Hg.
        -- cbn in Hg. injection Hg as <-. split; [exact Hbest|].
           destruct i as [|i']; [lia|]. intros _. apply Hbest'. lia.
        -- cbn in Hg. injection Hg as <-. split; [lia|].
           destruct i as [|i']; [lia|]. intros _.
           assert (snd best < snd (max_by_ctime best files))%Z
             by (apply Hbest'; lia).
           lia.
        -- destruct (Hmax (S j) g Hg) as [Hle Hlt']. split; [exact Hle|].
           destruct i as [|i']; [lia|]. intros Hj. apply Hlt'. lia.
Qed.

(** X3: a start request is accepted exactly when no run is in progress and
    the upload directory holds an entry whose name ends in [.csv]; the
    answer has status 200 exactly when a worker is started, and a
    directory without such an entry is answered with [Please upload a CSV
    file first]. *)
Theorem X3_start_accepted_iff (st : MessageStatus) (uploads : Uploads) :
  (is_Some (snd (start_messaging st uploads))
   <-> is_running st = false
       /\ exists f, f ∈ uploads /\ PyStr.endswith (fst f) ".csv" = true)
  /\ (is_Some (snd (start_messaging st uploads))
      <-> resp_code (fst (start_messaging st uploads)) = 200)
  /\ (is_running st = false -> csv_uploads uploads = [] ->
      start_messaging st uploads
      = ({| resp_key := "error"; resp_text := "Please upload a CSV file first";
            resp_code := 400 |}, None)).
Proof.
  unfold start_messaging. fold (csv_uploads uploads).
  destruct (is_running st); cbn [fst snd resp_code].
  { split; [|split]; [split|split|done].
    - by intros [? ?]. - by intros [? _]. - by intros [? ?]. - done. }
  destruct (csv_uploads uploads) as [|f rest] eqn:Hcsv; cbn [fst snd resp_code].
  - split; [|split]; [split|split|done].
    + by intros [? ?].
    + intros (_ & f & Hin & Hf).
      assert (Hnil : f ∈ csv_uploads uploads)
        by (unfold csv_uploads; by apply list_elem_of_filter).
      rewrite Hcsv in Hnil. by apply elem_of_nil in Hnil.
    + by intros [? ?].
    + done.
  - split; [|split]; [split|split|done].
    + intros _. split; [done|]. exists f.
      assert (Hin : f ∈ csv_uploads uploads)
        by (rewrite Hcsv; apply list_elem_of_here).
      unfold csv_uploads in Hin. apply list_elem_of_filter in Hin. tauto.
    + intros _. by eexists.
    + done.
    + intros _. by eexists.
Qed.

(** X4: the file of an accepted request is, among the entries whose names
    end in [.csv], one with the greatest creation time, and of several
    such the one listed first; the worker is given its name joined to
    [uploads]. *)
Theorem X4_start_takes_newest_csv (st : MessageStatus) (uploads : Uploads)
    (csv_path : string) :
  snd (start_messaging st uploads) = Some csv_path ->
  exists i name ctime,
    csv_uploads uploads !! i = Some (name, ctime)
    /\ (name, ctime) ∈ uploads
    /\ PyStr.endswith name ".csv" = true
    /\ csv_path = "uploads/" +:+ name
    /\ forall j f, csv_uploads uploads !! j = Some f ->
         (snd f <= ctime)%Z /\ (j < i -> (snd f < ctime)%Z).
Proof.
  unfold start_messaging. fold (csv_uploads uploads).
  destruct (is_running st); [done|].
  destruct (csv_uploads uploads) as [|f rest] eqn:Hcsv; [done|].
  cbn [snd]. intros [= <-].
  destruct (max_by_ctime_spec rest f) as (i & Hi & Hmax).
  destruct (max_by_ctime f rest) as [name ctime] eqn:Hbest.
  exists i, name, ctime. split; [exact Hi|].
  assert (Hin : (name, ctime) ∈ csv_uploads uploads)
    by (rewrite Hcsv; by eapply list_elem_of_lookup_2).
  unfold csv_uploads in Hin. apply list_elem_of_filter in Hin as [Hend Hin].
  split; [exact Hin|]. split; [exact Hend|]. split; [reflexivity|].
  exact Hmax.
Qed.

End StartChoiceFacts.

(** ** File names *)

Section FileNameFacts.

Lemma str_length_app (s t : string) :
  String.length (s +:+ t) = String.length s + String.length t.
Proof.
  induction s as [|c s IH]; [reflexivity|].
  rewrite str_app_cons. cbn [String.length]. by rewrite IH.
Qed.

(** Equal texts with ends of equal length have equal ends. *)
Lemma str_app_inj_end (s1 s2 t1 t2 : string) :
  s1 +:+ t1 = s2 +:+ t2 -> String.length t1 = String.length t2 -> t1 = t2.
Proof.
  revert s2. induction s1 as [|c s1 IH]; intros [|d s2] Heq Hlen.
  - exact Heq.
  - rewrite str_app_nil_l in Heq. subst t1.
    rewrite str_length_app in Hlen. cbn [String.length] in Hlen. lia.
  - rewrite str_app_nil_l in Heq. subst t2.
    rewrite str_length_app in Hlen. cbn [String.length] in Hlen. lia.
  - rewrite !str_app_cons in Heq. injection Heq as _ Heq. by apply (IH s2).
Qed.

Lemma endswith_inv (s suffix : string) :
  PyStr.endswith s suffix = true -> exists stem, s = stem +:+ suffix.
Proof.
  induction s as [|c s IH]; cbn [PyStr.endswith].
  - rewrite orb_false_r. intros ->%String.eqb_eq. by exists EmptyString.
  - intros [->%String.eqb_eq|Hs]%orb_prop; [by exists EmptyString|].
    destruct (IH Hs) as [stem ->]. by exists (String c stem).
Qed.

Lemma endswith_app (stem suffix : string) :
  PyStr.endswith (stem +:+ suffix) suffix = true.
Proof.
  induction stem as [|c stem IH].
  - rewrite str_app_nil_l. destruct suffix as [|d suffix]; cbn.
    + reflexivity.
    + by rewrite Ascii.eqb_refl, String.eqb_refl.
  - rewrite str_app_cons. cbn [PyStr.endswith]. rewrite IH. apply orb_true_r.
Qed.

Lemma rsplit1_no_sep (sep : ascii) (s : string) :
  PyStr.contains sep s = false -> PyText.rsplit1 sep s = [s].
Proof.
  induction s as [|c s IH]; [reflexivity|].
  rewrite contains_cons. intros [Hc Hs]%orb_false_elim.
  cbn [PyText.rsplit1]. rewrite (IH Hs).
  rewrite Ascii.eqb_sym in Hc. by rewrite Hc.
Qed.

Lemma rsplit1_app (sep : ascii) (stem ext : string) :
  PyStr.contains sep ext = false ->
  PyText.rsplit1 sep (stem +:+ String sep ext) = [stem; ext].
Proof.
  intros Hext. induction stem as [|c stem IH].
  - rewrite str_app_nil_l. cbn [PyText.rsplit1].
    rewrite (rsplit1_no_sep sep ext Hext). by rewrite Ascii.eqb_refl.
  - rewrite str_app_cons. cbn [PyText.rsplit1]. by rewrite IH.
Qed.

Lemma contains_split (sep : ascii) (s : string) :
  PyStr.contains sep s = true ->
  exists stem ext, s = stem +:+ String sep ext
                   /\ PyStr.contains sep ext = false.
Proof.
  induction s as [|c s IH]; [done|].
  rewrite contains_cons.
  destruct (PyStr.contains sep s) eqn:Hs.
  - intros _. destruct (IH eq_refl) as (stem & ext & -> & Hext).
    by exists (String c stem), ext.
  - rewrite orb_false_r. intros ->%Ascii.eqb_eq.
    by exists EmptyString, s.
Qed.

Lemma allowed_file_spec (filename : string) :
  allowed_file filename = true
  <-> exists stem ext,
        filename = stem +:+ "." +:+ ext
        /\ PyStr.contains "." ext = false
        /\ (PyText.lower ext = "csv" \/ PyText.lower ext = "txt").
Proof.
  unfold allowed_file, ALLOWED_EXTENSIONS. split.
  - intros [Hdot Hext]%andb_prop.
    destruct (contains_split "." filename Hdot) as (stem & ext & -> & Hno).
    rewrite (rsplit1_app "." stem ext Hno) in Hext. cbn in Hext.
    apply bool_decide_eq_true in Hext.
    exists stem, ext. split; [reflexivity|]. split; [exact Hno|].
    rewrite !elem_of_cons, elem_of_nil in Hext. tauto.
  - intros (stem & ext & -> & Hno & Hext).
    change ("." +:+ ext) with (String "." ext).
    rewrite contains_app, contains_cons, Ascii.eqb_refl, orb_true_r.
    rewrite (rsplit1_app "." stem ext Hno). cbn.
    apply bool_decide_eq_true. rewrite !elem_of_cons. tauto.
Qed.

(** X5: a file name is accepted exactly when the text after its last dot
    is [csv] or [txt] in any mix of upper and lower case; a name without a
    dot is refused. *)
Theorem X5_allowed_file_iff (filename : string) :
  (allowed_file filename = true
   <-> exists stem ext,
         filename = stem +:+ "." +:+ ext
         /\ PyStr.contains "." ext = false
         /\ (PyText.lower ext = "csv" \/ PyText.lower ext = "txt"))
  /\ (PyStr.contains "." filename = false -> allowed_file filename = false).
Proof.
  split; [apply allowed_file_spec|].
  intros Hno. unfold allowed_file. by rewrite Hno.
Qed.

(** X6: every name that [start_messaging] takes for an upload is a name
    that [allowed_file] accepts, but not the other way round: a name
    ending in [.CSV] or in [.txt] is accepted for upload and then not seen
    by [start_messaging]. *)
Theorem X6_uploads_the_start_ignores (stem : string) :
  (forall name, seen_by_start name = true -> allowed_file name = true)
  /\ (allowed_file (stem +:+ ".CSV") = true
      /\ seen_by_start (stem +:+ ".CSV") = false)
  /\ (allowed_file (stem +:+ ".txt") = true
      /\ seen_by_start (stem +:+ ".txt") = false).
Proof.
  assert (Hallowed : forall ext,
    PyStr.contains "." ext = false ->
    PyText.lower ext = "csv" \/ PyText.lower ext = "txt" ->
    forall s, allowed_file (s +:+ "." +:+ ext) = true).
  { intros ext Hno Hext s. apply allowed_file_spec. by exists s, ext. }
  assert (Hunseen : forall suffix,
    String.length suffix = 4 -> suffix <> ".csv" ->
    seen_by_start (stem +:+ suffix) = false).
  { intros suffix Hlen Hne. unfold seen_by_start.
    destruct (PyStr.endswith (stem +:+ suffix) ".csv") eqn:Hend; [|done].
    apply endswith_inv in Hend as [stem' Heq].
    apply str_app_inj_end in Heq; [done|by rewrite Hlen]. }
  split; [|split; split].
  - intros name [s ->]%endswith_inv.
    apply (Hallowed "csv"); [reflexivity|by left].
  - apply (Hallowed "CSV"); [reflexivity|by left].
  - by apply Hunseen.
  - apply (Hallowed "txt"); [reflexivity|by right].
  - by apply Hunseen.
Qed.

End FileNameFacts.

(** ** What a poller can see during a run *)

Section TraceFacts.
Context {py : PyLib}.

Lemma trace_app (l1 l2 : list Action) (st : MessageStatus) :
  trace (l1 ++ l2) st = trace l1 st ++ trace l2 (exec l1 st).
Proof.
  revert st. induction l1 as [|a l1 IH]; intros st; [reflexivity|].
  cbn [app trace]. by rewrite IH, exec_cons.
Qed.

Lemma length_trace (l : list Action) (st : MessageStatus) :
  length (trace l st) = length l.
Proof.
  revert st. induction l as [|a l IH]; intros st; [reflexivity|].
  cbn. by rewrite IH.
Qed.

(** The state after the first [i + 1] actions. *)
Lemma trace_lookup (l : list Action) (st : MessageStatus) (i : nat) :
  i < length l -> trace l st !! i = Some (exec (take (S i) l) st).
Proof.
  revert st i. induction l as [|a l IH]; intros st i Hi; [cbn in Hi; lia|].
  destruct i as [|i]; [reflexivity|].
  cbn [trace]. rewrite lookup_cons. cbn [length] in Hi.
  rewrite IH by lia. reflexivity.
Qed.

(** A property of the dictionary that every action of [l] keeps. *)
Lemma trace_preserves (P : MessageStatus -> Prop) (Q : Action -> Prop)
    (l : list Action) (st : MessageStatus) :
  (forall a s, Q a -> P s -> P (apply_action a s)) ->
  Forall Q l -> P st ->
  Forall P (trace l st) /\ P (exec l st).
Proof.
  intros Hstep Hl. revert st.
  induction Hl as [|a l Ha _ IH]; intros st Hst; [by split|].
  cbn [trace]. rewrite exec_cons.
  destruct (IH (apply_action a st)) as [Htr Hex]; [by apply Hstep|].
  split; [by constructor; [apply Hstep|]|exact Hex].
Qed.

Lemma iteration_actions_forall (P : Action -> Prop) (w : World)
    (templates : gmap string string) (index : nat) (row : Row) :
  (forall a, quiet a = true -> P a) ->
  (forall k, P (SetProgress k)) ->
  (forall m, P (AppendMessage m)) ->
  Forall P (iteration_actions w templates index row).
Proof.
  intros Hq Hp Hm. unfold iteration_actions. apply Forall_app. split.
  - destruct (send_call_spec w templates index row) as [_ Hquiet].
    eapply Forall_impl; [exact Hquiet|]. exact Hq.
  - repeat constructor; [apply Hp|apply Hm|by apply Hq].
Qed.

Lemma loop_actions_forall (P : Action -> Prop) (w : World)
    (templates : gmap string string) (rows : list Row) :
  (forall a, quiet a = true -> P a) ->
  (forall k, P (SetProgress k)) ->
  (forall m, P (AppendMessage m)) ->
  Forall P (concat (imap (iteration_actions w templates) rows)).
Proof.
  intros Hq Hp Hm.
  assert (Hgen : forall F : nat -> nat,
    Forall P (concat (imap (fun k => iteration_actions w templates (F k))
                        rows))).
  { induction rows as [|row rows IH]; intros F; [constructor|].
    rewrite imap_cons. cbn [concat]. apply Forall_app. split.
    - by apply iteration_actions_forall.
    - apply (IH (fun k => F (S k))). }
  apply (Hgen (fun k => k)).
Qed.

(** The actions of a run after its initialisation: steps that leave
    [is_running] and the list of entries alone, and then the two writes
    that close the run. *)
Lemma run_rest_closing (w : World) (csv_path : string) :
  exists body s,
    fst (try_except (run_body w csv_path) on_error)
    = body ++ [SetCurrentStep s; SetIsRunning false]
    /\ Forall (fun a => keeps_running a = true) body
    /\ Forall (fun a => keeps_entries a = true) body.
Proof.
  assert (Hloop : forall templates rows,
    Forall (fun a => keeps_running a = true)
      (concat (imap (iteration_actions w templates) rows))
    /\ Forall (fun a => keeps_entries a = true)
         (concat (imap (iteration_actions w templates) rows))).
  { intros templates rows.
    split; apply loop_actions_forall; try done; by intros []. }
  assert (Hsteps : forall l : list Action,
    Forall (fun a => step_write a = true) l ->
    Forall (fun a => keeps_running a = true) l
    /\ Forall (fun a => keeps_entries a = true) l).
  { intros l Hl. split; (eapply Forall_impl; [exact Hl|]); by intros []. }
  rewrite run_body_unfold.
  destruct (snd (load_config w)) as [cfg|e].
  2:{ exists [], ("Error: " +:+ e). split; [reflexivity|].
      apply Hsteps. constructor. }
  destruct (w_read_csv w csv_path) as [df|e].
  2:{ exists (SetCurrentStep "Processing CSV file..."
              :: (if w_fails_selecting w
                  then [SetCurrentStep "Filtering clients..."] else [])),
             ("Error: " +:+ e).
      split; [reflexivity|]. apply Hsteps.
      destruct (w_fails_selecting w); by repeat constructor. }
  destruct (snd (load_templates w template_files ∅)) as [templates|e].
  2:{ exists (loading_actions w df), ("Error: " +:+ e).
      split; [reflexivity|]. apply Hsteps. by repeat constructor. }
  destruct (w_chrome w) as [[]|e].
  2:{ exists (loading_actions w df
              ++ [SetCurrentStep "Initializing browser..."]),
             ("Error: " +:+ e).
      split; [reflexivity|]. apply Hsteps. by repeat constructor. }
  destruct (w_pane_side w) as [[]|e].
  2:{ exists (loading_actions w df
              ++ [SetCurrentStep "Initializing browser..."]),
             "Session check failed".
      split; [reflexivity|]. apply Hsteps. by repeat constructor. }
  destruct (Hloop templates (due_records w df)) as [Hrun Hent].
  destruct (Hsteps (loading_actions w df
                    ++ [SetCurrentStep "Initializing browser...";
                        SetCurrentStep "Sending messages..."]))
    as [Hrun0 Hent0]; [by repeat constructor|].
  exists ((loading_actions w df
           ++ [SetCurrentStep "Initializing browser...";
               SetCurrentStep "Sending messages..."])
          ++ concat (imap (iteration_actions w templates) (due_records w df))
          ++ [DriverQuit]),
         (match w_quit w with
          | Ok _ => "Completed"
          | Raise e => "Error: " +:+ e
          end).
  split.
  - destruct (w_quit w) as [[]|e]; cbn [try_except fst].
    + rewrite <- !app_assoc. reflexivity.
    + change (on_error e)
        with ([SetCurrentStep ("Error: " +:+ e); SetIsRunning false],
              Ok tt : Result unit).
      cbn [fst]. rewrite <- !app_assoc. reflexivity.
  - split; (apply Forall_app; split; [done|]);
      (apply Forall_app; split; [done|by repeat constructor]).
Qed.

Lemma run_trace_running (w : World) (csv_path : string)
    (st : MessageStatus) :
  exists earlier,
    trace (fst (run_messaging_process w csv_path)) st
    = earlier ++ [final_status w csv_path st]
    /\ Forall (fun s => is_running s = true) earlier
    /\ is_running (final_status w csv_path st) = false.
Proof.
  destruct (run_rest_closing w csv_path) as (body & s & Hrest & Hrun & _).
  assert (Hacts : fst (run_messaging_process w csv_path)
    = (SetIsRunning true
       :: [SetCurrentStep "Initializing..."; SetProgress 0; ResetMessages]
          ++ body ++ [SetCurrentStep s])
      ++ [SetIsRunning false]).
  { rewrite run_messaging_process_eq. unfold prepend. cbn [fst].
    rewrite Hrest. cbn [app]. rewrite <- !app_assoc. reflexivity. }
  unfold final_status. rewrite Hacts, trace_app, exec_app.
  eexists. split; [reflexivity|]. split; [|reflexivity].
  cbn [trace].
  constructor; [reflexivity|].
  apply (trace_preserves (fun s => is_running s = true)
           (fun a => keeps_running a = true)); [| |reflexivity].
  - intros [] s'; cbn; congruence.
  - apply Forall_app. split; [by repeat constructor|].
    apply Forall_app. split; [exact Hrun|by repeat constructor].
Qed.

(** X7: for a worker that is the only writer of the dictionary while it
    runs, as the guard of [start_messaging] intends: the states its writes
    produce one after the other, from whatever the dictionary held before,
    all have [is_running] true from its first statement to its last but
    one, and its last statement, however the run ends, sets [is_running]
    to false.  (Two workers that run at once, the race of C1, write into
    each other's states; this is a statement about one worker alone.) *)
Theorem X7_running_until_the_last_write (w : World) (csv_path : string)
    (st : MessageStatus) :
  exists earlier,
    trace (fst (run_messaging_process w csv_path)) st
    = earlier ++ [final_status w csv_path st]
    /\ Forall (fun s => is_running s = true) earlier
    /\ is_running (final_status w csv_path st) = false.
Proof. apply run_trace_running. Qed.

Lemma entries_extend (l : list Action) (st s : MessageStatus) :
  Forall (fun a => keeps_entries a = true) l ->
  s ∈ trace l st ->
  messages st `prefix_of` messages s.
Proof.
  intros Hl. revert st.
  induction Hl as [|a l Ha _ IH]; intros st Hs; cbn [trace] in Hs.
  - by apply elem_of_nil in Hs.
  - assert (Hstep : messages st `prefix_of` messages (apply_action a st)).
    { destruct a; cbn; try done. by apply prefix_app_r. }
    apply elem_of_cons in Hs as [->|Hs]; [exact Hstep|].
    etrans; [exact Hstep|]. by apply IH.
Qed.

Lemma entries_only_grow (l : list Action) (st : MessageStatus)
    (i j : nat) (si sj : MessageStatus) :
  Forall (fun a => keeps_entries a = true) l ->
  trace l st !! i = Some si ->
  trace l st !! j = Some sj ->
  i <= j ->
  messages si `prefix_of` messages sj.
Proof.
  intros Hl. revert st i j.
  induction Hl as [|a l Ha Hl IH]; intros st i j Hi Hj Hij; [done|].
  cbn [trace] in Hi, Hj. destruct i as [|i].
  - cbn in Hi. injection Hi as <-. destruct j as [|j].
    + cbn in Hj. by injection Hj as <-.
    + cbn in Hj. eapply entries_extend; [exact Hl|].
      by eapply list_elem_of_lookup_2.
  - destruct j as [|j]; [lia|]. cbn in Hi, Hj.
    eapply (IH _ i j); [done|done|lia].
Qed.

(** X8: for a worker that is the only writer of the dictionary while it
    runs: after its initialisation the entries are only ever appended to,
    so what [messages] holds after one of the worker's writes is an
    initial part of what it holds after any later write of the same run,
    and of what the run leaves.  (A second worker running at once resets
    [messages] in between, the race of C1; this is a statement about one
    worker alone.) *)
Theorem X8_entries_are_only_appended (w : World) (csv_path : string)
    (st : MessageStatus) (i j : nat) (si sj : MessageStatus) :
  let st1 := exec (fst initializing) st in
  let rest := fst (try_except (run_body w csv_path) on_error) in
  trace rest st1 !! i = Some si ->
  trace rest st1 !! j = Some sj ->
  i <= j ->
  messages si `prefix_of` messages sj
  /\ messages sj `prefix_of` messages (final_status w csv_path st).
Proof.
  cbv zeta. intros Hi Hj Hij.
  destruct (run_rest_closing w csv_path) as (body & s & Hrest & _ & Hent).
  assert (Hall : Forall (fun a => keeps_entries a = true)
                   (fst (try_except (run_body w csv_path) on_error))).
  { rewrite Hrest. apply Forall_app. split; [exact Hent|by repeat constructor]. }
  split; [by eapply entries_only_grow|].
  assert (Hlen : j < length (fst (try_except (run_body w csv_path) on_error))).
  { apply lookup_lt_Some in Hj. by rewrite length_trace in Hj. }
  assert (Hlast : exists k sk,
    trace (fst (try_except (run_body w csv_path) on_error))
      (exec (fst initializing) st) !! k = Some sk
    /\ j <= k /\ sk = final_status w csv_path st).
  { set (rest := fst (try_except (run_body w csv_path) on_error)) in *.
    exists (length rest - 1), (final_status w csv_path st).
    split; [|split; [lia|reflexivity]].
    rewrite trace_lookup by lia.
    replace (S (length rest - 1)) with (length rest) by lia.
    rewrite firstn_all. unfold final_status.
    rewrite run_messaging_process_eq. unfold prepend. cbn [fst].
    by rewrite exec_app. }
  destruct Hlast as (k & sk & Hk & Hjk & ->).
  by eapply entries_only_grow.
Qed.

(** [progress] and the number of entries stay within [total]. *)
Lemma iterations_bounded (w : World) (templates : gmap string string)
    (n : nat) (rows : list Row) (index : nat) (st : MessageStatus) :
  total st = n -> progress st = index -> length (messages st) = index ->
  index + length rows <= n ->
  Forall (fun s => progress s <= total s /\ length (messages s) <= total s)
    (trace (concat (imap (fun k => iteration_actions w templates (index + k))
                      rows)) st).
Proof.
  revert index st. induction rows as [|row rows IH];
    intros index st Ht Hp Hm Hn; [constructor|].
  rewrite imap_cons. cbn [concat length] in *. rewrite trace_app.
  rewrite Nat.add_0_r.
  destruct (iteration_spec w templates index row st) as [Hex _].
  apply Forall_app. split.
  - unfold iteration_actions. rewrite trace_app. apply Forall_app. split.
    + destruct (send_call_spec w templates index row) as [_ Hq].
      apply (trace_preserves
               (fun s => progress s <= total s
                         /\ length (messages s) <= total s)
               (fun a => quiet a = true)); [|exact Hq|lia].
      by intros [] s'.
    + rewrite (exec_quiet _ st)
        by (by destruct (send_call_spec w templates index row)).
      cbn. repeat constructor; cbn; rewrite ?length_app; cbn; lia.
  - rewrite Hex.
    rewrite (imap_ext _ (fun k => iteration_actions w templates (S index + k)))
      by (intros; cbn; f_equal; lia).
    apply IH; cbn; rewrite ?length_app; cbn; lia.
Qed.

(** X9: for a worker that is the only writer of the dictionary while it
    runs: after its initialisation neither [progress] nor the number of
    entries exceeds [total], in any state the worker's writes produce and
    however the run ends.  (With two workers running at once the entries
    of both runs add up beyond [total], the race of C1; this is a
    statement about one worker alone.) *)
Theorem X9_progress_within_total (w : World) (csv_path : string)
    (st : MessageStatus) :
  let st1 := exec (fst initializing) st in
  let rest := fst (try_except (run_body w csv_path) on_error) in
  Forall (fun s => progress s <= total s /\ length (messages s) <= total s)
    (trace rest st1)
  /\ progress (final_status w csv_path st)
     <= total (final_status w csv_path st).
Proof.
  cbv zeta.
  assert (Hrest : Forall (fun s => progress s <= total s
                                   /\ length (messages s) <= total s)
    (trace (fst (try_except (run_body w csv_path) on_error))
       (exec (fst initializing) st))).
  { assert (Hzero : forall l : list Action,
      Forall (fun a => keeps_count a = true) l ->
      Forall (fun s => progress s <= total s
                       /\ length (messages s) <= total s)
        (trace l (exec (fst initializing) st))).
    { intros l Hl.
      destruct (trace_preserves
                  (fun s => progress s = 0 /\ messages s = [])
                  (fun a => keeps_count a = true) l
                  (exec (fst initializing) st)) as [Htr _];
        [|exact Hl|by split|].
      - intros [] s' Ha [Hp Hm]; cbn in *; try done.
      - eapply Forall_impl; [exact Htr|].
        intros s' [-> ->]. cbn. lia. }
    rewrite run_body_unfold.
    destruct (snd (load_config w)) as [cfg|e];
      [|apply Hzero; by repeat constructor].
    destruct (w_read_csv w csv_path) as [df|e];
      [|apply Hzero; destruct (w_fails_selecting w); by repeat constructor].
    destruct (snd (load_templates w template_files ∅)) as [templates|e];
      [|apply Hzero; by repeat constructor].
    destruct (w_chrome w) as [[]|e]; [|apply Hzero; by repeat constructor].
    destruct (w_pane_side w) as [[]|e]; [|apply Hzero; by repeat constructor].
    set (pre := loading_actions w df
                ++ [SetCurrentStep "Initializing browser...";
                    SetCurrentStep "Sending messages..."]).
    set (loop := concat (imap (iteration_actions w templates)
                           (due_records w df))).
    set (st1 := exec (fst initializing) st).
    assert (Hloop : Forall (fun s => progress s <= total s
                                     /\ length (messages s) <= total s)
                      (trace loop (exec pre st1))).
    { apply (iterations_bounded w templates (length (due_records w df))
               (due_records w df) 0); reflexivity. }
    destruct (sending_loop_spec w templates (due_records w df) (exec pre st1))
      as [Hex _]; [reflexivity|reflexivity|]. fold loop in Hex.
    assert (Hend : forall tail : list Action,
      Forall (fun a => match a with
                       | DriverQuit | SetCurrentStep _ | SetIsRunning _ => True
                       | _ => False
                       end) tail ->
      Forall (fun s => progress s <= total s
                       /\ length (messages s) <= total s)
        (trace (pre ++ loop ++ tail) st1)).
    { intros tail Htail. rewrite !trace_app, !Forall_app.
      split; [apply Hzero; by repeat constructor|]. split; [exact Hloop|].
      eapply (trace_preserves _ _ tail); [|exact Htail|].
      - by intros [] s'.
      - rewrite Hex. cbn. rewrite length_imap. lia. }
    destruct (w_quit w) as [[]|e]; cbn [try_except fst].
    - refine (Hend [DriverQuit; SetCurrentStep "Completed";
                    SetIsRunning false] _).
      by repeat constructor.
    - change (on_error e)
        with ([SetCurrentStep ("Error: " +:+ e); SetIsRunning false],
              Ok tt : Result unit).
      cbn [fst]. rewrite <- !app_assoc.
      refine (Hend [DriverQuit; SetCurrentStep ("Error: " +:+ e);
                    SetIsRunning false] _).
      by repeat constructor. }
  split; [exact Hrest|].
  pose proof (final_status_cases w csv_path st) as Hfinal.
  cbv zeta in Hfinal. rewrite Hfinal.
  destruct (snd (load_config w)); [|cbn; lia].
  destruct (w_read_csv w csv_path); [|cbn; lia].
  destruct (snd (load_templates w template_files ∅)); [|cbn; lia].
  destruct (w_chrome w); [|cbn; lia].
  destruct (w_pane_side w); cbn; lia.
Qed.

Lemma click_send_button_gets (br : Browser) (xpaths : list string) :
  omap get_url (fst (click_send_button br xpaths)) = [].
Proof.
  induction xpaths as [|xpath xpaths IH]; [reflexivity|].
  rewrite click_send_button_cons.
  destruct (candidate_works br xpath); [reflexivity|].
  unfold prepend. cbn [fst]. rewrite omap_app, IH.
  unfold attempt_actions. by destruct (br_wait_clickable br xpath).
Qed.

Lemma iteration_gets (w : World) (templates : gmap string string)
    (index : nat) (row : Row) :
  omap get_url (iteration_actions w templates index row)
  = [send_url (Contact row)
       (render (default EmptyString (templates !! Category row)) row)].
Proof.
  unfold iteration_actions, send_call. rewrite omap_app, send_actions.
  cbn [omap list_omap get_url].
  destruct (br_get (w_browser w index) _);
    [by rewrite click_send_button_gets|reflexivity].
Qed.

Lemma loop_gets (G : Row -> string) (w : World)
    (templates : gmap string string) (rows : list Row) :
  (forall i row, row ∈ rows ->
     omap get_url (iteration_actions w templates i row) = [G row]) ->
  omap get_url (concat (imap (iteration_actions w templates) rows))
  = G <$> rows.
Proof.
  intros HG.
  assert (Hgen : forall F : nat -> nat,
    omap get_url
      (concat (imap (fun k => iteration_actions w templates (F k)) rows))
    = G <$> rows).
  { induction rows as [|row rows IH]; intros F; [reflexivity|].
    rewrite imap_cons. cbn [concat]. rewrite omap_app, fmap_cons.
    rewrite HG by apply list_elem_of_here.
    rewrite <- (IH (fun i r Hr => HG i r (list_elem_of_further _ _ _ Hr))
                  (fun k => F (S k))).
    reflexivity. }
  apply (Hgen (fun k => k)).
Qed.

Lemma load_templates_both (w : World) (active no_instruction : string) :
  w_read_file w "templates/active_message.txt" = Ok active ->
  w_read_file w "templates/no_instruction_message.txt" = Ok no_instruction ->
  load_templates w template_files ∅
  = ([], Ok (<["NoClientsInstruction" := no_instruction]>
               (<["Active" := active]> ∅))).
Proof.
  intros Ha Hn. unfold template_files. cbn [load_templates].
  by rewrite bind_lift, Ha, bind_lift, Hn.
Qed.

(** The template a due record is rendered from is the one of its
    category. *)
Lemma due_template_lookup (w : World) (df : list RawRow)
    (active no_instruction : string) (row : Row) :
  row ∈ due_records w df ->
  default EmptyString
    ((<["NoClientsInstruction" := no_instruction]>
        (<["Active" := active]> ∅) : gmap string string) !! Category row)
  = due_template active no_instruction row.
Proof.
  unfold due_records, today_clients, filtered_clients.
  rewrite !list_elem_of_filter. intros (_ & Hcat & _).
  unfold selected_categories in Hcat.
  rewrite !elem_of_cons, elem_of_nil in Hcat.
  unfold due_template. destruct Hcat as [Hcat|[Hcat|[]]]; rewrite Hcat.
  - rewrite lookup_insert_ne by done. by rewrite lookup_insert_eq.
  - by rewrite lookup_insert_eq.
Qed.

(** X10: the pages the sending loop loads.  In a run that reaches the
    sending loop, [send_whatsapp_message_webapp] passes to [driver.get]
    (line 356) exactly one address per due record, in the order of the due
    records: the address carries the record's contact and the quoted text
    of the template of the record's category, the active template for
    Active and the no-instruction template for NoClientsInstruction,
    rendered for that record.  These are all the [DriverGet] actions of
    the run; the one other page a run loads, the home page at line 334,
    is loaded while the browser is started and belongs to [w_chrome]. *)
Theorem X10_one_page_load_per_due_record (w : World) (csv_path : string)
    (cfg : Config) (df : list RawRow) (active no_instruction : string) :
  snd (load_config w) = Ok cfg ->
  w_read_csv w csv_path = Ok df ->
  w_read_file w "templates/active_message.txt" = Ok active ->
  w_read_file w "templates/no_instruction_message.txt" = Ok no_instruction ->
  snd (initialize_webdriver_for_webapp w) = Ok tt ->
  snd (check_session_webapp w) = Ok true ->
  omap get_url (fst (run_messaging_process w csv_path))
  = (fun row => send_url (Contact row)
                  (render (due_template active no_instruction row) row))
    <$> due_records w df.
Proof.
  intros Hcfg Hcsv Ha Hn Hdrv Hses.
  pose proof (load_templates_both w active no_instruction Ha Hn) as Htpl.
  rewrite run_messaging_process_eq.
  rewrite (run_body_sending w csv_path cfg df _ Hcfg Hcsv
             (f_equal snd Htpl) Hdrv Hses).
  assert (Hloop :
    omap get_url
      (concat (imap (iteration_actions w
                       (<["NoClientsInstruction" := no_instruction]>
                          (<["Active" := active]> ∅)))
                 (due_records w df)))
    = (fun row => send_url (Contact row)
                    (render (due_template active no_instruction row) row))
      <$> due_records w df).
  { apply loop_gets. intros i row Hrow.
    by rewrite iteration_gets, (due_template_lookup w df). }
  destruct (w_quit w) as [[]|e]; cbn [try_except fst].
  - unfold prepend. cbn [fst]. rewrite !omap_app, Hloop.
    cbn. by rewrite app_nil_r.
  - change (on_error e)
      with ([SetCurrentStep ("Error: " +:+ e); SetIsRunning false],
            Ok tt : Result unit).
    unfold prepend. cbn [fst]. rewrite !omap_app, Hloop.
    cbn. by rewrite !app_nil_r.
Qed.

(** X11: the browser is closed exactly in the runs that reach the sending
    loop: a run that stops earlier, in particular one that started the
    browser and then found no session, never calls [driver.quit()]. *)
Theorem X11_browser_closed_only_after_loop (w : World) (csv_path : string) :
  DriverQuit ∈ fst (run_messaging_process w csv_path)
  <-> (exists cfg, snd (load_config w) = Ok cfg)
      /\ (exists df, w_read_csv w csv_path = Ok df)
      /\ (exists templates,
            snd (load_templates w template_files ∅) = Ok templates)
      /\ w_chrome w = Ok tt
      /\ w_pane_side w = Ok tt.
Proof.
  rewrite run_messaging_process_eq, run_body_unfold.
  unfold prepend, loading_actions.
  destruct (snd (load_config w)) as [cfg|e].
  2:{ split; [|by intros ([? ?] & _)].
      intros Hin%list_elem_of_In. cbn in Hin. intuition discriminate. }
  destruct (w_read_csv w csv_path) as [df|e].
  2:{ split; [|by intros (_ & [? ?] & _)].
      destruct (w_fails_selecting w);
        intros Hin%list_elem_of_In; cbn in Hin; intuition discriminate. }
  destruct (snd (load_templates w template_files ∅)) as [templates|e].
  2:{ split; [|by intros (_ & _ & [? ?] & _)].
      intros Hin%list_elem_of_In. cbn in Hin. intuition discriminate. }
  destruct (w_chrome w) as [[]|e].
  2:{ split; [|by intros (_ & _ & _ & ? & _)].
      intros Hin%list_elem_of_In. cbn in Hin. intuition discriminate. }
  destruct (w_pane_side w) as [[]|e].
  2:{ split; [|by intros (_ & _ & _ & _ & ?)].
      intros Hin%list_elem_of_In. cbn in Hin. intuition discriminate. }
  split; [intros _; by eauto 10|]. intros _.
  assert (Hquit : forall l1 l2 : list Action,
            DriverQuit ∈ l1 ++ DriverQuit :: l2).
  { intros l1 l2. apply elem_of_app. right. apply list_elem_of_here. }
  destruct (w_quit w) as [[]|e]; cbn [try_except fst].
  - rewrite !app_assoc. apply Hquit.
  - change (on_error e)
      with ([SetCurrentStep ("Error: " +:+ e); SetIsRunning false],
            Ok tt : Result unit).
    cbn [fst]. rewrite <- !app_assoc. rewrite !app_assoc.
    rewrite <- (app_assoc _ [DriverQuit]). apply Hquit.
Qed.

(** X12: what a worker that runs alone leaves in the dictionary does not
    depend on what the dictionary held before, with one exception, the
    key [total], which the run writes only at line 260.  A run in which
    the configuration was read and the frame was read with its six columns
    selected (lines 246 to 258) leaves the same dictionary whatever it
    held before.  A run in which reading the file or selecting the
    columns raised leaves the earlier [total] in place, and wherever the
    totals left from two starting states differ, each is the earlier
    [total]. *)
Theorem X12_outcome_independent_of_previous_status (w : World)
    (csv_path : string) (st st' : MessageStatus) :
  let final := final_status w csv_path st in
  let final' := final_status w csv_path st' in
  is_running final = is_running final'
  /\ current_step final = current_step final'
  /\ progress final = progress final'
  /\ messages final = messages final'
  /\ (forall cfg df,
        snd (load_config w) = Ok cfg -> w_read_csv w csv_path = Ok df ->
        final = final')
  /\ (total final <> total final' ->
      total final = total st /\ total final' = total st')
  /\ (forall e, w_read_csv w csv_path = Raise e -> total final = total st).
Proof.
  cbv zeta.
  pose proof (final_status_cases w csv_path st) as Hfinal.
  pose proof (final_status_cases w csv_path st') as Hfinal'.
  cbv zeta in Hfinal, Hfinal'. rewrite Hfinal, Hfinal'.
  destruct (snd (load_config w)) as [cfg|e]; [|by repeat split].
  destruct (w_read_csv w csv_path) as [df|e]; [|by repeat split].
  destruct (snd (load_templates w template_files ∅)) as [templates|e];
    [|by repeat split].
  destruct (w_chrome w) as [[]|e]; [|by repeat split].
  destruct (w_pane_side w) as [[]|e]; by repeat split.
Qed.

End TraceFacts.

(** ** One worker at a time, one run after the other *)

Section SequentialFacts.
Context {py : PyLib}.

Lemma sys_run_cons (w : World) (s : System) (ev : Event)
    (evs : list Event) :
  sys_run w s (ev :: evs) = sys_run w (sys_step w s ev) evs.
Proof. reflexivity. Qed.

(** [k] steps of the worker thread [tid]. *)
Lemma sys_run_worker_steps (w : World) (k : nat) (tid : nat) (s : System)
    (acts : list Action) :
  sys_workers s !! tid = Some acts ->
  sys_run w s (replicate k (WorkerStep tid))
  = {| sys_status := exec (take k acts) (sys_status s);
       sys_workers := <[tid := drop k acts]> (sys_workers s);
       sys_responses := sys_responses s |}.
Proof.
  revert s acts. induction k as [|k IH]; intros s acts Hacts.
  - cbn. rewrite list_insert_id by done. by destruct s.
  - cbn [replicate]. rewrite sys_run_cons.
    unfold sys_step. rewrite Hacts.
    destruct acts as [|a rest].
    + rewrite (IH s []) by done. by rewrite !take_nil, !drop_nil.
    + assert (Htid : tid < length (sys_workers s))
        by (by eapply lookup_lt_Some).
      rewrite (IH _ rest) by (cbn; by rewrite list_lookup_insert_eq).
      cbn. by rewrite list_insert_insert_eq.
Qed.

(** The decision of [start_messaging] depends on [is_running] alone. *)
Lemma start_messaging_running (st st' : MessageStatus) (uploads : Uploads) :
  is_running st = is_running st' ->
  start_messaging st uploads = start_messaging st' uploads.
Proof. intros Hrun. unfold start_messaging. by rewrite Hrun. Qed.

Lemma start_messaging_accepted (st : MessageStatus) (uploads : Uploads)
    (csv_path : string) :
  snd (start_messaging st uploads) = Some csv_path ->
  start_messaging st uploads
  = ({| resp_key := "success"; resp_text := "Messaging process started";
        resp_code := 200 |}, Some csv_path).
Proof.
  unfold start_messaging. destruct (is_running st); [done|].
  destruct (filter _ uploads); [done|]. cbn. by intros [= <-].
Qed.

(** X13: once the one worker of a freshly started process has executed its
    first statement, and until it executes its last, every further start
    request is answered with status 400 and starts nothing; once the
    worker has executed its last statement, however its run ended, a start
    request is decided as in a freshly started process. *)
Theorem X13_one_run_after_the_other (w : World) (uploads later : Uploads)
    (csv_path : string) (k : nat) :
  snd (start_messaging message_status uploads) = Some csv_path ->
  let acts := fst (run_messaging_process w csv_path) in
  let s_k := sys_run w sys_init
               (StartRequest uploads :: replicate k (WorkerStep 0)) in
  (1 <= k < length acts ->
   is_running (sys_status s_k) = true
   /\ sys_workers (sys_step w s_k (StartRequest later)) = sys_workers s_k
   /\ length (sys_workers s_k) = 1
   /\ resp_code <$> sys_responses (sys_step w s_k (StartRequest later))
      = [200; 400])
  /\ (length acts <= k ->
      sys_status s_k = final_status w csv_path message_status
      /\ active_workers s_k = []
      /\ start_messaging (sys_status s_k) later
         = start_messaging message_status later).
Proof.
  intros Hstart. cbv zeta.
  set (acts := fst (run_messaging_process w csv_path)).
  assert (Hsk : sys_run w sys_init
                  (StartRequest uploads :: replicate k (WorkerStep 0))
    = {| sys_status := exec (take k acts) message_status;
         sys_workers := [drop k acts];
         sys_responses :=
           [{| resp_key := "success";
               resp_text := "Messaging process started";
               resp_code := 200 |}] |}).
  { rewrite sys_run_cons. unfold sys_step. cbn [sys_init sys_status].
    rewrite (start_messaging_accepted _ _ _ Hstart).
    rewrite (sys_run_worker_steps w k 0 _ acts) by reflexivity.
    reflexivity. }
  rewrite Hsk. cbn [sys_status sys_workers sys_responses].
  destruct (run_trace_running w csv_path message_status)
    as (earlier & Htrace & Hearlier & Hfinal).
  fold acts in Htrace.
  assert (Hlen : length earlier + 1 = length acts).
  { rewrite <- (length_trace acts message_status), Htrace, length_app.
    reflexivity. }
  split.
  - intros [Hk1 Hk2].
    assert (Hrun : is_running (exec (take k acts) message_status) = true).
    { destruct k as [|k]; [lia|].
      pose proof (trace_lookup acts message_status k ltac:(lia)) as Hlook.
      rewrite Htrace, lookup_app_l in Hlook by lia.
      rewrite Forall_lookup in Hearlier. by eapply Hearlier. }
    split; [exact Hrun|].
    unfold sys_step. cbn [sys_status sys_workers sys_responses].
    unfold start_messaging. rewrite Hrun. by repeat split.
  - intros Hk. rewrite take_ge, drop_ge by done.
    split; [reflexivity|]. split; [reflexivity|].
    apply start_messaging_running. exact Hfinal.
Qed.

End SequentialFacts.

(** ** The upload handler *)

Section UploadFacts.
Context {web : WebLib}.

(** X14: an upload is answered with success only for a file with an
    accepted name that was saved under [uploads] and then read as a frame
    holding all six required columns; the answer reports the number of
    rows of that frame, and the session remembers the saved path. *)
Theorem X14_upload_success_means_valid (uw : UploadWorld)
    (csv_file : option string) (out : UploadOutcome) :
  upload_csv uw csv_file = Ok out ->
  resp_code (up_response out) = 200 ->
  exists file_filename df_columns rows,
    csv_file = Some file_filename
    /\ file_filename <> EmptyString
    /\ allowed_file file_filename = true
    /\ uw_save uw ("uploads/" +:+ secure_filename file_filename) = Ok tt
    /\ uw_read_csv uw ("uploads/" +:+ secure_filename file_filename)
       = Ok (df_columns, rows)
    /\ (forall col, col ∈ required_columns -> col ∈ df_columns)
    /\ up_rows out = Some rows
    /\ up_saved out = Some ("uploads/" +:+ secure_filename file_filename)
    /\ up_session out = Some ("uploads/" +:+ secure_filename file_filename).
Proof.
  unfold upload_csv. destruct csv_file as [file_filename|]; [|by intros [= <-]].
  destruct (decide (file_filename = EmptyString)) as [|Hne];
    [by intros [= <-]|].
  destruct (allowed_file file_filename) eqn:Hallowed; [|by intros [= <-]].
  cbv zeta.
  destruct (uw_save uw _) as [[]|e] eqn:Hsave; [|done].
  destruct (uw_read_csv uw _) as [[df_columns rows]|e] eqn:Hread;
    [|by intros [= <-]].
  destruct (forallb _ required_columns) eqn:Hcols; [|by intros [= <-]].
  intros [= <-] _. exists file_filename, df_columns, rows.
  repeat split; try done.
  intros col Hcol. rewrite forallb_forall in Hcols.
  apply list_elem_of_In in Hcol. apply Hcols in Hcol.
  by apply bool_decide_eq_true in Hcol.
Qed.

(** X15: the file is saved before it is examined: a file with an accepted
    name that could be saved stays under [uploads] when it cannot be read
    as a CSV file or lacks a required column, although the answer has
    status 400 and the session is left alone.  A request without a file,
    with an empty file name or with a name that is not accepted saves and
    reads nothing. *)
Theorem X15_upload_saved_before_validation (uw : UploadWorld)
    (file_filename : string) :
  let file_path := "uploads/" +:+ secure_filename file_filename in
  (file_filename <> EmptyString ->
   allowed_file file_filename = true ->
   uw_save uw file_path = Ok tt ->
   (forall e,
      uw_read_csv uw file_path = Raise e ->
      upload_csv uw (Some file_filename)
      = Ok (upload_refused ("Error reading CSV: " +:+ e) (Some file_path)))
   /\ (forall df_columns rows col,
         uw_read_csv uw file_path = Ok (df_columns, rows) ->
         col ∈ required_columns -> col ∉ df_columns ->
         upload_csv uw (Some file_filename)
         = Ok (upload_refused
                 ("CSV must contain columns: Client, Contact, "
                  +:+ "NextHearingDate, Category, TypRnRy, Parties")
                 (Some file_path))))
  /\ upload_csv uw None = Ok (upload_refused "No file selected" None)
  /\ upload_csv uw (Some EmptyString)
     = Ok (upload_refused "No file selected" None)
  /\ (file_filename <> EmptyString ->
      allowed_file file_filename = false ->
      upload_csv uw (Some file_filename)
      = Ok (upload_refused "Invalid file format" None)).
Proof.
  cbv zeta. split; [|split; [reflexivity|split; [reflexivity|]]].
  - intros Hne Hallowed Hsave. unfold upload_csv.
    destruct (decide (file_filename = EmptyString)); [done|].
    rewrite Hallowed. cbv zeta. rewrite Hsave. split.
    + intros e ->. reflexivity.
    + intros df_columns rows col -> Hcol Hmissing.
      destruct (forallb _ required_columns) eqn:Hcols; [|reflexivity].
      rewrite forallb_forall in Hcols.
      apply list_elem_of_In in Hcol. apply Hcols in Hcol.
      by apply bool_decide_eq_true in Hcol.
  - intros Hne Hrefused. unfold upload_csv.
    destruct (decide (file_filename = EmptyString)); [done|].
    by rewrite Hrefused.
Qed.

End UploadFacts.

(** ** The files of the web application *)

Section DiskFacts.
Context {web : WebLib}.

(** [p ∉ [p1; ...; pn]] for paths that are written out. *)
Ltac not_listed :=
  cbn [fmap list_fmap fst snd];
  repeat (apply not_elem_of_cons; split; [done|]); apply not_elem_of_nil.

Lemma io_bind_eq {A B} (m : IO A) (f : A -> IO B) (d : Disk) :
  (m ≫= f) d = match m d with
               | (Ok a, d') => f a d'
               | (Raise e, d') => (Raise e, d')
               end.
Proof. reflexivity. Qed.

(** [parent_error] with the directory of the path worked out. *)
Lemma parent_error_eq (d : Disk) (p : string) :
  parent_error d p
  = match dirname p with
    | EmptyString => None
    | dir => match nodes d !! dir with
             | Some Dir => None
             | Some (File _) => Some "NotADirectoryError"
             | None => Some "FileNotFoundError"
             end
    end.
Proof.
  unfold parent_error. destruct (decide (dirname p = EmptyString)) as [->|Hne];
    [done|]. by destruct (dirname p).
Qed.

Lemma keeps_all_refl (d : Disk) : keeps_all d d.
Proof. by split. Qed.

Lemma keeps_all_trans (d1 d2 d3 : Disk) :
  keeps_all d1 d2 -> keeps_all d2 d3 -> keeps_all d1 d3.
Proof. intros [H1 H1'] [H2 H2']. split; [congruence|eauto]. Qed.

Lemma keeps_all_insert (d : Disk) (p : string) (n : Node) :
  nodes d !! p = None -> keeps_all d (with_nodes d (<[p := n]> (nodes d))).
Proof.
  intros Hp. split; [done|]. intros q m Hq. cbn.
  rewrite lookup_insert_ne; [done|]. intros ->. congruence.
Qed.

(** A write either raises and leaves the disk as it is, or puts the file
    in place. *)
Lemma disk_write_cases (p content : string) (d : Disk) :
  (exists e, disk_write p content d = (Raise e, d)
             /\ (parent_error d p = Some e
                 \/ (nodes d !! p = Some Dir /\ e = "IsADirectoryError")
                 \/ denied d p = Some e))
  \/ (disk_write p content d
      = (Ok tt, with_nodes d (<[p := File content]> (nodes d)))
      /\ parent_error d p = None
      /\ nodes d !! p <> Some Dir
      /\ denied d p = None).
Proof.
  unfold disk_write. destruct (parent_error d p) as [e|]; [left; eauto|].
  destruct (nodes d !! p) as [[|old]|] eqn:Hp.
  - left. exists "IsADirectoryError". auto.
  - destruct (denied d p) as [e|]; [left; eauto 6|by right].
  - destruct (denied d p) as [e|]; [left; eauto 6|by right].
Qed.

Lemma disk_write_ok (p content : string) (d : Disk) :
  parent_error d p = None -> nodes d !! p <> Some Dir -> denied d p = None ->
  disk_write p content d
  = (Ok tt, with_nodes d (<[p := File content]> (nodes d))).
Proof.
  intros Hparent Hp Hdenied. unfold disk_write. rewrite Hparent, Hdenied.
  by destruct (nodes d !! p) as [[|old]|].
Qed.

(** What one block of [initialize_default_configs] does to the disk. *)
Lemma provide_default_spec (target default_path fallback : string)
    (d : Disk) :
  exists r d',
    provide_default target default_path fallback d = (r, d')
    /\ (d' = d
        \/ (nodes d !! target = None /\ r = Ok tt
            /\ exists content,
                 d' = with_nodes d (<[target := File content]> (nodes d))
                 /\ (nodes d !! default_path = Some (File content)
                     \/ (nodes d !! default_path = None
                         /\ content = fallback))))
    /\ (r = Ok tt -> is_Some (nodes d' !! target))
    /\ (is_Some (nodes d !! target) -> r = Ok tt /\ d' = d).
Proof.
  unfold provide_default. rewrite io_bind_eq. unfold disk_exists at 1.
  cbv beta iota. destruct (nodes d !! target) as [n|] eqn:Htarget.
  { rewrite bool_decide_eq_true_2 by eauto. do 2 eexists.
    split; [reflexivity|]. rewrite Htarget. split; [by left|eauto]. }
  assert (Hno : ~ is_Some (None : option Node))
    by (rewrite <-not_eq_None_Some; tauto).
  rewrite bool_decide_eq_false_2 by done.
  cbn [negb]. rewrite io_bind_eq. unfold disk_exists. cbv beta iota.
  assert (Hnew : forall content,
            is_Some (nodes (with_nodes d (<[target := File content]> (nodes d)))
                     !! target))
    by (intros content; cbn; rewrite lookup_insert_eq; eauto).
  destruct (nodes d !! default_path) as [[|content]|] eqn:Hdefault.
  - rewrite bool_decide_eq_true_2 by eauto. unfold disk_copy, disk_read_stored.
    rewrite io_bind_eq, Hdefault. do 2 eexists.
    split; [reflexivity|]. split; [by left|]. split; [done|by intros ?%Hno].
  - rewrite bool_decide_eq_true_2 by eauto. unfold disk_copy, disk_read_stored.
    rewrite io_bind_eq, Hdefault.
    destruct (disk_write_cases target content d)
      as [(e & -> & _)|(-> & _)]; do 2 eexists;
      (split; [reflexivity|]);
      (split; [|split; [|by intros ?%Hno]]);
      [by left|done|right; eauto 10|auto].
  - rewrite bool_decide_eq_false_2 by done.
    destruct (disk_write_cases target fallback d)
      as [(e & -> & _)|(-> & _)]; do 2 eexists;
      (split; [reflexivity|]);
      (split; [|split; [|by intros ?%Hno]]);
      [by left|done|right; eauto 10|auto].
Qed.

Lemma initialize_default_configs_eq :
  initialize_default_configs
  = for_each (fun '(target, default_path, fallback) =>
                provide_default target default_path fallback)
      provided_files.
Proof. reflexivity. Qed.

(** A sequence of such blocks creates what is missing and touches nothing
    else. *)
Lemma provide_all_spec (files : list (string * string * string))
    (d : Disk) (r : Result unit) (d' : Disk) :
  for_each (fun '(target, default_path, fallback) =>
              provide_default target default_path fallback) files d
  = (r, d') ->
  keeps_all d d'
  /\ (forall p, p ∉ files.*1.*1 -> nodes d' !! p = nodes d !! p)
  /\ (r = Ok tt -> forall p, p ∈ files.*1.*1 -> is_Some (nodes d' !! p))
  /\ ((forall p, p ∈ files.*1.*1 -> is_Some (nodes d !! p)) ->
      r = Ok tt /\ d' = d).
Proof.
  revert d. induction files as [|[[target default_path] fallback] files IH];
    intros d.
  { intros [= <- <-]. split; [apply keeps_all_refl|].
    split; [done|]. split; [|done]. intros _ p Hp. by apply elem_of_nil in Hp. }
  cbn [for_each fmap list_fmap fst]. rewrite io_bind_eq.
  destruct (provide_default_spec target default_path fallback d)
    as (r1 & d1 & -> & Hcase & Hthere & Hnoop).
  assert (Hkeeps : keeps_all d d1).
  { destruct Hcase as [->|(Hnone & _ & content & -> & _)];
      [apply keeps_all_refl|by apply keeps_all_insert]. }
  assert (Hframe : forall p, p <> target -> nodes d1 !! p = nodes d !! p).
  { intros p Hp. destruct Hcase as [->|(_ & _ & content & -> & _)]; [done|].
    cbn. by rewrite lookup_insert_ne. }
  destruct r1 as [[]|e].
  - intros Hrest. apply IH in Hrest as (Hkeeps' & Hframe' & Hthere' & Hnoop').
    split; [by eapply keeps_all_trans|]. split; [|split].
    + intros p Hp. apply not_elem_of_cons in Hp as [Hne Hp].
      by rewrite Hframe', Hframe.
    + intros Hr p [->|Hp]%elem_of_cons; [|by apply Hthere'].
      destruct Hthere as [n Hn]; [done|].
      destruct Hkeeps' as [_ Hkeeps']. apply Hkeeps' in Hn. eauto.
    + intros Hall. destruct Hnoop as [_ ->]; [apply Hall; left|].
      apply Hnoop'. intros p Hp. apply Hall. by right.
  - intros [= <- <-]. split; [done|]. split; [|split].
    + intros p Hp. apply not_elem_of_cons in Hp as [Hne Hp]. by apply Hframe.
    + done.
    + intros Hall. destruct Hnoop as [[=] _]. apply Hall. left.
Qed.

(** A block raises only when it has to create the file and cannot. *)
Lemma provide_default_raises (target default_path fallback : string)
    (d : Disk) (e : Exn) (d' : Disk) :
  provide_default target default_path fallback d = (Raise e, d') ->
  d' = d /\ nodes d !! target = None
  /\ (nodes d !! default_path = Some Dir
      \/ parent_error d target = Some e
      \/ denied d target = Some e).
Proof.
  unfold provide_default. rewrite io_bind_eq. unfold disk_exists at 1.
  cbv beta iota. destruct (nodes d !! target) as [n|] eqn:Htarget.
  { by rewrite bool_decide_eq_true_2 by eauto. }
  assert (Hno : ~ is_Some (None : option Node))
    by (rewrite <-not_eq_None_Some; tauto).
  rewrite bool_decide_eq_false_2 by done.
  cbn [negb]. rewrite io_bind_eq. unfold disk_exists. cbv beta iota.
  destruct (nodes d !! default_path) as [[|content]|] eqn:Hdefault.
  - rewrite bool_decide_eq_true_2 by eauto. unfold disk_copy, disk_read_stored.
    rewrite io_bind_eq, Hdefault. intros [= <- <-]. auto.
  - rewrite bool_decide_eq_true_2 by eauto. unfold disk_copy, disk_read_stored.
    rewrite io_bind_eq, Hdefault.
    destruct (disk_write_cases target content d)
      as [(e' & -> & Hwhy)|(-> & _)]; [|done].
    intros [= <- <-]. split; [done|]. split; [done|].
    destruct Hwhy as [?|[[? _]|?]]; [auto|congruence|auto].
  - rewrite bool_decide_eq_false_2 by done.
    destruct (disk_write_cases target fallback d)
      as [(e' & -> & Hwhy)|(-> & _)]; [|done].
    intros [= <- <-]. split; [done|]. split; [done|].
    destruct Hwhy as [?|[[? _]|?]]; [auto|congruence|auto].
Qed.

Lemma provide_all_raises (files : list (string * string * string))
    (d : Disk) (e : Exn) (d' : Disk) :
  for_each (fun '(target, default_path, fallback) =>
              provide_default target default_path fallback) files d
  = (Raise e, d') ->
  exists target default_path fallback,
    (target, default_path, fallback) ∈ files
    /\ nodes d' !! target = None
    /\ (nodes d' !! default_path = Some Dir
        \/ parent_error d' target = Some e
        \/ denied d' target = Some e).
Proof.
  revert d. induction files as [|[[target default_path] fallback] files IH];
    intros d; [done|].
  cbn [for_each]. rewrite io_bind_eq.
  destruct (provide_default target default_path fallback d)
    as [[[]|e1] d1] eqn:Hhead.
  - intros (t & dp & fb & Hin & Hrest)%IH. exists t, dp, fb.
    split; [by right|done].
  - intros [= <- <-]. apply provide_default_raises in Hhead as (-> & Hwhy).
    exists target, default_path, fallback. split; [left|done].
Qed.

Lemma provided_targets :
  provided_files.*1.*1
  = ["config.json"; "templates/active_message.txt";
     "templates/inactive_message.txt"; "templates/no_instruction_message.txt"].
Proof. reflexivity. Qed.


(** X17: when [config.json] and the three template files exist,
    [initialize_default_configs] does nothing; so a second call after a
    call that returned normally does nothing. *)
Theorem X17_defaults_idempotent (d : Disk) :
  ((forall p,
      p ∈ ["config.json"; "templates/active_message.txt";
           "templates/inactive_message.txt";
           "templates/no_instruction_message.txt"] ->
      is_Some (nodes d !! p)) ->
   initialize_default_configs d = (Ok tt, d))
  /\ (forall d',
        initialize_default_configs d = (Ok tt, d') ->
        initialize_default_configs d' = (Ok tt, d')).
Proof.
  assert (Hnoop : forall d0,
            (forall p, p ∈ provided_files.*1.*1 -> is_Some (nodes d0 !! p)) ->
            initialize_default_configs d0 = (Ok tt, d0)).
  { intros d0 Hall. destruct (initialize_default_configs d0) as [r d1] eqn:Hrun.
    rewrite initialize_default_configs_eq in Hrun.
    apply provide_all_spec in Hrun as (_ & _ & _ & Hnoop).
    by destruct Hnoop as [-> ->]. }
  split; [apply Hnoop|]. intros d' Hrun. apply Hnoop.
  rewrite initialize_default_configs_eq in Hrun.
  apply provide_all_spec in Hrun as (_ & _ & Hthere & _). by apply Hthere.
Qed.

Lemma for_each_app {A} (f : A -> IO unit) (xs ys : list A) (d d' : Disk) :
  for_each f (xs ++ ys) d = (Ok tt, d') ->
  exists dm, for_each f xs d = (Ok tt, dm) /\ for_each f ys dm = (Ok tt, d').
Proof.
  revert d. induction xs as [|x xs IH]; intros d; [by exists d|].
  cbn [app for_each]. rewrite !io_bind_eq.
  destruct (f x d) as [[[]|e] d1]; [|done]. apply IH.
Qed.

(** The file a block creates has the text of its default, or the fallback
    text when there is no default. *)
Lemma provide_at (before after : list (string * string * string))
    (target default_path fallback : string) (d d' : Disk) :
  for_each (fun '(target, default_path, fallback) =>
              provide_default target default_path fallback)
    (before ++ (target, default_path, fallback) :: after) d
  = (Ok tt, d') ->
  target ∉ before.*1.*1 -> default_path ∉ before.*1.*1 ->
  nodes d !! target = None ->
  match nodes d !! default_path with
  | Some (File content) => nodes d' !! target = Some (File content)
  | Some Dir => False
  | None => nodes d' !! target = Some (File fallback)
  end.
Proof.
  intros (dm & Hbefore & Hrest)%for_each_app Htarget Hdefault Hnone.
  apply provide_all_spec in Hbefore as (_ & Hframe & _).
  rewrite <-(Hframe target), <-(Hframe default_path) in * by done.
  cbn [for_each] in Hrest. rewrite io_bind_eq in Hrest.
  destruct (provide_default_spec target default_path fallback dm)
    as (r1 & d1 & Hblock & Hcase & Hthere & _).
  rewrite Hblock in Hrest. destruct r1 as [[]|e]; [|done].
  apply provide_all_spec in Hrest as ([_ Hkeeps] & _).
  destruct Hcase as [->|(_ & _ & content & -> & Hcontent)].
  { destruct Hthere as [n Hn]; [done|]. rewrite Hnone in Hn. done. }
  assert (Hnew : nodes d' !! target = Some (File content))
    by (apply Hkeeps; cbn; by rewrite lookup_insert_eq).
  destruct Hcontent as [->|[-> ->]]; done.
Qed.

(** X18: a file that [initialize_default_configs] has to create gets the
    text of its default file when that exists, and the built-in text
    otherwise: after a call that returned normally, each of the four files
    that was missing holds the one or the other (and its default was not a
    directory). *)
Theorem X18_defaults_content (d d' : Disk)
    (target default_path fallback : string) :
  initialize_default_configs d = (Ok tt, d') ->
  (target, default_path, fallback) ∈ provided_files ->
  nodes d !! target = None ->
  match nodes d !! default_path with
  | Some (File content) => nodes d' !! target = Some (File content)
  | Some Dir => False
  | None => nodes d' !! target = Some (File fallback)
  end.
Proof.
  rewrite initialize_default_configs_eq. intros Hrun Hin.
  unfold provided_files, default_template_files in Hin, Hrun.
  cbn [fmap list_fmap] in Hin, Hrun.
  repeat (apply elem_of_cons in Hin as [[= -> -> ->]|Hin]).
  - apply (provide_at [] _ _ _ _ _ _ Hrun); not_listed.
  - apply (provide_at [_] _ _ _ _ _ _ Hrun); not_listed.
  - apply (provide_at [_; _] _ _ _ _ _ _ Hrun); not_listed.
  - apply (provide_at [_; _; _] _ _ _ _ _ _ Hrun); not_listed.
  - by apply elem_of_nil in Hin.
Qed.

Lemma defaults_fail_only_when (d : Disk) (e : Exn) (d' : Disk) :
  initialize_default_configs d = (Raise e, d') ->
  exists target default_path fallback,
    (target, default_path, fallback) ∈ provided_files
    /\ nodes d !! target = None
    /\ nodes d' !! target = None
    /\ (nodes d !! default_path = Some Dir
        \/ (target <> "config.json" /\ nodes d !! "templates" <> Some Dir)
        \/ denied d target = Some e).
Proof.
  rewrite initialize_default_configs_eq. intros Hrun.
  pose proof (provide_all_spec _ _ _ _ Hrun) as ([Hdenied Hkeeps] & Hframe & _).
  apply provide_all_raises in Hrun
    as (target & default_path & fallback & Hin & Hnone & Hwhy).
  exists target, default_path, fallback. split; [done|].
  assert (Hbefore : nodes d !! target = None).
  { destruct (nodes d !! target) as [n|] eqn:Hn; [|done].
    apply Hkeeps in Hn. congruence. }
  split; [done|]. split; [done|].
  rewrite Hdenied in Hwhy. rewrite provided_targets in Hframe.
  unfold provided_files, default_template_files in Hin.
  cbn [fmap list_fmap] in Hin.
  assert (Htemplates : nodes d' !! "templates" = nodes d !! "templates")
    by (apply Hframe; not_listed).
  repeat (apply elem_of_cons in Hin as [[= -> -> ->]|Hin]);
    [| | | |by apply elem_of_nil in Hin];
    (destruct Hwhy as [Hdir|[Hparent|Hno]];
     [left; rewrite <-Hdir; symmetry; apply Hframe; not_listed
     | |by right; right]).
  - rewrite parent_error_eq in Hparent. by vm_compute (dirname _) in Hparent.
  - right; left. split; [done|]. intros Hdir.
    rewrite parent_error_eq in Hparent. vm_compute (dirname _) in Hparent.
    cbv iota in Hparent. by rewrite Htemplates, Hdir in Hparent.
  - right; left. split; [done|]. intros Hdir.
    rewrite parent_error_eq in Hparent. vm_compute (dirname _) in Hparent.
    cbv iota in Hparent. by rewrite Htemplates, Hdir in Hparent.
  - right; left. split; [done|]. intros Hdir.
    rewrite parent_error_eq in Hparent. vm_compute (dirname _) in Hparent.
    cbv iota in Hparent. by rewrite Htemplates, Hdir in Hparent.
Qed.


Lemma open_log_spec (d : Disk) :
  nodes d !! "logs" = Some Dir ->
  nodes d !! "logs/webapp.log" <> Some Dir ->
  denied d "logs/webapp.log" = None ->
  exists d0,
    open_log d = (Ok tt, d0) /\ keeps_all d d0
    /\ forall p, p <> "logs/webapp.log" -> nodes d0 !! p = nodes d !! p.
Proof.
  intros Hlogs Hlog Hdenied. unfold open_log, disk_open_append.
  rewrite parent_error_eq. vm_compute (dirname _). cbv iota.
  rewrite Hlogs, Hdenied.
  destruct (nodes d !! "logs/webapp.log") as [[|content]|] eqn:Hfile; [done| |].
  - exists d. split; [done|]. split; [apply keeps_all_refl|done].
  - eexists. split; [reflexivity|]. split; [by apply keeps_all_insert|].
    intros p Hp. cbn. by rewrite lookup_insert_ne.
Qed.

(** The loop of [create_upload_dirs], for any list of names. *)
Lemma create_dirs_spec (dirs : list string) (d : Disk) (r : Result unit)
    (d' : Disk) :
  for_each (fun directory =>
              found ← disk_exists directory;
              if negb (found : bool) then disk_makedirs directory
              else mret tt) dirs d
  = (r, d') ->
  keeps_all d d'
  /\ (forall p, p ∉ dirs -> nodes d' !! p = nodes d !! p)
  /\ match r with
     | Ok _ =>
         forall p, p ∈ dirs ->
           nodes d' !! p = Some (default Dir (nodes d !! p))
     | Raise e =>
         exists p, p ∈ dirs /\ nodes d' !! p = None /\ denied d p = Some e
     end.
Proof.
  revert d. induction dirs as [|directory dirs IH]; intros d.
  { intros [= <- <-]. split; [apply keeps_all_refl|]. split; [done|].
    intros p Hp. by apply elem_of_nil in Hp. }
  cbn [for_each]. rewrite !io_bind_eq. unfold disk_exists at 1.
  cbv beta iota.
  assert (Hno : ~ is_Some (None : option Node))
    by (rewrite <-not_eq_None_Some; tauto).
  assert (Hstep : exists r1 d1,
            (if negb (bool_decide (is_Some (nodes d !! directory)))
             then disk_makedirs directory else mret tt) d = (r1, d1)
            /\ keeps_all d d1
            /\ (forall p, p <> directory -> nodes d1 !! p = nodes d !! p)
            /\ match r1 with
               | Ok _ => nodes d1 !! directory
                         = Some (default Dir (nodes d !! directory))
               | Raise e => d1 = d /\ nodes d !! directory = None
                            /\ denied d directory = Some e
               end).
  { destruct (nodes d !! directory) as [n|] eqn:Hdir.
    - rewrite bool_decide_eq_true_2 by eauto. exists (Ok tt), d.
      split; [done|]. split; [apply keeps_all_refl|]. by rewrite Hdir.
    - rewrite bool_decide_eq_false_2 by done. cbn [negb].
      unfold disk_makedirs. rewrite Hdir.
      destruct (denied d directory) as [e|] eqn:Hdenied.
      + exists (Raise e), d. split; [done|].
        split; [apply keeps_all_refl|done].
      + eexists (Ok tt), _. split; [reflexivity|].
        split; [by apply keeps_all_insert|]. cbn. split.
        * intros p Hp. by rewrite lookup_insert_ne.
        * by rewrite lookup_insert_eq. }
  destruct Hstep as (r1 & d1 & -> & Hkeeps & Hframe & Hhead).
  destruct r1 as [[]|e].
  - intros (Hkeeps' & Hframe' & Hrest)%IH.
    split; [by eapply keeps_all_trans|]. split.
    { intros p [Hne Hp]%not_elem_of_cons. by rewrite Hframe', Hframe. }
    destruct r as [[]|e].
    + intros p Hp. destruct (decide (p = directory)) as [->|Hne].
      * destruct Hkeeps' as [_ Hkeeps']. by apply Hkeeps'.
      * apply elem_of_cons in Hp as [?|Hp]; [done|].
        rewrite <-(Hframe p) by done. by apply Hrest.
    + destruct Hrest as (p & Hp & Hnone & Hdenied). exists p.
      split; [by right|]. split; [done|].
      destruct Hkeeps as [<- _]. done.
  - intros [= <- <-]. destruct Hhead as (-> & Hnone & Hdenied).
    split; [apply keeps_all_refl|]. split; [done|].
    exists directory. split; [left|done].
Qed.

(** X20: the program cannot start in a directory without [logs]: the log
    file is opened before [create_upload_dirs] runs, so start-up raises
    and has created neither a directory nor a file. *)
Theorem X20_startup_needs_logs (d : Disk) :
  nodes d !! "logs" <> Some Dir ->
  exists e, startup d = (Raise e, d).
Proof.
  intros Hlogs. unfold startup, open_log, disk_open_append.
  rewrite io_bind_eq, parent_error_eq. vm_compute (dirname _). cbv iota.
  destruct (nodes d !! "logs") as [[|content]|]; [done| |]; eauto.
Qed.


(** *** Saving the configuration *)

Lemma parent_error_insert_inv (d : Disk) (p q content : string) :
  parent_error (with_nodes d (<[q := File content]> (nodes d))) p = None ->
  parent_error d p = None.
Proof.
  rewrite !parent_error_eq. destruct (dirname p) as [|a dir]; [done|].
  cbn [nodes with_nodes].
  destruct (decide (String a dir = q)) as [<-|Hne].
  - by rewrite lookup_insert_eq.
  - by rewrite lookup_insert_ne.
Qed.

Lemma parent_error_insert (d : Disk) (p q : string) (n : Node) :
  dirname p <> q ->
  parent_error (with_nodes d (<[q := n]> (nodes d))) p = parent_error d p.
Proof.
  intros Hne. rewrite !parent_error_eq. destruct (dirname p) as [|a dir];
    [done|]. cbn [nodes with_nodes]. by rewrite lookup_insert_ne.
Qed.

(** A sequence of writes changes nothing but the files it names, and
    neither makes nor removes a directory. *)
Lemma write_all_frame (files : list (string * string)) (d : Disk)
    (r : Result unit) (d' : Disk) :
  for_each (fun '(p, content) => disk_write p content) files d = (r, d') ->
  denied d' = denied d
  /\ (forall p, p ∉ files.*1 -> nodes d' !! p = nodes d !! p)
  /\ (forall p, nodes d' !! p = Some Dir <-> nodes d !! p = Some Dir).
Proof.
  revert d. induction files as [|[q content] files IH]; intros d.
  { by intros [= <- <-]. }
  cbn [for_each]. rewrite io_bind_eq.
  destruct (disk_write_cases q content d)
    as [(e & -> & _)|(-> & _ & Hq & _)].
  { by intros [= <- <-]. }
  intros (Hdenied & Hframe & Hdirs)%IH. split; [done|]. split.
  - intros p [Hne Hp]%not_elem_of_cons. rewrite Hframe by done.
    cbn. by rewrite lookup_insert_ne.
  - intros p. rewrite Hdirs. cbn. destruct (decide (p = q)) as [->|Hne].
    + rewrite lookup_insert_eq. split; [done|]. intros Hdir. by destruct Hq.
    + by rewrite lookup_insert_ne.
Qed.

(** The writes that return normally were all possible on the disk at the
    start, and leave the files with the submitted texts. *)
Lemma write_all_ok_inv (files : list (string * string)) (d d' : Disk) :
  for_each (fun '(p, content) => disk_write p content) files d
  = (Ok tt, d') ->
  Forall (fun f => parent_error d f.1 = None
                   /\ nodes d !! f.1 <> Some Dir
                   /\ denied d f.1 = None) files
  /\ d' = with_nodes d (foldl (fun m f => <[f.1 := File f.2]> m)
                          (nodes d) files).
Proof.
  revert d. induction files as [|[q content] files IH]; intros d.
  { intros [= <-]. split; [constructor|by destruct d]. }
  cbn [for_each foldl fst snd]. rewrite io_bind_eq.
  destruct (disk_write_cases q content d)
    as [(e & -> & _)|(-> & Hparent & Hq & Hdenied)]; [done|].
  intros [Hall ->]%IH. split; [|done].
  apply Forall_cons. split; [done|].
  eapply Forall_impl; [exact Hall|]. intros [p c]. cbn [fst nodes with_nodes denied].
  intros (Hparent' & Hp & Hdenied').
  apply parent_error_insert_inv in Hparent'.
  split; [done|]. split; [|done].
  destruct (decide (p = q)) as [->|Hne]; [done|].
  by rewrite lookup_insert_ne in Hp.
Qed.

Lemma write_all_ok (files : list (string * string)) (d : Disk) :
  Forall (fun f => parent_error d f.1 = None
                   /\ nodes d !! f.1 <> Some Dir
                   /\ denied d f.1 = None) files ->
  (forall f, f ∈ files -> dirname f.1 ∉ files.*1) ->
  for_each (fun '(p, content) => disk_write p content) files d
  = (Ok tt, with_nodes d (foldl (fun m f => <[f.1 := File f.2]> m)
                            (nodes d) files)).
Proof.
  revert d. induction files as [|[q content] files IH]; intros d Hall Hdirs.
  { by destruct d. }
  apply Forall_cons in Hall as [(Hparent & Hq & Hdenied) Hall].
  cbn [for_each foldl fst snd]. rewrite io_bind_eq.
  rewrite disk_write_ok by done. rewrite IH; [done| |].
  - rewrite Forall_forall in Hall. apply Forall_forall. intros [p c] Hin.
    destruct (Hall _ Hin) as (Hparent' & Hp & Hdenied').
    cbn [fst nodes with_nodes denied] in *.
    assert (Hdir : dirname p <> q).
    { intros <-. apply (Hdirs (p, c)); [by right|]. left. }
    rewrite parent_error_insert by done. split; [done|]. split; [|done].
    destruct (decide (p = q)) as [->|Hne].
    + by rewrite lookup_insert_eq.
    + by rewrite lookup_insert_ne.
  - intros f Hin Hdir. apply (Hdirs f); by right.
Qed.

(** [save_templates] as the writes of the three templates followed by the
    write of the configuration. *)
Lemma save_templates_eq (data : gmap string string) (d : Disk) :
  save_templates data d
  = match for_each (fun '(p, content) => disk_write p content)
            [("templates/active_message.txt",
              default EmptyString (data !! "active_template"));
             ("templates/inactive_message.txt",
              default EmptyString (data !! "inactive_template"));
             ("templates/no_instruction_message.txt",
              default EmptyString (data !! "no_instruction_template"))] d
    with
    | (Ok _, d3) =>
        match disk_write "config.json"
                (json_dump (submitted_config data)) d3 with
        | (Ok _, d') => (Ok saved_response, d')
        | (Raise e, d') => (Ok (not_saved_response e), d')
        end
    | (Raise e, d') => (Ok (not_saved_response e), d')
    end.
Proof.
  unfold save_templates. rewrite io_bind_eq.
  change (for_each _ (submitted_templates data) d) with
    (for_each (fun '(p, content) => disk_write p content)
       [("templates/active_message.txt",
         default EmptyString (data !! "active_template"));
        ("templates/inactive_message.txt",
         default EmptyString (data !! "inactive_template"));
        ("templates/no_instruction_message.txt",
         default EmptyString (data !! "no_instruction_template"))] d).
  by destruct (for_each _ _ d) as [[[]|e] d3].
Qed.

Lemma disk_write_denied (p content : string) (d : Disk) (e : Exn) :
  parent_error d p = None -> nodes d !! p <> Some Dir ->
  denied d p = Some e ->
  disk_write p content d = (Raise e, d).
Proof.
  intros Hparent Hp Hdenied. unfold disk_write. rewrite Hparent, Hdenied.
  by destruct (nodes d !! p) as [[|old]|].
Qed.

Lemma parent_error_template (d : Disk) (p : string) :
  p ∈ template_paths ->
  parent_error d p = None <-> nodes d !! "templates" = Some Dir.
Proof.
  intros Hp. rewrite parent_error_eq. unfold template_paths in Hp.
  repeat (apply elem_of_cons in Hp as [->|Hp]);
    [| | |by apply elem_of_nil in Hp];
    vm_compute (dirname _); cbv iota;
    by destruct (nodes d !! "templates") as [[|content]|].
Qed.

(** The loop of [save_templates] when the three templates can be
    written. *)
Lemma templates_written (data : gmap string string) (d : Disk) :
  nodes d !! "templates" = Some Dir ->
  (forall p, p ∈ template_paths ->
     nodes d !! p <> Some Dir /\ denied d p = None) ->
  for_each (fun '(p, content) => disk_write p content)
    [("templates/active_message.txt",
      default EmptyString (data !! "active_template"));
     ("templates/inactive_message.txt",
      default EmptyString (data !! "inactive_template"));
     ("templates/no_instruction_message.txt",
      default EmptyString (data !! "no_instruction_template"))] d
  = (Ok tt,
     with_nodes d
       (<["templates/no_instruction_message.txt" :=
            File (default EmptyString (data !! "no_instruction_template"))]>
          (<["templates/inactive_message.txt" :=
               File (default EmptyString (data !! "inactive_template"))]>
             (<["templates/active_message.txt" :=
                  File (default EmptyString (data !! "active_template"))]>
                (nodes d))))).
Proof.
  intros Htemplates Hpaths. rewrite write_all_ok; [reflexivity| |].
  - assert (Hone : forall p (c : string), p ∈ template_paths ->
              parent_error d (p, c).1 = None
              /\ nodes d !! (p, c).1 <> Some Dir
              /\ denied d (p, c).1 = None).
    { intros p c Hp. cbn [fst]. split; [by apply parent_error_template|].
      by apply Hpaths. }
    apply Forall_cons. split; [apply Hone; left|].
    apply Forall_cons. split; [apply Hone; right; left|].
    apply Forall_cons. split; [apply Hone; right; right; left|].
    apply Forall_nil_2.
  - intros f Hf.
    repeat (apply elem_of_cons in Hf as [->|Hf]);
      [| | |by apply elem_of_nil in Hf];
      cbn [fst]; vm_compute (dirname _); not_listed.
Qed.

(** A save that answers with success was possible from the start, and
    leaves exactly the four files rewritten. *)
Lemma save_ok_inv (data : gmap string string) (d d' : Disk) :
  save_templates data d = (Ok saved_response, d') ->
  (nodes d !! "templates" = Some Dir
   /\ forall p, p ∈ configuration_files ->
        nodes d !! p <> Some Dir /\ denied d p = None)
  /\ d' = with_nodes d
       (<["config.json" := File (json_dump (submitted_config data))]>
       (<["templates/no_instruction_message.txt" :=
            File (default EmptyString (data !! "no_instruction_template"))]>
          (<["templates/inactive_message.txt" :=
               File (default EmptyString (data !! "inactive_template"))]>
             (<["templates/active_message.txt" :=
                  File (default EmptyString (data !! "active_template"))]>
                (nodes d))))).
Proof.
  rewrite save_templates_eq.
  destruct (for_each _ _ d) as [[[]|e] d3] eqn:Hloop; [|done].
  pose proof (write_all_frame _ _ _ _ Hloop) as (Hdenied & _ & Hdirs).
  apply write_all_ok_inv in Hloop as [Hall ->].
  destruct (disk_write_cases "config.json"
              (json_dump (submitted_config data))
              (with_nodes d
                 (foldl (fun m f => <[f.1 := File f.2]> m) (nodes d)
                    [("templates/active_message.txt",
                      default EmptyString (data !! "active_template"));
                     ("templates/inactive_message.txt",
                      default EmptyString (data !! "inactive_template"));
                     ("templates/no_instruction_message.txt",
                      default EmptyString
                        (data !! "no_instruction_template"))])))
    as [(e & -> & _)|(-> & _ & Hconfig & Hno)]; [done|].
  intros [= <-]. split; [|reflexivity].
  apply Forall_cons in Hall as [(Hparent & H1) Hall].
  apply Forall_cons in Hall as [(_ & H2) Hall].
  apply Forall_cons in Hall as [(_ & H3) _].
  cbn [fst] in *. split.
  { apply (parent_error_template d "templates/active_message.txt");
      [left|done]. }
  intros p Hp. unfold configuration_files, template_paths in Hp.
  repeat (apply elem_of_cons in Hp as [->|Hp]);
    [| | | |by apply elem_of_nil in Hp]; try done.
  split; [by rewrite Hdirs in Hconfig|by rewrite Hdenied in Hno].
Qed.

Lemma save_ok (data : gmap string string) (d : Disk) :
  nodes d !! "templates" = Some Dir ->
  (forall p, p ∈ configuration_files ->
     nodes d !! p <> Some Dir /\ denied d p = None) ->
  save_templates data d
  = (Ok saved_response,
     with_nodes d
       (<["config.json" := File (json_dump (submitted_config data))]>
       (<["templates/no_instruction_message.txt" :=
            File (default EmptyString (data !! "no_instruction_template"))]>
          (<["templates/inactive_message.txt" :=
               File (default EmptyString (data !! "inactive_template"))]>
             (<["templates/active_message.txt" :=
                  File (default EmptyString (data !! "active_template"))]>
                (nodes d)))))).
Proof.
  intros Htemplates Hpaths. rewrite save_templates_eq.
  rewrite templates_written; [|done|by intros p Hp; apply Hpaths; right].
  destruct (Hpaths "config.json") as [Hconfig Hno]; [left|].
  rewrite disk_write_ok; [done| | |done].
  - rewrite parent_error_eq. by vm_compute (dirname _).
  - cbn [nodes with_nodes]. by rewrite !lookup_insert_ne.
Qed.

(** X22: [save_templates] answers with success exactly when [templates]
    is a directory and each of the four files can be written: none of
    them is a directory and none is denied. *)
Theorem X22_save_succeeds_iff (data : gmap string string) (d : Disk) :
  (exists d', save_templates data d = (Ok saved_response, d'))
  <-> (nodes d !! "templates" = Some Dir
       /\ forall p, p ∈ configuration_files ->
            nodes d !! p <> Some Dir /\ denied d p = None).
Proof.
  split.
  - intros [d' Hsave]. by apply save_ok_inv in Hsave as [? _].
  - intros [Htemplates Hpaths]. eexists. by apply save_ok.
Qed.

Lemma saved_files_spec (data : gmap string string) (d d' : Disk) :
  save_templates data d = (Ok saved_response, d') ->
  nodes d' !! "templates/active_message.txt"
  = Some (File (default EmptyString (data !! "active_template")))
  /\ nodes d' !! "templates/inactive_message.txt"
     = Some (File (default EmptyString (data !! "inactive_template")))
  /\ nodes d' !! "templates/no_instruction_message.txt"
     = Some (File (default EmptyString (data !! "no_instruction_template")))
  /\ nodes d' !! "config.json"
     = Some (File (json_dump
                     {| notification_contact1 :=
                          default EmptyString (data !! "notification_contact1");
                        notification_contact2 :=
                          default EmptyString (data !! "notification_contact2");
                        user_data_type :=
                          default "shs" (data !! "user_data_type") |}))
  /\ (forall p, p ∉ configuration_files -> nodes d' !! p = nodes d !! p)
  /\ denied d' = denied d.
Proof.
  intros [_ ->]%save_ok_inv. cbn [nodes with_nodes denied].
  split; [by rewrite !lookup_insert_ne, lookup_insert_eq by done|].
  split; [by rewrite !lookup_insert_ne, lookup_insert_eq by done|].
  split; [by rewrite !lookup_insert_ne, lookup_insert_eq by done|].
  split; [by rewrite lookup_insert_eq|]. split; [|done].
  intros p Hp. unfold configuration_files, template_paths in Hp.
  repeat (apply not_elem_of_cons in Hp as [? Hp]).
  by rewrite !lookup_insert_ne.
Qed.

(** X23: after a save that answered with success the three template
    files hold the submitted texts (the empty text for a template that
    was not submitted), [config.json] holds the dump of the submitted
    configuration with its defaults, and nothing else has changed. *)
Theorem X23_saved_files (data : gmap string string) (d d' : Disk) :
  save_templates data d = (Ok saved_response, d') ->
  nodes d' !! "templates/active_message.txt"
  = Some (File (default EmptyString (data !! "active_template")))
  /\ nodes d' !! "templates/inactive_message.txt"
     = Some (File (default EmptyString (data !! "inactive_template")))
  /\ nodes d' !! "templates/no_instruction_message.txt"
     = Some (File (default EmptyString (data !! "no_instruction_template")))
  /\ nodes d' !! "config.json"
     = Some (File (json_dump
                     {| notification_contact1 :=
                          default EmptyString (data !! "notification_contact1");
                        notification_contact2 :=
                          default EmptyString (data !! "notification_contact2");
                        user_data_type :=
                          default "shs" (data !! "user_data_type") |}))
  /\ (forall p, p ∉ configuration_files -> nodes d' !! p = nodes d !! p)
  /\ denied d' = denied d.
Proof. apply saved_files_spec. Qed.


(** X25: whatever texts are submitted and whatever the disk is like,
    [save_templates] raises nothing: it answers with success or with the
    error of code 400, changes no path but the four files, and neither
    makes nor removes a directory. *)
Theorem X25_save_touches_only_its_files (data : gmap string string)
    (d : Disk) :
  exists resp d',
    save_templates data d = (Ok resp, d')
    /\ (resp = saved_response
        \/ exists e, resp = not_saved_response e /\ resp_code resp = 400)
    /\ (forall p, p ∉ configuration_files -> nodes d' !! p = nodes d !! p)
    /\ (forall p, nodes d' !! p = Some Dir <-> nodes d !! p = Some Dir).
Proof.
  rewrite save_templates_eq.
  destruct (for_each _ _ d) as [r d3] eqn:Hloop.
  apply write_all_frame in Hloop as (_ & Hframe & Hdirs).
  assert (Hframe' : forall p, p ∉ configuration_files ->
                      nodes d3 !! p = nodes d !! p).
  { intros p [_ Hp]%not_elem_of_cons. by apply Hframe. }
  destruct r as [[]|e]; [|do 2 eexists; split; [reflexivity|]; eauto 6].
  destruct (disk_write_cases "config.json"
              (json_dump (submitted_config data)) d3)
    as [(e & -> & _)|(-> & _ & Hconfig & _)];
    do 2 eexists; (split; [reflexivity|]); [eauto 6|].
  split; [by left|]. cbn [nodes with_nodes]. split.
  - intros p Hp. rewrite <-Hframe' by done.
    apply not_elem_of_cons in Hp as [Hne _]. by rewrite lookup_insert_ne.
  - intros p. rewrite <-Hdirs. destruct (decide (p = "config.json")) as [->|Hne].
    + rewrite lookup_insert_eq. split; [done|]. intros Hdir. by destruct Hconfig.
    + by rewrite lookup_insert_ne.
Qed.

(** *** From the saved files to their readers *)

Lemma disk_exists_true (p : string) (d : Disk) :
  is_Some (nodes d !! p) -> disk_exists p d = (Ok true, d).
Proof. intros Hp. unfold disk_exists. by rewrite bool_decide_eq_true_2. Qed.

Lemma disk_read_file (p content : string) (d : Disk) :
  nodes d !! p = Some (File content) ->
  disk_read p d = (Ok (PyText.universal_newlines content), d).
Proof.
  intros Hp. unfold disk_read, disk_read_stored. by rewrite io_bind_eq, Hp.
Qed.

Lemma universal_newlines_no_cr (s : string) :
  PyText.no_cr s = true -> PyText.universal_newlines s = s.
Proof.
  induction s as [|c s IH]; [done|]. cbn [PyText.no_cr PyText.universal_newlines].
  intros [Hc Hs]%andb_true_iff. apply negb_true_iff in Hc. rewrite Hc.
  by rewrite IH.
Qed.

Lemma read_template_into_file (templates_data : gmap string string)
    (template_file content : string) (d : Disk) :
  nodes d !! ("templates/" +:+ template_file) = Some (File content) ->
  read_template_into templates_data template_file d
  = (Ok (<[PyStr.replace ".txt" EmptyString template_file :=
             PyText.universal_newlines content]>
           templates_data), d).
Proof.
  intros Hfile. unfold read_template_into. cbv zeta.
  rewrite io_bind_eq, disk_exists_true by eauto. cbv iota.
  by rewrite io_bind_eq, (disk_read_file _ content).
Qed.



End DiskFacts.

(** ** The properties on concrete pages, requests and directories *)

Lemma X1_send_succeeds_iff_witness :
  snd (send_whatsapp_message_webapp (py := Demo.lib) Demo.page_ok
         "Asha" "+911" "Hello") = Ok true
  /\ send_whatsapp_message_webapp (py := Demo.lib) Scenario.page_unreachable
       "Asha" "+911" "Hello"
     = ([DriverGet (send_url (py := Demo.lib) "+911" "Hello")], Ok false).
Proof.
  split.
  - destruct (X1_send_succeeds_iff (py := Demo.lib) Demo.page_ok
                "Asha" "+911" "Hello") as [Hiff _].
    apply Hiff. split; [reflexivity|].
    eexists. split; [left|]. split; reflexivity.
  - destruct (X1_send_succeeds_iff (py := Demo.lib) Scenario.page_unreachable
                "Asha" "+911" "Hello") as (_ & _ & Hraise).
    exact (Hraise "WebDriverException" eq_refl).
Defined.

Lemma X2_first_working_button_wins_witness :
  snd (click_send_button Scenario.page_second_button send_button_xpaths)
  = Ok true
  /\ length (fst (click_send_button Scenario.page_second_button
                    send_button_xpaths)) = 4.
Proof.
  destruct (X2_first_working_button_wins Scenario.page_second_button
              [default EmptyString (send_button_xpaths !! 0)] []
              (default EmptyString (send_button_xpaths !! 1))) as [Hwins _].
  change (click_send_button Scenario.page_second_button send_button_xpaths)
    with (click_send_button Scenario.page_second_button
            ([default EmptyString (send_button_xpaths !! 0)]
             ++ default EmptyString (send_button_xpaths !! 1) :: [])).
  rewrite Hwins.
  - split; reflexivity.
  - apply Forall_cons. split; [reflexivity|apply Forall_nil_2].
  - reflexivity.
Defined.

Lemma X3_start_accepted_iff_witness :
  is_Some (snd (start_messaging message_status Demo.uploads))
  /\ start_messaging message_status Scenario.only_notes
     = ({| resp_key := "error"; resp_text := "Please upload a CSV file first";
           resp_code := 400 |}, None).
Proof.
  split.
  - destruct (X3_start_accepted_iff message_status Demo.uploads) as [Hiff _].
    apply Hiff. split; [reflexivity|].
    exists ("old.csv", 10%Z). split; [left|reflexivity].
  - destruct (X3_start_accepted_iff message_status Scenario.only_notes)
      as (_ & _ & Hnone).
    apply Hnone; reflexivity.
Defined.

Lemma X4_start_takes_newest_csv_witness :
  exists i name ctime,
    csv_uploads Demo.uploads !! i = Some (name, ctime)
    /\ (name, ctime) ∈ Demo.uploads
    /\ PyStr.endswith name ".csv" = true
    /\ "uploads/new.csv" = "uploads/" +:+ name
    /\ forall j f, csv_uploads Demo.uploads !! j = Some f ->
         (snd f <= ctime)%Z /\ (j < i -> (snd f < ctime)%Z).
Proof.
  exact (X4_start_takes_newest_csv message_status Demo.uploads
           "uploads/new.csv" eq_refl).
Defined.

Lemma X5_allowed_file_iff_witness :
  allowed_file "Clients.CSV" = true /\ allowed_file "README" = false.
Proof.
  split.
  - apply (X5_allowed_file_iff "Clients.CSV").
    exists "Clients", "CSV". split; [reflexivity|]. split; [reflexivity|].
    left. reflexivity.
  - apply (X5_allowed_file_iff "README"). reflexivity.
Defined.

Lemma X6_uploads_the_start_ignores_witness :
  allowed_file "new.csv" = true
  /\ allowed_file "notes.txt" = true /\ seen_by_start "notes.txt" = false.
Proof.
  destruct (X6_uploads_the_start_ignores "notes") as (Hseen & _ & Htxt).
  split; [apply Hseen; reflexivity|exact Htxt].
Defined.

Lemma X8_entries_are_only_appended_witness :
  messages (Scenario.seen_at 12) `prefix_of` messages (Scenario.seen_at 17)
  /\ length (messages (Scenario.seen_at 12)) = 1
  /\ length (messages (Scenario.seen_at 17)) = 2.
Proof.
  split; [|split; reflexivity].
  pose proof (X8_entries_are_only_appended (py := Demo.lib) Demo.world_ok
                "uploads/new.csv" Demo.stale_status 12 17
                (Scenario.seen_at 12) (Scenario.seen_at 17)) as Hgrow.
  cbv zeta in Hgrow.
  destruct Hgrow as [Hgrow _]; [reflexivity|reflexivity|lia|exact Hgrow].
Defined.

Lemma X10_one_page_load_per_due_record_witness :
  omap get_url
    (fst (run_messaging_process (py := Scenario.lib) Demo.world_ok
            "uploads/new.csv"))
  = ["https://web.whatsapp.com/send?phone=+919876543210&text="
     +:+ "Dear%20Asha%2C%20hearing%20on%202024-01-07.";
     "https://web.whatsapp.com/send?phone=+919000011111&text="
     +:+ "Dear%20Chitra%2C%20instruct%20us%20on%20Chitra%20v%20Board."].
Proof.
  rewrite (X10_one_page_load_per_due_record (py := Scenario.lib)
             Demo.world_ok "uploads/new.csv"
             {| notification_contact1 := EmptyString;
                notification_contact2 := EmptyString;
                user_data_type := "shs" |}
             [Demo.row_A; Demo.row_B; Demo.row_C]
             "Dear {Client}, hearing on {NextHearingDate}."
             "Dear {Client}, instruct us on {Parties}.");
    reflexivity.
Defined.

Lemma X12_outcome_independent_of_previous_status_witness :
  final_status (py := Demo.lib) Demo.world_ok "uploads/new.csv"
    Demo.stale_status
  = final_status (py := Demo.lib) Demo.world_ok "uploads/new.csv"
      message_status
  /\ total (final_status (py := Demo.lib) Scenario.world_missing_column
              "uploads/new.csv" Demo.stale_status) = 5.
Proof.
  split.
  - destruct (X12_outcome_independent_of_previous_status (py := Demo.lib)
                Demo.world_ok "uploads/new.csv" Demo.stale_status
                message_status) as (_ & _ & _ & _ & Hsame & _).
    eapply Hsame; reflexivity.
  - destruct (X12_outcome_independent_of_previous_status (py := Demo.lib)
                Scenario.world_missing_column "uploads/new.csv"
                Demo.stale_status message_status)
      as (_ & _ & _ & _ & _ & _ & Hstale).
    exact (Hstale "KeyError" eq_refl).
Defined.

Lemma X13_one_run_after_the_other_witness :
  let s_3 := sys_run (py := Demo.lib) Demo.world_ok sys_init
               (StartRequest Demo.uploads :: replicate 3 (WorkerStep 0)) in
  is_running (sys_status s_3) = true
  /\ resp_code
     <$> sys_responses (sys_step (py := Demo.lib) Demo.world_ok s_3
                          (StartRequest Demo.uploads))
     = [200; 400].
Proof.
  cbv zeta.
  destruct (X13_one_run_after_the_other (py := Demo.lib) Demo.world_ok
              Demo.uploads Demo.uploads "uploads/new.csv" 3 eq_refl)
    as [Hduring _].
  destruct Hduring as (Hrunning & _ & _ & Hcodes); [vm_compute; lia|].
  split; [exact Hrunning|exact Hcodes].
Defined.

Lemma X14_upload_success_means_valid_witness :
  exists file_filename df_columns rows,
    Some "clients.csv" = Some file_filename
    /\ uw_read_csv Scenario.upload_world
         ("uploads/" +:+ secure_filename (WebLib := Scenario.web) file_filename)
       = Ok (df_columns, rows)
    /\ (forall col, col ∈ required_columns -> col ∈ df_columns).
Proof.
  destruct (X14_upload_success_means_valid (web := Scenario.web)
              Scenario.upload_world (Some "clients.csv")
              (match upload_csv (web := Scenario.web) Scenario.upload_world
                       (Some "clients.csv") with
               | Ok out => out
               | Raise _ => upload_refused EmptyString None
               end))
    as (file_filename & df_columns & rows & Hfile & _ & _ & _ & Hread
        & Hcolumns & _); [reflexivity|reflexivity|].
  exists file_filename, df_columns, rows. auto.
Defined.

Lemma X15_upload_saved_before_validation_witness :
  upload_csv (web := Scenario.web) Scenario.upload_world (Some "broken.csv")
  = Ok (upload_refused ("Error reading CSV: " +:+ "ParserError")
          (Some "uploads/broken.csv"))
  /\ upload_csv (web := Scenario.web) Scenario.upload_world
       (Some "notes.pdf")
     = Ok (upload_refused "Invalid file format" None).
Proof.
  split.
  - destruct (X15_upload_saved_before_validation (web := Scenario.web)
                Scenario.upload_world "broken.csv") as [Hsaved _].
    destruct Hsaved as [Herror _]; [done|reflexivity|reflexivity|].
    exact (Herror "ParserError" eq_refl).
  - destruct (X15_upload_saved_before_validation (web := Scenario.web)
                Scenario.upload_world "notes.pdf") as (_ & _ & _ & Hformat).
    apply Hformat; [done|reflexivity].
Defined.


Lemma X17_defaults_idempotent_witness :
  initialize_default_configs (web := Scenario.web) Scenario.configured
  = (Ok tt, Scenario.configured).
Proof.
  destruct (X17_defaults_idempotent (web := Scenario.web)
              Scenario.configured) as [Hnothing _].
  apply Hnothing. intros p Hp.
  repeat (apply elem_of_cons in Hp as [->|Hp]);
    [| | | |by apply elem_of_nil in Hp]; by eexists.
Defined.

Lemma X18_defaults_content_witness :
  let run := initialize_default_configs (web := Scenario.web)
               Scenario.installed in
  nodes (snd run) !! "config.json" = Some (File "+1;+2;shs")
  /\ nodes (snd run) !! "templates/inactive_message.txt"
     = Some (File ("Dear {Client}, please contact us regarding your case "
                   +:+ "{Parties}. Best regards, Legal Team.")).
Proof.
  cbv zeta. split.
  - apply (X18_defaults_content (web := Scenario.web) Scenario.installed
             (snd (initialize_default_configs (web := Scenario.web)
                     Scenario.installed))
             "config.json" "default_config.json"
             (json_dump (WebLib := Scenario.web) default_config));
      [reflexivity|left|reflexivity].
  - apply (X18_defaults_content (web := Scenario.web) Scenario.installed
             (snd (initialize_default_configs (web := Scenario.web)
                     Scenario.installed))
             "templates/inactive_message.txt"
             "default_templates/inactive_message.txt"
             ("Dear {Client}, please contact us regarding your case "
              +:+ "{Parties}. Best regards, Legal Team."));
      [reflexivity|right; right; left|reflexivity].
Defined.


Lemma X20_startup_needs_logs_witness :
  exists e,
    startup (web := Scenario.web) Scenario.empty_directory
    = (Raise e, Scenario.empty_directory).
Proof.
  apply (X20_startup_needs_logs (web := Scenario.web)
           Scenario.empty_directory).
  discriminate.
Defined.


Lemma X22_save_succeeds_iff_witness :
  exists d',
    save_templates (web := Scenario.web) Scenario.form Scenario.installed
    = (Ok saved_response, d').
Proof.
  apply (X22_save_succeeds_iff (web := Scenario.web) Scenario.form
           Scenario.installed).
  split; [reflexivity|]. intros p Hp.
  repeat (apply elem_of_cons in Hp as [->|Hp]);
    [| | | |by apply elem_of_nil in Hp]; split; (discriminate || reflexivity).
Defined.

Lemma X23_saved_files_witness :
  let d' := snd (save_templates (web := Scenario.web) Scenario.form
                   Scenario.installed) in
  nodes d' !! "templates/active_message.txt"
  = Some (File "Dear {Client}, see you on {NextHearingDate}.")
  /\ nodes d' !! "templates/inactive_message.txt" = Some (File EmptyString)
  /\ nodes d' !! "config.json" = Some (File "+911;+912;shs")
  /\ nodes d' !! "default_config.json" = Some (File "+1;+2;shs").
Proof.
  cbv zeta.
  destruct (X23_saved_files (web := Scenario.web) Scenario.form
              Scenario.installed
              (snd (save_templates (web := Scenario.web) Scenario.form
                      Scenario.installed)) eq_refl)
    as (Hactive & Hinactive & _ & Hconfig & Hframe & _).
  split; [exact Hactive|]. split; [exact Hinactive|].
  split; [exact Hconfig|]. rewrite Hframe; [reflexivity|].
  repeat (apply not_elem_of_cons; split; [discriminate|]).
  apply not_elem_of_nil.
Defined.



